(** * agentic-news-trm: admission gates, enrichment chain and cost tracker

    A shallow embedding of the gate pipeline ([src/gates]), the four-stage
    chain executor ([src/processors/chain_executor.py] with the models of
    [src/models/schemas.py]), the cost tracker ([src/pipeline/cost_tracker.py])
    and the per-article processing loop of the orchestrator, followed by the
    properties established about them.

    Python values are modelled as the interpreter has them: [int] as [Z],
    [float] as the binary64 numbers of the kernel, [str] as a list of Unicode
    code points, exceptions as the error case of a result type. *)

From Stdlib Require Import ZArith NArith List String Ascii Bool Lia.
From Stdlib Require Import Floats.PrimFloat Floats.SpecFloat Floats.FloatOps.
From Stdlib Require Import Floats.FloatAxioms.
Import ListNotations.

Set Implicit Arguments.
Set Warnings "-inexact-float,-register-all".

Open Scope Z_scope.

(* ================================================================== *)
(** * Python strings *)
(* ================================================================== *)

(** A [str] is a sequence of code points; [len] counts code points. *)
Definition pystr := list N.

(** Source literals are written as UTF-8 text and decoded here. *)
Fixpoint utf8_go (s : string) (acc : N) (pending : nat) : pystr :=
  match s with
  | EmptyString => []
  | String c s' =>
      let b := N_of_ascii c in
      match pending with
      | O =>
          if (b <? 128)%N then b :: utf8_go s' 0%N 0%nat
          else if (b <? 224)%N then utf8_go s' (b mod 32)%N 1%nat
          else if (b <? 240)%N then utf8_go s' (b mod 16)%N 2%nat
          else utf8_go s' (b mod 8)%N 3%nat
      | S O => (acc * 64 + b mod 64)%N :: utf8_go s' 0%N 0%nat
      | S k => utf8_go s' (acc * 64 + b mod 64)%N k
      end
  end.

Definition utf8 (s : string) : pystr := utf8_go s 0%N 0%nat.

Definition pystr_eqb (a b : pystr) : bool :=
  if list_eq_dec N.eq_dec a b then true else false.

Definition len {A : Type} (l : list A) : Z := Z.of_nat (List.length l).

(** [str.isspace] of one character: the code points CPython's
    [_PyUnicode_IsWhitespace] accepts; [strip()] and [split()] without
    argument cut on exactly these. *)
Definition isspace (c : N) : bool :=
  ((9 <=? c) && (c <=? 13) || (28 <=? c) && (c <=? 32)
   || (c =? 133) || (c =? 160) || (c =? 5760)
   || (8192 <=? c) && (c <=? 8202)
   || (c =? 8232) || (c =? 8233) || (c =? 8239) || (c =? 8287)
   || (c =? 12288))%N.

Fixpoint lstrip (s : pystr) : pystr :=
  match s with
  | [] => []
  | c :: s' => if isspace c then lstrip s' else s
  end.

Definition rstrip (s : pystr) : pystr := rev (lstrip (rev s)).

(** [s.strip()] *)
Definition strip (s : pystr) : pystr := rstrip (lstrip s).

(** [s.split()]: the maximal runs of non-whitespace characters, in order.
    [cur] holds the run being read, last character first. *)
Fixpoint split_go (s : pystr) (cur : pystr) : list pystr :=
  match s with
  | [] => match cur with [] => [] | _ => [rev cur] end
  | c :: s' =>
      if isspace c then
        match cur with
        | [] => split_go s' []
        | _ => rev cur :: split_go s' []
        end
      else split_go s' (c :: cur)
  end.

Definition split (s : pystr) : list pystr := split_go s [].

Fixpoint startswith (p s : pystr) : bool :=
  match p, s with
  | [], _ => true
  | _ :: _, [] => false
  | a :: p', b :: s' => (a =? b)%N && startswith p' s'
  end.

(** [sub in s] *)
Fixpoint contains (sub s : pystr) : bool :=
  startswith sub s ||
  match s with
  | [] => false
  | _ :: s' => contains sub s'
  end.

(** [s.count(sub)]: occurrences of [sub] found from left to right without
    overlap; [skip] characters of the last occurrence remain to be passed. *)
Fixpoint count_go (sub s : pystr) (skip : nat) : Z :=
  match s with
  | [] => 0
  | _ :: s' =>
      match skip with
      | S k => count_go sub s' k
      | O =>
          if startswith sub s
          then 1 + count_go sub s' (List.length sub - 1)
          else count_go sub s' 0%nat
      end
  end.

Definition count (s sub : pystr) : Z :=
  match sub with
  | [] => len s + 1
  | _ => count_go sub s 0%nat
  end.

(** [sep.join(parts)] *)
Fixpoint join (sep : pystr) (parts : list pystr) : pystr :=
  match parts with
  | [] => []
  | [p] => p
  | p :: rest => p ++ sep ++ join sep rest
  end.

(** [str.lower()] follows the Unicode case tables of the interpreter, which
    are no part of the repository: the gates take it as a parameter. *)
Class PyText := { lower : pystr -> pystr }.

(** An f-string is kept as its literal text with the values of its
    replacement fields, in order: how Python prints a number ([{x}],
    [{x:.2f}]) is the interpreter's business. *)
Inductive fvalue :=
| FInt (n : Z)
| FFloat (digits : Z) (x : float)
| FStr (s : pystr).

Record fstring := Fmt { ftemplate : string; fvalues : list fvalue }.

(* ================================================================== *)
(** * Python numbers *)
(* ================================================================== *)

(** [float(n)] for an int: the nearest binary64 number, ties to even. *)
Definition float_of_int (n : Z) : float :=
  SF2Prim (binary_normalize prec emax n 0 false).

(** [a / b] on two ints is the correctly rounded quotient. The quotient is
    first taken with at least 55 significant bits and a sticky last bit, then
    rounded once. For [b = 0] Python raises [ZeroDivisionError], and
    [OverflowError] when the quotient leaves the binary64 range; here these
    two cases give [nan] and an infinity, and [int_true_div_checked] below
    turns them into the exceptions. *)
Definition int_true_div (a b : Z) : float :=
  if b =? 0 then nan
  else
    let neg := xorb (a <? 0) (b <? 0) in
    let n := Z.abs a in
    let d := Z.abs b in
    let k := Z.max 0 (56 + Z.log2 d - Z.log2 n) in
    let q := (n * 2 ^ k) / d in
    let sticky := if (n * 2 ^ k) mod d =? 0 then 0 else 1 in
    let m := 2 * q + sticky in
    SF2Prim (binary_normalize prec emax (if neg then - m else m) (- (k + 1)) neg).

(** [min(x, y)] and [max(x, y)] on floats: the first argument stays unless
    the second is strictly smaller (larger). *)
Definition float_min (x y : float) : float := if (y <? x)%float then y else x.
Definition float_max (x y : float) : float := if (x <? y)%float then y else x.

(* ================================================================== *)
(** * Enumerations ([src/models/enums.py]) *)
(* ================================================================== *)

Inductive GateResult := PASS | FAIL.

Inductive RankingCategory := IRRELEVANT | LOW | MODERATE | HIGH | CRITICAL.

Inductive ProcessingStage :=
  SUMMARIZATION | TOPIC_EXTRACTION | IMPACT_ANALYSIS | RANKING.

Inductive ImpactDirection := POSITIVE | NEGATIVE | NEUTRAL.

Inductive TimeHorizon := SHORT_TERM | MEDIUM_TERM | LONG_TERM.

Inductive TopicCategory :=
  ECONOMY | POLITICS | SECURITY | ENERGY | INTERNATIONAL | MONETARY | OTHER.

Inductive TraderAction := MONITOR | ALERT | URGENT.

(** The [.value] of a member. *)
Definition RankingCategory_value (c : RankingCategory) : pystr :=
  match c with
  | IRRELEVANT => utf8 "Irrelevant"
  | LOW => utf8 "Low"
  | MODERATE => utf8 "Moderate"
  | HIGH => utf8 "High"
  | CRITICAL => utf8 "Critical"
  end.

Definition ImpactDirection_value (d : ImpactDirection) : pystr :=
  match d with
  | POSITIVE => utf8 "POSITIVE"
  | NEGATIVE => utf8 "NEGATIVE"
  | NEUTRAL => utf8 "NEUTRAL"
  end.

Definition TimeHorizon_value (h : TimeHorizon) : pystr :=
  match h with
  | SHORT_TERM => utf8 "short-term"
  | MEDIUM_TERM => utf8 "medium-term"
  | LONG_TERM => utf8 "long-term"
  end.

Definition TopicCategory_value (t : TopicCategory) : pystr :=
  match t with
  | ECONOMY => utf8 "economy"
  | POLITICS => utf8 "politics"
  | SECURITY => utf8 "security"
  | ENERGY => utf8 "energy"
  | INTERNATIONAL => utf8 "international"
  | MONETARY => utf8 "monetary"
  | OTHER => utf8 "other"
  end.

Definition TraderAction_value (a : TraderAction) : pystr :=
  match a with
  | MONITOR => utf8 "monitor"
  | ALERT => utf8 "alert"
  | URGENT => utf8 "urgent"
  end.

(** Members in definition order, as the enum class iterates them. *)
Definition ImpactDirection_members := [POSITIVE; NEGATIVE; NEUTRAL].
Definition TimeHorizon_members := [SHORT_TERM; MEDIUM_TERM; LONG_TERM].
Definition TopicCategory_members :=
  [ECONOMY; POLITICS; SECURITY; ENERGY; INTERNATIONAL; MONETARY; OTHER].

(* ================================================================== *)
(** * Constants ([src/config/constants.py]) *)
(* ================================================================== *)

Definition MIN_CONTENT_LENGTH : Z := 200.
Definition MAX_CONTENT_LENGTH : Z := 50000.
Definition REQUIRED_SPANISH_RATIO : float := 0.3%float.

Definition TOPIC_KEYWORDS : list (TopicCategory * list pystr) :=
  [ (ECONOMY, map utf8
      ["economía"; "económico"; "dólar"; "peso"; "inflación"; "banco";
       "comercio"; "inversión"; "pib"; "crecimiento"; "fiscal"; "tributaria";
       "empleo"; "desempleo"; "salario"; "importación"; "exportación";
       "deuda"; "déficit"; "superávit"; "mercado"; "bolsa"; "acciones"]%string);
    (POLITICS, map utf8
      ["gobierno"; "petro"; "congreso"; "reforma"; "ley"; "ministro";
       "presidente"; "política"; "elecciones"; "votación"; "senado";
       "cámara"; "decreto"; "acuerdo"; "negociación"; "coalición"]%string);
    (SECURITY, map utf8
      ["conflicto"; "farc"; "eln"; "seguridad"; "violencia"; "militar";
       "policía"; "guerrilla"; "disidencia"; "ataque"; "atentado";
       "secuestro"; "narcotráfico"; "droga"; "paz"; "acuerdo de paz"]%string);
    (ENERGY, map utf8
      ["petróleo"; "ecopetrol"; "energía"; "carbón"; "gas"; "crudo";
       "barril"; "exploración"; "producción"; "refinería"; "oleoducto";
       "fracking"; "yacimiento"; "reservas"; "opep"; "wti"; "brent"]%string);
    (INTERNATIONAL, map utf8
      ["venezuela"; "ecuador"; "brasil"; "estados unidos"; "china";
       "exportación"; "tratado"; "acuerdo comercial"; "otan"; "onu";
       "frontera"; "migración"; "diplomacia"; "embajada"; "trump"]%string);
    (MONETARY, map utf8
      ["banco de la república"; "banrep"; "tasa de interés";
       "política monetaria"; "emisión"; "reservas internacionales";
       "tipo de cambio"; "devaluación"; "revaluación";
       "intervención cambiaria"; "junta directiva"]%string) ].

(** [[keyword for keywords_list in TOPIC_KEYWORDS.values()
      for keyword in keywords_list]] *)
Definition ALL_RELEVANT_KEYWORDS : list pystr :=
  flat_map (fun kv => snd kv) TOPIC_KEYWORDS.

Definition MIN_KEYWORD_MATCHES : Z := 2.

Definition ANTHROPIC_INPUT_COST_PER_1M : float := 3.0%float.
Definition ANTHROPIC_OUTPUT_COST_PER_1M : float := 15.0%float.

(* ================================================================== *)
(** * Gates ([src/gates], [src/models/schemas.py]) *)
(* ================================================================== *)

(** [RawNews]. The scrape time and the date partition derived from it play
    no part in the gates modelled here and are left out. *)
Module RawNews.
Record t := Build {
  article_id : pystr;
  url : pystr;
  title : pystr;
  content : pystr;
  source : pystr;
  hash_content : pystr
}.
End RawNews.

(** [GateCheckResult], without the wall-clock stamp [checked_at] (and the
    partition key computed from it). *)
Module GateCheckResult.
Record t := Build {
  article_id : pystr;
  gate_name : pystr;
  gate_result : GateResult;
  gate_reason : fstring
}.

(** The [passed] property. *)
Definition passed (r : t) : bool :=
  match gate_result r with PASS => true | FAIL => false end.
End GateCheckResult.

(** The [Gate] protocol: a name and a check. *)
Record Gate := {
  name : pystr;
  check : RawNews.t -> GateCheckResult.t
}.

(** [BaseGate._create_result] *)
Definition _create_result (self_name : pystr) (article : RawNews.t)
    (passed : bool) (reason : fstring) : GateCheckResult.t :=
  GateCheckResult.Build (RawNews.article_id article) self_name
    (if passed then PASS else FAIL) reason.

Module GatePipeline.

(** The loop of [run]: [results] is the list appended to so far. *)
Fixpoint run_loop (gates : list Gate) (article : RawNews.t)
    (results : list GateCheckResult.t) : bool * list GateCheckResult.t :=
  match gates with
  | [] => (true, results)
  | gate :: rest =>
      let result := check gate article in
      let results := results ++ [result] in
      if negb (GateCheckResult.passed result) then (false, results)
      else run_loop rest article results
  end.

Definition run (gates : list Gate) (article : RawNews.t)
    : bool * list GateCheckResult.t :=
  run_loop gates article [].

(** The loop of [run_all_gates]. *)
Fixpoint run_all_gates_loop (gates : list Gate) (article : RawNews.t)
    (results : list GateCheckResult.t) (all_passed : bool)
    : bool * list GateCheckResult.t :=
  match gates with
  | [] => (all_passed, results)
  | gate :: rest =>
      let result := check gate article in
      let results := results ++ [result] in
      let all_passed :=
        if negb (GateCheckResult.passed result) then false else all_passed in
      run_all_gates_loop rest article results all_passed
  end.

Definition run_all_gates (gates : list Gate) (article : RawNews.t)
    : bool * list GateCheckResult.t :=
  run_all_gates_loop gates article [] true.

End GatePipeline.

Module ContentQualityGate.
Section WithText.
Context {text : PyText}.

Definition name : pystr := utf8 "content_quality".

Definition spanish_indicators : list pystr :=
  map utf8
    ["el "; "la "; "los "; "las "; "de "; "del "; "en "; "y ";
     "que "; "es "; "un "; "una "; "por "; "para "; "con ";
     "gobierno"; "presidente"; "país"; "economía"; "colombia";
     "ación"; "ción"; "dad"; "mente"; "año"; "más"; "según"]%string.

(** [sum(text_lower.count(indicator) for indicator in spanish_indicators)] *)
Definition spanish_count (text_lower : pystr) : Z :=
  fold_left (fun acc indicator => acc + count text_lower indicator)
    spanish_indicators 0.

(** [_detect_spanish_ratio]. The division has a non-zero divisor and a
    dividend bounded by a multiple of the text length, so neither exception
    of [/] can occur on a Python string. *)
Definition _detect_spanish_ratio (text : pystr) : float :=
  let text_lower := lower text in
  let spanish_count := spanish_count text_lower in
  let words := split text_lower in
  if len words =? 0 then 0.0%float
  else float_min (int_true_div spanish_count (len words)) 1.0%float.

Definition check (article : RawNews.t) : GateCheckResult.t :=
  let content_length := len (RawNews.content article) in
  if content_length <? MIN_CONTENT_LENGTH then
    _create_result name article false
      (Fmt "Content too short: {content_length} < {MIN_CONTENT_LENGTH} chars"
         [FInt content_length; FInt MIN_CONTENT_LENGTH])
  else if content_length >? MAX_CONTENT_LENGTH then
    _create_result name article false
      (Fmt "Content too long: {content_length} > {MAX_CONTENT_LENGTH} chars"
         [FInt content_length; FInt MAX_CONTENT_LENGTH])
  else
    let spanish_ratio := _detect_spanish_ratio (RawNews.content article) in
    if (spanish_ratio <? REQUIRED_SPANISH_RATIO)%float then
      _create_result name article false
        (Fmt "Spanish ratio too low: {spanish_ratio:.2f} < {REQUIRED_SPANISH_RATIO}"
           [FFloat 2 spanish_ratio; FFloat (-1) REQUIRED_SPANISH_RATIO])
    else if match RawNews.title article with [] => true | _ => false end
            || match strip (RawNews.title article) with [] => true | _ => false end
    then
      _create_result name article false (Fmt "Missing title" [])
    else if match RawNews.content article with [] => true | _ => false end
            || match strip (RawNews.content article) with [] => true | _ => false end
    then
      _create_result name article false (Fmt "Missing content" [])
    else
      _create_result name article true
        (Fmt "Quality checks passed (length: {content_length}, spanish: {spanish_ratio:.2f})"
           [FInt content_length; FFloat 2 spanish_ratio]).

Definition gate : Gate := Build_Gate name check.

End WithText.
End ContentQualityGate.

Module TopicRelevanceGate.
Section WithText.
Context {text : PyText}.

Definition name : pystr := utf8 "topic_relevance".

(** [_count_keyword_matches] *)
Definition _count_keyword_matches (text : pystr) : Z * list pystr :=
  let text_lower := lower text in
  let matched_keywords :=
    filter (fun keyword => contains keyword text_lower) ALL_RELEVANT_KEYWORDS in
  (len matched_keywords, matched_keywords).

Definition check (article : RawNews.t) : GateCheckResult.t :=
  let full_text :=
    RawNews.title article ++ utf8 " " ++ RawNews.content article in
  let '(match_count, matched_keywords) := _count_keyword_matches full_text in
  if match_count <? MIN_KEYWORD_MATCHES then
    _create_result name article false
      (Fmt "Insufficient keyword matches: {match_count} < {MIN_KEYWORD_MATCHES}"
         [FInt match_count; FInt MIN_KEYWORD_MATCHES])
  else
    let keywords_sample := firstn 5 matched_keywords in
    _create_result name article true
      (Fmt "Found {match_count} relevant keywords (e.g., {', '.join(keywords_sample)})"
         [FInt match_count; FStr (join (utf8 ", ") keywords_sample)]).

Definition gate : Gate := Build_Gate name check.

End WithText.
End TopicRelevanceGate.

(* ================================================================== *)
(** * Python objects, exceptions *)
(* ================================================================== *)

(** The objects [json.loads] builds. A [dict] keeps its keys in insertion
    order and holds each key once; [PDict] lists its items in that order. *)
Inductive pyval :=
| PNone
| PBool (b : bool)
| PInt (n : Z)
| PFloat (x : float)
| PStr (s : pystr)
| PList (l : list pyval)
| PDict (d : list (pystr * pyval)).

Inductive exn :=
| TypeError
| ValueError
| AttributeError
| ZeroDivisionError
| OverflowError
| ValidationError   (* pydantic: a model refused its input *)
| ClientError.      (* whatever the text-generation client raises *)

Inductive result (A : Type) :=
| Ok (a : A)
| Raise (e : exn).
Arguments Ok {A} a.
Arguments Raise {A} e.

Definition result_bind {A B} (c : result A) (k : A -> result B) : result B :=
  match c with
  | Ok a => k a
  | Raise e => Raise e
  end.

Notation "'let*' x ':=' c 'in' k" := (result_bind c (fun x => k))
  (at level 10, x pattern, c at level 100, k at level 200).

Definition is_ok {A} (r : result A) : bool :=
  match r with Ok _ => true | Raise _ => false end.

(** [a / b] on ints, with its exceptions. *)
Definition int_true_div_checked (a b : Z) : result float :=
  if b =? 0 then Raise ZeroDivisionError
  else
    let q := int_true_div a b in
    if is_infinity q then Raise OverflowError else Ok q.

Fixpoint lookup (key : pystr) (d : list (pystr * pyval)) : option pyval :=
  match d with
  | [] => None
  | (k, v) :: d' => if pystr_eqb k key then Some v else lookup key d'
  end.

(** [obj.get(key, default)]: only a dict has the method. *)
Definition get (obj : pyval) (key : string) (default : pyval) : result pyval :=
  match obj with
  | PDict d =>
      Ok (match lookup (utf8 key) d with Some v => v | None => default end)
  | _ => Raise AttributeError
  end.

(** What [for x in obj] runs through. *)
Definition iter (obj : pyval) : result (list pyval) :=
  match obj with
  | PList l => Ok l
  | PStr s => Ok (map (fun c => PStr [c]) s)
  | PDict d => Ok (map (fun kv => PStr (fst kv)) d)
  | _ => Raise TypeError
  end.

(** [E(value)] for a [str]-valued enum [E]: the member with that value, or
    [ValueError]. *)
Definition enum_call {E : Type} (members : list E) (value : E -> pystr)
    (v : pyval) : result E :=
  match v with
  | PStr s =>
      match find (fun m => pystr_eqb (value m) s) members with
      | Some m => Ok m
      | None => Raise ValueError
      end
  | _ => Raise ValueError
  end.

Definition TopicCategory_call := enum_call TopicCategory_members TopicCategory_value.
Definition ImpactDirection_call := enum_call ImpactDirection_members ImpactDirection_value.
Definition TimeHorizon_call := enum_call TimeHorizon_members TimeHorizon_value.

Definition int_of_bool (b : bool) : Z := if b then 1 else 0.

(** [obj <= k] for an int literal [k]. *)
Definition le_int (obj : pyval) (k : Z) : result bool :=
  match obj with
  | PInt n => Ok (n <=? k)
  | PBool b => Ok (int_of_bool b <=? k)
  | PFloat x => Ok (x <=? float_of_int k)%float
  | _ => Raise TypeError
  end.

(** [obj == k] for an int literal [k]. *)
Definition eq_int (obj : pyval) (k : Z) : bool :=
  match obj with
  | PInt n => n =? k
  | PBool b => int_of_bool b =? k
  | PFloat x => (x =? float_of_int k)%float
  | _ => false
  end.

(** [table.get(key, default)] on a dict literal with int keys: the key is
    hashed first, which a list or a dict refuses. *)
Definition int_table_get {V : Type} (table : list (Z * V)) (key : pyval)
    (default : V) : result V :=
  match key with
  | PList _ | PDict _ => Raise TypeError
  | _ =>
      Ok (match find (fun kv => eq_int key (fst kv)) table with
          | Some kv => snd kv
          | None => default
          end)
  end.

(* ================================================================== *)
(** * What the executor does not own *)
(* ================================================================== *)

(** The text-generation client, the clock, the market snapshot and the
    library that validates model fields. [World] is the state of everything
    outside the process; a call to the client moves it.

    - [elapsed_ms t0 t1] is [int((t1 - t0).total_seconds() * 1000)].
    - [confidence_field v] is pydantic's validation of [v] for a field
      declared [float = Field(ge=0.0, le=1.0)]: coercion to float, then the
      bounds.
    - [lax_int v] is pydantic's coercion to [int] of an input that is not an
      int (a bool, or a float without fractional part). *)

(** A prompt is one of the four templates of [src/models/prompts.py] with
    the values its [format] call fills in; the fixed text of the template is
    not spelled out. *)
Inductive prompt :=
| STEP_1_SUMMARIZATION (title content : pystr)
| STEP_2_TOPIC_EXTRACTION (summary title : pystr)
| STEP_3_IMPACT_ANALYSIS (summary topics market_context : pystr)
| STEP_4_RANKING (summary topics : pystr) (impact : fstring).

Class Runtime := {
  World : Type;
  datetime : Type;
  now : World -> datetime;
  elapsed_ms : datetime -> datetime -> Z;
  MarketSnapshot : Type;
  to_context_string : MarketSnapshot -> pystr;
  call_with_json_response :
    prompt -> World -> result (pyval * Z * Z) * World;
  confidence_field : pyval -> option float;
  lax_int : pyval -> option Z
}.

(* ================================================================== *)
(** * Chain output models ([src/models/schemas.py]) *)
(* ================================================================== *)

(** A field declared [str] takes a str and nothing else. *)
Definition str_field (v : pyval) : option pystr :=
  match v with PStr s => Some s | _ => None end.

(** A field declared [List[str]] takes a list of strs. *)
Fixpoint all_str (l : list pyval) : option (list pystr) :=
  match l with
  | [] => Some []
  | v :: l' =>
      match str_field v, all_str l' with
      | Some s, Some r => Some (s :: r)
      | _, _ => None
      end
  end.

Definition list_str_field (v : pyval) : option (list pystr) :=
  match v with PList l => all_str l | _ => None end.

(** A model is built when every field validates and every field validator
    returns; otherwise the constructor raises [ValidationError]. *)
Definition validated {A} (o : option A) : result A :=
  match o with Some a => Ok a | None => Raise ValidationError end.

Definition as_validation_error {A} (r : result A) : result A :=
  match r with Ok a => Ok a | Raise _ => Raise ValidationError end.

Definition is_empty {A} (l : list A) : bool :=
  match l with [] => true | _ => false end.

Module SummarizationOutput.
Record t := Build { summary : pystr; cot_reasoning : pystr }.

Definition validate_summary (v : pystr) : result pystr :=
  if is_empty v || (len (strip v) <? 10) then Raise ValueError
  else Ok (strip v).

Definition new (summary cot_reasoning : pyval) : result t :=
  let* summary := validated (str_field summary) in
  let* cot_reasoning := validated (str_field cot_reasoning) in
  let* summary := as_validation_error (validate_summary summary) in
  Ok (Build summary cot_reasoning).
End SummarizationOutput.

Module TopicExtractionOutput.
Record t := Build {
  topics : list TopicCategory;
  cot_reasoning : pystr;
  confidence : float
}.

Definition validate_topics (v : list TopicCategory)
    : result (list TopicCategory) :=
  if is_empty v then Raise ValueError else Ok v.

Definition validate_confidence (v : float) : result float :=
  if negb ((0.0 <=? v) && (v <=? 1.0))%float then Raise ValueError else Ok v.

Definition new {rt : Runtime} (topics : list TopicCategory)
    (cot_reasoning confidence : pyval) : result t :=
  let* topics := as_validation_error (validate_topics topics) in
  let* cot_reasoning := validated (str_field cot_reasoning) in
  let* confidence := validated (confidence_field confidence) in
  let* confidence := as_validation_error (validate_confidence confidence) in
  Ok (Build topics cot_reasoning confidence).
End TopicExtractionOutput.

Module ImpactAnalysisOutput.
Record t := Build {
  direction : ImpactDirection;
  mechanisms : list pystr;
  confidence : float;
  time_horizon : TimeHorizon;
  cot_reasoning : pystr
}.

Definition validate_mechanisms (v : list pystr) : result (list pystr) :=
  if is_empty v then Raise ValueError else Ok v.

Definition new {rt : Runtime} (direction : ImpactDirection)
    (mechanisms confidence : pyval) (time_horizon : TimeHorizon)
    (cot_reasoning : pyval) : result t :=
  let* mechanisms := validated (list_str_field mechanisms) in
  let* mechanisms := as_validation_error (validate_mechanisms mechanisms) in
  let* confidence := validated (confidence_field confidence) in
  let* cot_reasoning := validated (str_field cot_reasoning) in
  Ok (Build direction mechanisms confidence time_horizon cot_reasoning).
End ImpactAnalysisOutput.

Module RankingOutput.
Record t := Build {
  score : Z;
  category : RankingCategory;
  justification : pystr;
  trader_action : TraderAction;
  cot_reasoning : pystr
}.

(** [score: int = Field(ge=1, le=5)] *)
Definition score_field {rt : Runtime} (v : pyval) : option Z :=
  match (match v with PInt n => Some n | _ => lax_int v end) with
  | Some n => if (1 <=? n) && (n <=? 5) then Some n else None
  | None => None
  end.

Definition validate_score (v : Z) : result Z :=
  if negb ((1 <=? v) && (v <=? 5)) then Raise ValueError else Ok v.

Definition validate_justification (v : pystr) : result pystr :=
  if is_empty v || (len (strip v) <? 20) then Raise ValueError
  else Ok (strip v).

Definition new {rt : Runtime} (score : pyval) (category : RankingCategory)
    (justification : pyval) (trader_action : TraderAction)
    (cot_reasoning : pyval) : result t :=
  let* score := validated (score_field score) in
  let* score := as_validation_error (validate_score score) in
  let* justification := validated (str_field justification) in
  let* justification :=
    as_validation_error (validate_justification justification) in
  let* cot_reasoning := validated (str_field cot_reasoning) in
  Ok (Build score category justification trader_action cot_reasoning).
End RankingOutput.

(** [ProcessedNews], without the partition key computed from
    [processed_at]. *)
Module ProcessedNews.
Section WithRuntime.
Context {rt : Runtime}.

Record t := Build {
  article_id : pystr;
  processing_stage : ProcessingStage;
  chain_step : Z;
  input_tokens : Z;
  output_tokens : Z;
  processing_time_ms : Z;
  processed_at : datetime;
  summary : option pystr;
  summary_cot : option pystr;
  topics : option (list TopicCategory);
  topics_cot : option pystr;
  topics_confidence : option float;
  impact_direction : option ImpactDirection;
  impact_mechanisms : option (list pystr);
  impact_confidence : option float;
  impact_time_horizon : option TimeHorizon;
  impact_cot : option pystr;
  ranking_score : option Z;
  ranking_category : option RankingCategory;
  ranking_justification : option pystr;
  ranking_trader_action : option TraderAction;
  ranking_cot : option pystr
}.

Definition total_tokens (self : t) : Z :=
  input_tokens self + output_tokens self.

Definition cost_usd (self : t) : result float :=
  let* input_m := int_true_div_checked (input_tokens self) 1000000 in
  let* output_m := int_true_div_checked (output_tokens self) 1000000 in
  let input_cost := (input_m * ANTHROPIC_INPUT_COST_PER_1M)%float in
  let output_cost := (output_m * ANTHROPIC_OUTPUT_COST_PER_1M)%float in
  Ok (input_cost + output_cost)%float.

End WithRuntime.
End ProcessedNews.

(* ================================================================== *)
(** * Chain executor ([src/processors/chain_executor.py]) *)
(* ================================================================== *)

Module ChainExecutor.
Section WithRuntime.
Context {rt : Runtime}.

(** A method of the executor runs against the world and either returns or
    raises. *)
Definition M (A : Type) : Type := World -> result A * World.

Definition ret {A} (a : A) : M A := fun w => (Ok a, w).

Definition bind {A B} (c : M A) (k : A -> M B) : M B :=
  fun w =>
    match c w with
    | (Ok a, w') => k a w'
    | (Raise e, w') => (Raise e, w')
    end.

Definition lift {A} (r : result A) : M A := fun w => (r, w).

Definition get_now : M datetime := fun w => (Ok (now w), w).

Notation "'do' x <- c ;; k" := (bind c (fun x => k))
  (at level 10, x pattern, c at level 100, k at level 200).

Definition step_result (A : Type) : Type := (A * Z * Z * Z)%type.

(** What step 1 makes of a parsed response. *)
Definition parse_step_1 (response_json : pyval) : result SummarizationOutput.t :=
  let* summary := get response_json "summary" (PStr []) in
  let* reasoning := get response_json "reasoning" (PStr []) in
  SummarizationOutput.new summary reasoning.

Definition execute_step_1 (article : RawNews.t)
    : M (step_result SummarizationOutput.t) :=
  do start_time <- get_now ;;
  let prompt :=
    STEP_1_SUMMARIZATION (RawNews.title article) (RawNews.content article) in
  do (response_json, input_tokens, output_tokens) <-
    call_with_json_response prompt ;;
  do summary_output <- lift (parse_step_1 response_json) ;;
  do end_time <- get_now ;;
  let processing_time_ms := elapsed_ms start_time end_time in
  ret (summary_output, input_tokens, output_tokens, processing_time_ms).

(** The loop over [topic_strings]: members are appended, a [ValueError] of
    the enum call is caught and the item skipped. *)
Fixpoint parse_topics (topic_strings : list pyval)
    (topics : list TopicCategory) : list TopicCategory :=
  match topic_strings with
  | [] => topics
  | topic_str :: rest =>
      match TopicCategory_call topic_str with
      | Ok topic => parse_topics rest (topics ++ [topic])
      | Raise _ => parse_topics rest topics
      end
  end.

(** What step 2 makes of a parsed response. *)
Definition parse_step_2 (response_json : pyval)
    : result TopicExtractionOutput.t :=
  let* topic_strings := get response_json "topics" (PList []) in
  let* items := iter topic_strings in
  let topics := parse_topics items [] in
  let* reasoning := get response_json "reasoning" (PStr []) in
  let* confidence := get response_json "confidence" (PFloat 0.5) in
  TopicExtractionOutput.new
    (if is_empty topics then [OTHER] else topics) reasoning confidence.

Definition execute_step_2 (article : RawNews.t) (summary : pystr)
    : M (step_result TopicExtractionOutput.t) :=
  do start_time <- get_now ;;
  let prompt := STEP_2_TOPIC_EXTRACTION summary (RawNews.title article) in
  do (response_json, input_tokens, output_tokens) <-
    call_with_json_response prompt ;;
  do topic_output <- lift (parse_step_2 response_json) ;;
  do end_time <- get_now ;;
  let processing_time_ms := elapsed_ms start_time end_time in
  ret (topic_output, input_tokens, output_tokens, processing_time_ms).

Definition topics_text (topics : list TopicCategory) : pystr :=
  join (utf8 ", ") (map TopicCategory_value topics).

(** What step 3 makes of a parsed response: the keyword arguments of the
    model are evaluated in order, then the model is built. *)
Definition parse_step_3 (response_json : pyval)
    : result ImpactAnalysisOutput.t :=
  let* direction_str := get response_json "direction" (PStr (utf8 "NEUTRAL")) in
  let* direction := ImpactDirection_call direction_str in
  let* mechanisms := get response_json "mechanisms" (PList []) in
  let* confidence := get response_json "confidence" (PFloat 0.5) in
  let* time_horizon_str :=
    get response_json "time_horizon" (PStr (utf8 "medium-term")) in
  let* time_horizon := TimeHorizon_call time_horizon_str in
  let* reasoning := get response_json "reasoning" (PStr []) in
  ImpactAnalysisOutput.new direction mechanisms confidence time_horizon
    reasoning.

Definition execute_step_3 (article : RawNews.t) (summary : pystr)
    (topics : list TopicCategory) (market_context : MarketSnapshot)
    : M (step_result ImpactAnalysisOutput.t) :=
  do start_time <- get_now ;;
  let market_context_str := to_context_string market_context in
  let prompt :=
    STEP_3_IMPACT_ANALYSIS summary (topics_text topics) market_context_str in
  do (response_json, input_tokens, output_tokens) <-
    call_with_json_response prompt ;;
  do impact_output <- lift (parse_step_3 response_json) ;;
  do end_time <- get_now ;;
  let processing_time_ms := elapsed_ms start_time end_time in
  ret (impact_output, input_tokens, output_tokens, processing_time_ms).

Definition score_to_category : list (Z * RankingCategory) :=
  [ (1, IRRELEVANT); (2, LOW); (3, MODERATE); (4, HIGH); (5, CRITICAL) ].

(** Lines 229-237 of the source: category and trader action of the score as
    the response declares it. *)
Definition map_score (score : pyval) : result (RankingCategory * TraderAction) :=
  let* category := int_table_get score_to_category score MODERATE in
  let* le2 := le_int score 2 in
  let* trader_action :=
    if le2 then Ok MONITOR
    else
      let* le4 := le_int score 4 in
      if le4 then Ok ALERT else Ok URGENT in
  Ok (category, trader_action).

Definition impact_text (impact : ImpactAnalysisOutput.t) : fstring :=
  Fmt "Direction: {impact.direction.value}, Mechanisms: {', '.join(impact.mechanisms)}, Confidence: {impact.confidence:.2f}, Time horizon: {impact.time_horizon.value}"
    [ FStr (ImpactDirection_value (ImpactAnalysisOutput.direction impact));
      FStr (join (utf8 ", ") (ImpactAnalysisOutput.mechanisms impact));
      FFloat 2 (ImpactAnalysisOutput.confidence impact);
      FStr (TimeHorizon_value (ImpactAnalysisOutput.time_horizon impact)) ].

(** What step 4 makes of a parsed response. *)
Definition parse_step_4 (response_json : pyval) : result RankingOutput.t :=
  let* score := get response_json "score" (PInt 3) in
  let* category_str := get response_json "category" (PStr (utf8 "Moderate")) in
  let* (category, trader_action) := map_score score in
  let* justification := get response_json "justification" (PStr []) in
  let* reasoning := get response_json "reasoning" (PStr []) in
  RankingOutput.new score category justification trader_action reasoning.

Definition execute_step_4 (article : RawNews.t) (summary : pystr)
    (topics : list TopicCategory) (impact : ImpactAnalysisOutput.t)
    : M (step_result RankingOutput.t) :=
  do start_time <- get_now ;;
  let impact_str := impact_text impact in
  let prompt := STEP_4_RANKING summary (topics_text topics) impact_str in
  do (response_json, input_tokens, output_tokens) <-
    call_with_json_response prompt ;;
  do ranking_output <- lift (parse_step_4 response_json) ;;
  do end_time <- get_now ;;
  let processing_time_ms := elapsed_ms start_time end_time in
  ret (ranking_output, input_tokens, output_tokens, processing_time_ms).

(** [execute_full_chain]. The [except] clause logs and re-raises, so a
    raising stage is a raising chain. The closing log line prints
    [processed.cost_usd], hence its evaluation before the return. *)
Definition execute_full_chain (article : RawNews.t)
    (market_context : MarketSnapshot) : M ProcessedNews.t :=
  let total_input_tokens := 0 in
  let total_output_tokens := 0 in
  let total_processing_time_ms := 0 in
  do (summary_output, in_tok, out_tok, proc_time) <- execute_step_1 article ;;
  let total_input_tokens := total_input_tokens + in_tok in
  let total_output_tokens := total_output_tokens + out_tok in
  let total_processing_time_ms := total_processing_time_ms + proc_time in
  do (topic_output, in_tok, out_tok, proc_time) <-
    execute_step_2 article (SummarizationOutput.summary summary_output) ;;
  let total_input_tokens := total_input_tokens + in_tok in
  let total_output_tokens := total_output_tokens + out_tok in
  let total_processing_time_ms := total_processing_time_ms + proc_time in
  do (impact_output, in_tok, out_tok, proc_time) <-
    execute_step_3 article (SummarizationOutput.summary summary_output)
      (TopicExtractionOutput.topics topic_output) market_context ;;
  let total_input_tokens := total_input_tokens + in_tok in
  let total_output_tokens := total_output_tokens + out_tok in
  let total_processing_time_ms := total_processing_time_ms + proc_time in
  do (ranking_output, in_tok, out_tok, proc_time) <-
    execute_step_4 article (SummarizationOutput.summary summary_output)
      (TopicExtractionOutput.topics topic_output) impact_output ;;
  let total_input_tokens := total_input_tokens + in_tok in
  let total_output_tokens := total_output_tokens + out_tok in
  let total_processing_time_ms := total_processing_time_ms + proc_time in
  do processed_at <- get_now ;;
  let processed :=
    ProcessedNews.Build
      (RawNews.article_id article) RANKING 4
      total_input_tokens total_output_tokens total_processing_time_ms
      processed_at
      (Some (SummarizationOutput.summary summary_output))
      (Some (SummarizationOutput.cot_reasoning summary_output))
      (Some (TopicExtractionOutput.topics topic_output))
      (Some (TopicExtractionOutput.cot_reasoning topic_output))
      (Some (TopicExtractionOutput.confidence topic_output))
      (Some (ImpactAnalysisOutput.direction impact_output))
      (Some (ImpactAnalysisOutput.mechanisms impact_output))
      (Some (ImpactAnalysisOutput.confidence impact_output))
      (Some (ImpactAnalysisOutput.time_horizon impact_output))
      (Some (ImpactAnalysisOutput.cot_reasoning impact_output))
      (Some (RankingOutput.score ranking_output))
      (Some (RankingOutput.category ranking_output))
      (Some (RankingOutput.justification ranking_output))
      (Some (RankingOutput.trader_action ranking_output))
      (Some (RankingOutput.cot_reasoning ranking_output)) in
  do _ <- lift (ProcessedNews.cost_usd processed) ;;
  ret processed.

End WithRuntime.
End ChainExecutor.

(* ================================================================== *)
(** * Cost tracker ([src/pipeline/cost_tracker.py]) *)
(* ================================================================== *)

(** One entry of [article_costs]: the dict appended per article. *)
Module CostRecord.
Record t := Build {
  article_id : pystr;
  input_tokens : Z;
  output_tokens : Z;
  total_tokens : Z;
  cost_usd : float;
  ranking_score : option Z;
  processing_time_ms : Z
}.
End CostRecord.

Module CostReport.
Record t := Build {
  date : pystr;
  total_articles : Z;
  total_input_tokens : Z;
  total_output_tokens : Z;
  total_tokens : Z;
  total_cost_usd : float;
  avg_tokens_per_article : float;
  avg_cost_per_article : float;
  min_cost_article : float;
  max_cost_article : float;
  processing_time_ms : Z;
  cost_breakdown : list CostRecord.t
}.

(** [CostReport(date=date)]: every other field at its default. *)
Definition of_date (date : pystr) : t :=
  Build date 0 0 0 0 0.0 0.0 0.0 0.0 0.0 0 [].
End CostReport.

Module CostTracker.

Record t := Build {
  total_input_tokens : Z;
  total_output_tokens : Z;
  total_cost_usd : float;
  article_costs : list CostRecord.t
}.

(** [__init__] *)
Definition init : t := Build 0 0 0.0 [].

Definition add_processed_article {rt : Runtime} (processed : ProcessedNews.t)
    (self : t) : result t :=
  let input_tokens := ProcessedNews.input_tokens processed in
  let output_tokens := ProcessedNews.output_tokens processed in
  let* cost_usd := ProcessedNews.cost_usd processed in
  Ok (Build
        (total_input_tokens self + input_tokens)
        (total_output_tokens self + output_tokens)
        (total_cost_usd self + cost_usd)%float
        (article_costs self ++
           [CostRecord.Build (ProcessedNews.article_id processed)
              input_tokens output_tokens
              (ProcessedNews.total_tokens processed) cost_usd
              (ProcessedNews.ranking_score processed)
              (ProcessedNews.processing_time_ms processed)])).

Definition get_total_tokens (self : t) : Z :=
  total_input_tokens self + total_output_tokens self.

Definition get_average_cost_per_article (self : t) : float :=
  if is_empty (article_costs self) then 0.0%float
  else (total_cost_usd self / float_of_int (len (article_costs self)))%float.

Definition get_average_tokens_per_article (self : t) : result float :=
  if is_empty (article_costs self) then Ok 0.0%float
  else int_true_div_checked (get_total_tokens self) (len (article_costs self)).

(** [min(costs)] and [max(costs)] of a list with first element [c]. *)
Definition min_of (c : float) (costs : list float) : float :=
  fold_left float_min costs c.
Definition max_of (c : float) (costs : list float) : float :=
  fold_left float_max costs c.

(** [generate_report(date)]; [today] is the date string the clock gives when
    [date] is [None]. *)
Definition generate_report (self : t) (date : option pystr) (today : pystr)
    : result CostReport.t :=
  let date := match date with None => today | Some d => d end in
  match map CostRecord.cost_usd (article_costs self) with
  | [] => Ok (CostReport.of_date date)
  | c :: costs =>
      let total_processing_time :=
        fold_left (fun acc a => acc + CostRecord.processing_time_ms a)
          (article_costs self) 0 in
      let* avg_tokens := get_average_tokens_per_article self in
      Ok (CostReport.Build date
            (len (article_costs self))
            (total_input_tokens self)
            (total_output_tokens self)
            (get_total_tokens self)
            (total_cost_usd self)
            avg_tokens
            (get_average_cost_per_article self)
            (min_of c costs)
            (max_of c costs)
            total_processing_time
            (article_costs self))
  end.

(** [check_cost_threshold]: the warning it logs is not modelled. *)
Definition check_cost_threshold (self : t) (threshold_usd : float) : bool :=
  (threshold_usd <? total_cost_usd self)%float.

Definition reset (self : t) : t := Build 0 0 0.0 [].

End CostTracker.

(* ================================================================== *)
(** * Processing loop ([src/pipeline/orchestrator.py]) *)
(* ================================================================== *)

Module PipelineOrchestrator.
Section WithRuntime.
Context {rt : Runtime}.

(** What the loop of [run_processing] changes: the tracker held by the
    orchestrator, the list [processed_articles], and the world. *)
Record state := State {
  cost_tracker : CostTracker.t;
  processed_articles : list ProcessedNews.t;
  world : World
}.

(** One turn of the loop: the body of the [try], and [continue] on any
    exception. *)
Definition process_article (market_snapshot : MarketSnapshot)
    (st : state) (article : RawNews.t) : state :=
  match ChainExecutor.execute_full_chain article market_snapshot (world st) with
  | (Ok processed, w) =>
      match CostTracker.add_processed_article processed (cost_tracker st) with
      | Ok tracker =>
          State tracker (processed_articles st ++ [processed]) w
      | Raise _ => State (cost_tracker st) (processed_articles st) w
      end
  | (Raise _, w) => State (cost_tracker st) (processed_articles st) w
  end.

(** The loop of [run_processing]; writing the processed articles to storage
    and logging the cost report follow it and change none of the three. *)
Fixpoint run_processing (articles : list RawNews.t)
    (market_snapshot : MarketSnapshot) (st : state) : state :=
  match articles with
  | [] => st
  | article :: rest =>
      run_processing rest market_snapshot
        (process_article market_snapshot st article)
  end.

End WithRuntime.
End PipelineOrchestrator.

(* ================================================================== *)
(** * Instances to run the definitions on *)
(* ================================================================== *)

(** Lower-casing on Basic Latin and Latin-1, where [str.lower()] moves
    [A-Z] and [À-Þ] (but [×]) by 32 and leaves the rest. *)
Definition latin1_lower_char (c : N) : N :=
  if ((65 <=? c) && (c <=? 90))%N then (c + 32)%N
  else if ((192 <=? c) && (c <=? 222) && negb (c =? 215))%N then (c + 32)%N
  else c.

Definition latin1 : PyText := {| lower := map latin1_lower_char |}.

(** A client that answers from a script: each call takes the next entry,
    and raises once the script is used up. The clock stands still, there is
    no market data, and only floats and the ints 0 and 1 are taken for a
    confidence, only ints for a score. *)
Definition scripted_call (p : prompt) (w : list (result (pyval * Z * Z)))
    : result (pyval * Z * Z) * list (result (pyval * Z * Z)) :=
  match w with
  | [] => (Raise ClientError, [])
  | r :: w' => (r, w')
  end.

Definition plain_confidence (v : pyval) : option float :=
  match v with
  | PFloat x => if ((0.0 <=? x) && (x <=? 1.0))%float then Some x else None
  | PInt n => if (0 <=? n) && (n <=? 1) then Some (float_of_int n) else None
  | _ => None
  end.

Definition scripted : Runtime := {|
  World := list (result (pyval * Z * Z));
  datetime := unit;
  now := fun _ => tt;
  elapsed_ms := fun _ _ => 0;
  MarketSnapshot := unit;
  to_context_string := fun _ => [];
  call_with_json_response := scripted_call;
  confidence_field := plain_confidence;
  lax_int := fun _ => None
|}.

(** Dict items and str objects from source text. *)
Definition item (key : string) (v : pyval) : pystr * pyval := (utf8 key, v).
Definition pstr (s : string) : pyval := PStr (utf8 s).

Definition sample_article : RawNews.t :=
  RawNews.Build (utf8 "a-1") (utf8 "https://cnnespanol.cnn.com/2025/01/01/reforma")
    (utf8 "Gobierno anuncia reforma tributaria")
    (utf8 "El gobierno de Colombia anuncia una reforma tributaria.")
    (utf8 "CNN_Colombia") (utf8 "h1").

Definition good_step_1 : result (pyval * Z * Z) :=
  Ok (PDict [ item "reasoning" (pstr "Actores: gobierno.");
              item "summary" (pstr "El gobierno anuncia una reforma tributaria.") ],
      100, 50).

Definition good_step_2 : result (pyval * Z * Z) :=
  Ok (PDict [ item "reasoning" (pstr "Reforma fiscal.");
              item "topics" (PList [pstr "politics"; pstr "economy"]);
              item "confidence" (PFloat 0.9) ],
      120, 40).

Definition good_step_3 : result (pyval * Z * Z) :=
  Ok (PDict [ item "reasoning" (pstr "Mayor recaudo.");
              item "direction" (pstr "POSITIVE");
              item "mechanisms" (PList [pstr "recaudo fiscal"]);
              item "confidence" (PFloat 0.7);
              item "time_horizon" (pstr "short-term") ],
      150, 60).

Definition good_step_4 : result (pyval * Z * Z) :=
  Ok (PDict [ item "reasoning" (pstr "Impacto alto.");
              item "score" (PInt 4);
              item "category" (pstr "High");
              item "justification" (pstr "La reforma cambia el recaudo y mueve el peso.") ],
      130, 45).

(** A pipeline of three gates; [sample_article] passes the first and is too
    short for the second. *)
Definition sample_gates : list Gate :=
  [ TopicRelevanceGate.gate (text := latin1);
    ContentQualityGate.gate (text := latin1);
    TopicRelevanceGate.gate (text := latin1) ].

(** An article of the length and language the content-quality gate asks
    for. *)
Definition long_article : RawNews.t :=
  RawNews.Build (utf8 "a-3") (utf8 "https://cnnespanol.cnn.com/2025/01/03/y")
    (utf8 "La economía crece")
    (utf8 "El gobierno de Colombia anuncia una reforma tributaria para el año que viene. La economía del país crece más de lo previsto, según el presidente, y la inflación baja en las ciudades con mayor actividad de la nación colombiana.")
    (utf8 "CNN_Colombia") (utf8 "h3").

(** An article whose text holds one lexicon keyword, twice over. *)
Definition export_article : RawNews.t :=
  RawNews.Build (utf8 "a-2") (utf8 "https://cnnespanol.cnn.com/2025/01/02/x")
    (utf8 "Sube la EXPORTACIÓN")
    (utf8 "La exportación subió este mes.")
    (utf8 "CNN_Colombia") (utf8 "h2").

(** Stage-3 and stage-4 responses that declare no direction and no score. *)
Definition step_3_without_direction : result (pyval * Z * Z) :=
  Ok (PDict [ item "reasoning" (pstr "Mayor recaudo.");
              item "mechanisms" (PList [pstr "recaudo fiscal"]);
              item "confidence" (PFloat 0.7);
              item "time_horizon" (pstr "short-term") ],
      150, 60).

Definition step_4_without_score : result (pyval * Z * Z) :=
  Ok (PDict [ item "reasoning" (pstr "Impacto medio.");
              item "category" (pstr "High");
              item "justification" (pstr "La reforma cambia el recaudo y mueve el peso.") ],
      130, 45).


(** Stage-4 responses: a score in range with nothing else, and a score out
    of range in an otherwise valid response. *)
Definition step_4_score_only : result (pyval * Z * Z) :=
  Ok (PDict [ item "score" (PInt 3); item "category" (pstr "Moderate") ],
      130, 45).

Definition step_4_score_7 : result (pyval * Z * Z) :=
  Ok (PDict [ item "reasoning" (pstr "Impacto total.");
              item "score" (PInt 7);
              item "category" (pstr "Critical");
              item "justification" (pstr "La reforma cambia el recaudo y mueve el peso.") ],
      130, 45).

(** A stage-2 response whose confidence is out of bounds. *)
Definition step_2_confidence_7 : result (pyval * Z * Z) :=
  Ok (PDict [ item "reasoning" (pstr "Reforma fiscal.");
              item "topics" (PList [pstr "politics"]);
              item "confidence" (PFloat 7.0) ],
      120, 40).

Definition sample_impact : ImpactAnalysisOutput.t :=
  ImpactAnalysisOutput.Build POSITIVE [utf8 "recaudo fiscal"] 0.7 SHORT_TERM
    (utf8 "Mayor recaudo.").

(** An orchestrator with a fresh tracker, before a world in which the
    second stage of the first chain is refused and a full chain follows. *)
Definition stage_2_refused : PipelineOrchestrator.state (rt := scripted) :=
  PipelineOrchestrator.State (rt := scripted) CostTracker.init []
    [good_step_1; step_2_confidence_7;
     good_step_1; good_step_2; good_step_3; good_step_4].

(* ================================================================== *)
(** * The tables and counts the specification words name *)
(* ================================================================== *)

(** The fixed table [{1:Irrelevant, 2:Low, 3:Moderate, 4:High, 5:Critical}];
    outside it the specification gives no category. *)
Definition category_of_score (s : Z) : option RankingCategory :=
  match s with
  | 1 => Some IRRELEVANT
  | 2 => Some LOW
  | 3 => Some MODERATE
  | 4 => Some HIGH
  | 5 => Some CRITICAL
  | _ => None
  end.

(** The fixed table [{1,2 -> monitor; 3,4 -> alert; 5 -> urgent}]. *)
Definition action_of_score (s : Z) : option TraderAction :=
  match s with
  | 1 | 2 => Some MONITOR
  | 3 | 4 => Some ALERT
  | 5 => Some URGENT
  | _ => None
  end.

(** A declared score outside the interval [1,5]: an int, or a float (a NaN
    included), that is not between 1 and 5. *)
Definition outside_1_5 (score : pyval) : bool :=
  match score with
  | PInt n => negb ((1 <=? n) && (n <=? 5))
  | PFloat x => negb ((1.0 <=? x) && (x <=? 5.0))%float
  | _ => false
  end.

(** The number of distinct lexicon keywords that occur, case-insensitively,
    as substrings of [text]. *)
Definition distinct_keyword_matches {text : PyText} (t : pystr) : Z :=
  len (nodup (list_eq_dec N.eq_dec)
         (filter (fun keyword => contains keyword (lower t))
            ALL_RELEVANT_KEYWORDS)).

(* ================================================================== *)
(** * Gate phase of the orchestrator ([src/pipeline/orchestrator.py]) *)
(* ================================================================== *)

Module GatePhase.

(** The loop of [run_gates]. For a rejected article the source reads
    [gate_results[-1]], which raises [IndexError] on an empty list: [None]
    stands for that exception. Writing the results to storage follows the
    loop and is left out. *)
Fixpoint run_gates_loop (gates : list Gate) (articles : list RawNews.t)
    (passed_articles : list RawNews.t)
    (all_gate_results : list GateCheckResult.t)
    : option (list RawNews.t * list GateCheckResult.t) :=
  match articles with
  | [] => Some (passed_articles, all_gate_results)
  | article :: rest =>
      let '(passed, gate_results) := GatePipeline.run gates article in
      let all_gate_results := all_gate_results ++ gate_results in
      if passed then
        run_gates_loop gates rest (passed_articles ++ [article]) all_gate_results
      else
        match rev gate_results with
        | [] => None
        | failed_gate :: _ =>
            run_gates_loop gates rest passed_articles all_gate_results
        end
  end.

Definition run_gates (gates : list Gate) (articles : list RawNews.t)
    : option (list RawNews.t * list GateCheckResult.t) :=
  run_gates_loop gates articles [] [].

End GatePhase.

(* ================================================================== *)
(** * Response text of the client ([src/processors/llm_client.py]) *)
(* ================================================================== *)

(** [s.endswith(suffix)] *)
Definition endswith (suffix s : pystr) : bool :=
  startswith (rev suffix) (rev s).

Module LLMClient.

(** Lines 123-134 of [call_with_json_response]: the text handed to
    [json.loads]. *)
Definition clean_response_text (response_text : pystr) : pystr :=
  let response_text := strip response_text in
  let response_text :=
    if startswith (utf8 "```json") response_text then skipn 7 response_text
    else if startswith (utf8 "```") response_text then skipn 3 response_text
    else response_text in
  let response_text :=
    if endswith (utf8 "```") response_text
    then firstn (List.length response_text - 3) response_text
    else response_text in
  strip response_text.

End LLMClient.

(* ================================================================== *)
(** * Deduplication ([src/utils/hash_utils.py], [src/storage],
      [src/gates/duplicate_detection.py]) *)
(* ================================================================== *)

(** [SequenceMatcher(None, a, b).ratio()] is the standard library's. *)
Class Difflib := { ratio : pystr -> pystr -> float }.

Definition SIMILARITY_THRESHOLD : float := 0.9%float.

Module hash_utils.
Section WithText.
Context {text : PyText} {difflib : Difflib}.

Definition normalize_text (t : pystr) : pystr := strip (lower t).

Definition calculate_similarity (text1 text2 : pystr) : float :=
  let normalized1 := normalize_text text1 in
  let normalized2 := normalize_text text2 in
  ratio normalized1 normalized2.

(** The loop of [is_duplicate]. *)
Fixpoint is_duplicate_loop (t : pystr) (existing_texts : list pystr)
    (threshold max_similarity : float) : bool * float :=
  match existing_texts with
  | [] => (false, max_similarity)
  | existing_text :: rest =>
      let similarity := calculate_similarity t existing_text in
      let max_similarity := float_max max_similarity similarity in
      if (threshold <=? similarity)%float then (true, similarity)
      else is_duplicate_loop t rest threshold max_similarity
  end.

Definition is_duplicate (t : pystr) (existing_texts : list pystr)
    (threshold : float) : bool * float :=
  is_duplicate_loop t existing_texts threshold 0.0%float.

(** [word in stopwords] for a set of strs. *)
Definition in_set (word : pystr) (stopwords : list pystr) : bool :=
  existsb (pystr_eqb word) stopwords.

Definition remove_stopwords (t : pystr) (stopwords : list pystr) : pystr :=
  let words := split (lower t) in
  let filtered_words :=
    filter (fun word => negb (in_set word stopwords)) words in
  join (utf8 " ") filtered_words.

End WithText.
End hash_utils.

(** [hash_exists] and [find_similar_titles] of the storage, over what
    [read_raw_news] gives for the day: the articles, or an exception. *)
Module ParquetStorage.
Section WithText.
Context {text : PyText} {difflib : Difflib}.
Variable read_raw_news : result (list RawNews.t).

Definition hash_exists (content_hash : pystr) : bool :=
  match read_raw_news with
  | Ok articles =>
      existsb (fun article =>
                 pystr_eqb (RawNews.hash_content article) content_hash)
        articles
  | Raise _ => false
  end.

Fixpoint similar_loop (title : pystr) (threshold : float)
    (articles : list RawNews.t) (similar : list pystr) : list pystr :=
  match articles with
  | [] => similar
  | article :: rest =>
      let similarity :=
        hash_utils.calculate_similarity title (RawNews.title article) in
      if (threshold <=? similarity)%float
      then similar_loop title threshold rest (similar ++ [RawNews.title article])
      else similar_loop title threshold rest similar
  end.

Definition find_similar_titles (title : pystr) (threshold : float)
    : list pystr :=
  match read_raw_news with
  | Ok articles => similar_loop title threshold articles []
  | Raise _ => []
  end.

End WithText.
End ParquetStorage.

Module DuplicateDetectionGate.
Section WithText.
Context {text : PyText} {difflib : Difflib}.
Variable read_raw_news : result (list RawNews.t).

Definition name : pystr := utf8 "duplicate_detection".

Definition check (article : RawNews.t) : GateCheckResult.t :=
  if ParquetStorage.hash_exists read_raw_news (RawNews.hash_content article)
  then
    _create_result name article false
      (Fmt "Duplicate content hash: {article.hash_content[:8]}..."
         [FStr (firstn 8 (RawNews.hash_content article))])
  else
    let similar_titles :=
      ParquetStorage.find_similar_titles read_raw_news
        (RawNews.title article) SIMILARITY_THRESHOLD in
    match similar_titles with
    | first :: _ =>
        _create_result name article false
          (Fmt "Similar title found: '{similar_titles[0]}'" [FStr first])
    | [] =>
        _create_result name article true (Fmt "No duplicates detected" [])
    end.

Definition gate : Gate := Build_Gate name check.

End WithText.
End DuplicateDetectionGate.

(* ================================================================== *)
(** * Dates in URLs ([src/utils/date_utils.py]) *)
(* ================================================================== *)

(** The decimal value of a character of Unicode category Nd, which is what
    [\d] matches in a str pattern and what [int] reads; the table is the
    interpreter's. *)
Class PyDigits := { decimal : N -> option Z }.

Module date_utils.

(** A [datetime] at midnight, as [datetime(year, month, day)] builds it. *)
Record date := Date { year : Z; month : Z; day : Z }.

Definition is_leap (y : Z) : bool :=
  (y mod 4 =? 0) && (negb (y mod 100 =? 0) || (y mod 400 =? 0)).

Definition days_in_month (y m : Z) : Z :=
  match m with
  | 2 => if is_leap y then 29 else 28
  | 4 | 6 | 9 | 11 => 30
  | _ => 31
  end.

(** [datetime(y, m, d)]: [None] for the [ValueError] of a date that does not
    exist. *)
Definition datetime_of (y m d : Z) : option date :=
  if (1 <=? y) && (y <=? 9999) && (1 <=? m) && (m <=? 12)
     && (1 <=? d) && (d <=? days_in_month y m)
  then Some (Date y m d) else None.

Section WithDigits.
Context {digits : PyDigits}.

(** [n] digit characters at the head of [s]: their value as [int] reads
    them, and what follows. *)
Fixpoint read_digits (n : nat) (s : pystr) (acc : Z) : option (Z * pystr) :=
  match n with
  | O => Some (acc, s)
  | S n' =>
      match s with
      | c :: s' =>
          match decimal c with
          | Some d => read_digits n' s' (acc * 10 + d)
          | None => None
          end
      | [] => None
      end
  end.

(** The pattern [/(\d{4})/(\d{2})/(\d{2})/] at the head of [s]. *)
Definition match_here (s : pystr) : option (Z * Z * Z) :=
  match s with
  | 47%N :: s1 =>
      match read_digits 4 s1 0 with
      | Some (y, 47%N :: s2) =>
          match read_digits 2 s2 0 with
          | Some (m, 47%N :: s3) =>
              match read_digits 2 s3 0 with
              | Some (d, 47%N :: _) => Some (y, m, d)
              | _ => None
              end
          | _ => None
          end
      | _ => None
      end
  | _ => None
  end.

(** [re.search]: the match at the leftmost position that has one. *)
Fixpoint search (s : pystr) : option (Z * Z * Z) :=
  match match_here s with
  | Some groups => Some groups
  | None =>
      match s with
      | [] => None
      | _ :: s' => search s'
      end
  end.

Definition parse_date_from_url (url : pystr) : option date :=
  match search url with
  | Some (y, m, d) => datetime_of y m d
  | None => None
  end.

End WithDigits.
End date_utils.

(* ================================================================== *)
(** * Ranking distribution ([src/pipeline/daily_analysis.py]) *)
(* ================================================================== *)

Module DailyAnalyzer.

(** A dict with int keys and int values, items in insertion order. *)
Fixpoint dict_get (d : list (Z * Z)) (key default : Z) : Z :=
  match d with
  | [] => default
  | (k, v) :: d' => if k =? key then v else dict_get d' key default
  end.

(** [d[key] = value]: an existing key keeps its place. *)
Fixpoint dict_set (d : list (Z * Z)) (key value : Z) : list (Z * Z) :=
  match d with
  | [] => [(key, value)]
  | (k, v) :: d' =>
      if k =? key then (k, value) :: d' else (k, v) :: dict_set d' key value
  end.

Section WithRuntime.
Context {rt : Runtime}.

Definition get_ranking_distribution (articles : list ProcessedNews.t)
    : list (Z * Z) :=
  fold_left
    (fun distribution article =>
       match ProcessedNews.ranking_score article with
       | Some score =>
           if score =? 0 then distribution
           else dict_set distribution score
                  (dict_get distribution score 0 + 1)
       | None => distribution
       end)
    articles
    [(1, 0); (2, 0); (3, 0); (4, 0); (5, 0)].

End WithRuntime.
End DailyAnalyzer.

(** Digits as ASCII has them. *)
Definition ascii_digits : PyDigits :=
  {| decimal := fun c =>
       if ((48 <=? c) && (c <=? 57))%N then Some (Z.of_N c - 48) else None |}.

(** A similarity that tells equal texts from different ones. *)
Definition exact_match : Difflib :=
  {| ratio := fun a b => if pystr_eqb a b then 1.0%float else 0.0%float |}.

(** A validation library that takes, for an int, a float equal to one of
    the ints 0..10, and the scripted client with it. *)
Definition small_int_of_float (v : pyval) : option Z :=
  match v with
  | PFloat x =>
      find (fun n => (x =? float_of_int n)%float)
        [0; 1; 2; 3; 4; 5; 6; 7; 8; 9; 10]
  | _ => None
  end.

Definition scripted_coercing : Runtime := {|
  World := list (result (pyval * Z * Z));
  datetime := unit;
  now := fun _ => tt;
  elapsed_ms := fun _ _ => 0;
  MarketSnapshot := unit;
  to_context_string := fun _ => [];
  call_with_json_response := scripted_call;
  confidence_field := plain_confidence;
  lax_int := small_int_of_float
|}.

(** Stage-4 responses that declare the score 7.0, and the score "7" as
    text, in an otherwise valid response. *)
Definition score_7_as_float : list (pystr * pyval) :=
  [ item "reasoning" (pstr "Impacto total.");
    item "score" (PFloat 7.0);
    item "category" (pstr "Critical");
    item "justification" (pstr "La reforma cambia el recaudo y mueve el peso.") ].

Definition score_7_as_text : list (pystr * pyval) :=
  [ item "reasoning" (pstr "Impacto total.");
    item "score" (pstr "7");
    item "category" (pstr "Critical");
    item "justification" (pstr "La reforma cambia el recaudo y mueve el peso.") ].

(** A tracker with one entry, and one whose token total is beyond the
    floats. *)
Definition one_entry_tracker : CostTracker.t :=
  CostTracker.Build 500 195 0.004425
    [CostRecord.Build (utf8 "a-1") 500 195 695 0.004425 (Some 4) 0].

Definition overflowing_tracker : CostTracker.t :=
  CostTracker.Build (2 ^ 1024) 0 0.0
    [CostRecord.Build (utf8 "a-1") (2 ^ 1024) 0 (2 ^ 1024) 0.0 (Some 4) 0].

(** A JSON number, as [json.loads] builds it, or a bool. *)
Definition is_number (v : pyval) : bool :=
  match v with
  | PInt _ | PBool _ | PFloat _ => true
  | _ => false
  end.

(** A response that is a list, and stage responses with a score and with
    topics given as text. *)
Definition list_response : result (pyval * Z * Z) := Ok (PList [], 100, 50).

Definition score_as_text : list (pystr * pyval) :=
  [ item "score" (pstr "4"); item "category" (pstr "High") ].

Definition topics_as_text : list (pystr * pyval) :=
  [ item "topics" (pstr "economy"); item "confidence" (PFloat 0.9) ].

(** What the chain returns for [sample_article] on four good responses. *)
Definition sample_run :=
  Eval vm_compute in
    ChainExecutor.execute_full_chain (rt := scripted) sample_article tt
      [good_step_1; good_step_2; good_step_3; good_step_4].

(* ================================================================== *)
(** * Notions used to state properties *)
(* ================================================================== *)

(** [l1] is [l2] with some elements left out. *)
Inductive subsequence {A : Type} : list A -> list A -> Prop :=
| subsequence_nil : subsequence [] []
| subsequence_skip (x : A) (l1 l2 : list A) :
    subsequence l1 l2 -> subsequence l1 (x :: l2)
| subsequence_take (x : A) (l1 l2 : list A) :
    subsequence l1 l2 -> subsequence (x :: l1) (x :: l2).

Definition sum_Z (l : list Z) : Z := fold_right Z.add 0 l.

(** A ledger entry is the entry of a record: it carries the record's id,
    token counts, score and time, and the cost the record computes. *)
Definition recorded {rt : Runtime} (processed : ProcessedNews.t)
    (entry : CostRecord.t) : Prop :=
  CostRecord.article_id entry = ProcessedNews.article_id processed /\
  CostRecord.input_tokens entry = ProcessedNews.input_tokens processed /\
  CostRecord.output_tokens entry = ProcessedNews.output_tokens processed /\
  CostRecord.total_tokens entry =
    ProcessedNews.input_tokens processed + ProcessedNews.output_tokens processed /\
  ProcessedNews.cost_usd processed = Ok (CostRecord.cost_usd entry) /\
  CostRecord.ranking_score entry = ProcessedNews.ranking_score processed /\
  CostRecord.processing_time_ms entry = ProcessedNews.processing_time_ms processed.

(** The running totals of a tracker are those of its ledger: the token
    totals are the sums over the entries, the cost is the entries' costs
    added in order from 0.0. *)
Definition totals_match_ledger (t : CostTracker.t) : Prop :=
  CostTracker.total_input_tokens t =
    sum_Z (map CostRecord.input_tokens (CostTracker.article_costs t)) /\
  CostTracker.total_output_tokens t =
    sum_Z (map CostRecord.output_tokens (CostTracker.article_costs t)) /\
  CostTracker.total_cost_usd t =
    fold_left PrimFloat.add
      (map CostRecord.cost_usd (CostTracker.article_costs t)) 0.0%float.

(** The number of records of [articles] whose score is [score]. *)
Definition scored {rt : Runtime} (score : Z) (articles : list ProcessedNews.t)
    : Z :=
  len (filter (fun article =>
                 match ProcessedNews.ranking_score article with
                 | Some s => s =? score
                 | None => false
                 end) articles).

(** A word as [split] cuts it: not empty, no blank in it. *)
Definition is_word (w : pystr) : bool :=
  negb (is_empty w) && forallb (fun c => negb (isspace c)) w.

(* ================================================================== *)
(** * Gate pipeline: fail-fast and exhaustive runs *)
(* ================================================================== *)

Section PipelineFacts.
Variable article : RawNews.t.

Let result_of (g : Gate) : GateCheckResult.t := check g article.
Let passes (g : Gate) : bool := GateCheckResult.passed (check g article).

Lemma run_loop_passing (pre rest : list Gate) (acc : list GateCheckResult.t) :
  forallb passes pre = true ->
  GatePipeline.run_loop (pre ++ rest) article acc =
  GatePipeline.run_loop rest article (acc ++ map result_of pre).
Proof.
  revert acc. induction pre as [|g pre IH]; intros acc Hall; simpl.
  - now rewrite app_nil_r.
  - simpl in Hall. apply andb_prop in Hall as [Hg Hpre].
    unfold passes in Hg. rewrite Hg. simpl.
    rewrite IH by assumption. now rewrite <- app_assoc.
Qed.

Lemma run_loop_failing (g : Gate) (post : list Gate)
    (acc : list GateCheckResult.t) :
  passes g = false ->
  GatePipeline.run_loop (g :: post) article acc = (false, acc ++ [result_of g]).
Proof.
  intros Hg. simpl. unfold passes in Hg. now rewrite Hg.
Qed.

Lemma run_all_gates_loop_spec (gates : list Gate)
    (acc : list GateCheckResult.t) (b : bool) :
  GatePipeline.run_all_gates_loop gates article acc b =
  (b && forallb passes gates, acc ++ map result_of gates).
Proof.
  revert acc b. induction gates as [|g gates IH]; intros acc b; simpl.
  - now rewrite andb_true_r, app_nil_r.
  - rewrite IH, <- app_assoc. simpl. unfold passes.
    destruct (GateCheckResult.passed (check g article)), b; reflexivity.
Qed.

Lemma run_loop_spec (gates : list Gate) (acc : list GateCheckResult.t) :
  fst (GatePipeline.run_loop gates article acc) = forallb passes gates /\
  exists rest,
    acc ++ map result_of gates =
    snd (GatePipeline.run_loop gates article acc) ++ rest.
Proof.
  revert acc. induction gates as [|g gates IH]; intros acc; simpl.
  - split; [reflexivity|]. exists []. reflexivity.
  - unfold passes at 1. destruct (GateCheckResult.passed (check g article)); simpl.
    + destruct (IH (acc ++ [check g article])) as [Hv [rest Hrest]].
      split; [exact Hv|]. exists rest. rewrite <- Hrest, <- app_assoc. reflexivity.
    + split; [reflexivity|]. exists (map result_of gates).
      rewrite <- app_assoc. reflexivity.
Qed.

Lemma split_at_failing (gates : list Gate) (k : nat) (g : Gate) :
  nth_error gates k = Some g ->
  gates = firstn k gates ++ g :: skipn (S k) gates /\
  firstn (S k) gates = firstn k gates ++ [g].
Proof.
  revert k. induction gates as [|h gates IH]; intros [|k] Hk; simpl in *;
    try discriminate.
  - injection Hk as ->. split; reflexivity.
  - destruct (IH k Hk) as [H1 H2]. split.
    + f_equal. exact H1.
    + f_equal. exact H2.
Qed.

Lemma passing_prefix (gates : list Gate) (k : nat) :
  (forall i g, (i < k)%nat -> nth_error gates i = Some g -> passes g = true) ->
  forallb passes (firstn k gates) = true.
Proof.
  revert k. induction gates as [|h gates IH]; intros [|k] Hk; simpl; trivial.
  rewrite (Hk 0%nat h); [|lia|reflexivity]. simpl.
  apply IH. intros i g Hi Hg. apply (Hk (S i) g); [lia|exact Hg].
Qed.

End PipelineFacts.

(** C5. An article that passes the gates at positions 1..k-1 and fails the
    gate at position k (1-indexed, [k = S j]) gets from the fail-fast [run]
    the verdict [False] and exactly the k results of the first k gates, in
    gate order; the gates after position k have no part in that outcome; and
    [run_all_gates] returns one result per configured gate, in gate order. *)
Theorem fail_fast_returns_k_results
    (gates : list Gate) (article : RawNews.t) (j : nat) (failing : Gate) :
  nth_error gates j = Some failing ->
  GateCheckResult.passed (check failing article) = false ->
  (forall i g, (i < j)%nat -> nth_error gates i = Some g ->
     GateCheckResult.passed (check g article) = true) ->
  GatePipeline.run gates article =
    (false, map (fun g => check g article) (firstn (S j) gates)) /\
  List.length (snd (GatePipeline.run gates article)) = S j /\
  (forall others,
     GatePipeline.run (firstn (S j) gates ++ others) article =
     GatePipeline.run gates article) /\
  snd (GatePipeline.run_all_gates gates article) =
    map (fun g => check g article) gates /\
  List.length (snd (GatePipeline.run_all_gates gates article)) =
    List.length gates.
Proof.
  intros Hnth Hfail Hpass.
  destruct (@split_at_failing gates j failing Hnth) as [Hsplit Hfirst].
  pose proof (@passing_prefix article gates j Hpass) as Hpre.
  assert (Hrun : forall post,
    GatePipeline.run (firstn j gates ++ failing :: post) article =
    (false, map (fun g => check g article) (firstn (S j) gates))).
  { intros post. unfold GatePipeline.run.
    rewrite run_loop_passing by exact Hpre.
    rewrite run_loop_failing by exact Hfail.
    rewrite Hfirst, map_app. reflexivity. }
  assert (Hmain : GatePipeline.run gates article =
    (false, map (fun g => check g article) (firstn (S j) gates))).
  { rewrite Hsplit at 1. apply Hrun. }
  split; [exact Hmain|]. split; [|split; [|split]].
  - rewrite Hmain. cbn [snd]. rewrite length_map, length_firstn.
    assert (j < List.length gates)%nat
      by (apply nth_error_Some; congruence).
    lia.
  - intros others. rewrite Hmain, <- (Hrun others), Hfirst, <- app_assoc.
    reflexivity.
  - unfold GatePipeline.run_all_gates. rewrite run_all_gates_loop_spec.
    reflexivity.
  - unfold GatePipeline.run_all_gates. rewrite run_all_gates_loop_spec.
    simpl. apply length_map.
Qed.

(** C9. For every article and every sequence of gates, [run] and
    [run_all_gates] give the same verdict, and the results of [run] are a
    prefix of the results of [run_all_gates]. *)
Theorem run_agrees_with_run_all_gates
    (gates : list Gate) (article : RawNews.t) :
  (fst (GatePipeline.run gates article) = true <->
   fst (GatePipeline.run_all_gates gates article) = true) /\
  exists rest,
    snd (GatePipeline.run_all_gates gates article) =
    snd (GatePipeline.run gates article) ++ rest.
Proof.
  unfold GatePipeline.run, GatePipeline.run_all_gates.
  rewrite run_all_gates_loop_spec.
  destruct (@run_loop_spec article gates []) as [Hv [rest Hrest]].
  split.
  - rewrite Hv. simpl. reflexivity.
  - exists rest. exact Hrest.
Qed.

Lemma fail_fast_returns_k_results_witness :
  GatePipeline.run sample_gates sample_article =
    (false, map (fun g => check g sample_article) (firstn 2 sample_gates)) /\
  List.length (snd (GatePipeline.run sample_gates sample_article)) = 2%nat /\
  (forall others,
     GatePipeline.run (firstn 2 sample_gates ++ others) sample_article =
     GatePipeline.run sample_gates sample_article) /\
  snd (GatePipeline.run_all_gates sample_gates sample_article) =
    map (fun g => check g sample_article) sample_gates /\
  List.length (snd (GatePipeline.run_all_gates sample_gates sample_article)) =
    List.length sample_gates.
Proof.
  apply (@fail_fast_returns_k_results sample_gates sample_article 1
           (ContentQualityGate.gate (text := latin1))).
  - reflexivity.
  - vm_compute. reflexivity.
  - intros [|i] g Hi Hg; [|lia]. injection Hg as <-. vm_compute. reflexivity.
Defined.

(* ================================================================== *)
(** * Content-quality gate *)
(* ================================================================== *)

Lemma lstrip_nil_all_space (s : pystr) :
  lstrip s = [] -> forallb isspace s = true.
Proof.
  induction s as [|c s IH]; simpl; [reflexivity|].
  destruct (isspace c); [exact IH|discriminate].
Qed.

Lemma lstrip_all_space (s : pystr) :
  forallb isspace (lstrip s) = true -> forallb isspace s = true.
Proof.
  induction s as [|c s IH]; simpl; [reflexivity|].
  destruct (isspace c) eqn:Hc; simpl.
  - exact IH.
  - rewrite Hc. discriminate.
Qed.

Lemma forallb_rev_space (s : pystr) :
  forallb isspace (rev s) = true -> forallb isspace s = true.
Proof.
  rewrite !forallb_forall. intros H c Hc. apply H, in_rev.
  now rewrite rev_involutive.
Qed.

Lemma strip_nil_all_space (s : pystr) :
  strip s = [] -> forallb isspace s = true.
Proof.
  unfold strip, rstrip. intros H.
  apply lstrip_all_space, forallb_rev_space, lstrip_nil_all_space.
  apply (f_equal (@rev N)) in H. rewrite rev_involutive in H. exact H.
Qed.

Lemma split_all_space (s : pystr) :
  forallb isspace s = true -> split s = [].
Proof.
  unfold split. induction s as [|c s IH]; simpl; [reflexivity|].
  destruct (isspace c); simpl; [exact IH|discriminate].
Qed.

(** A text that meets the required ratio has a word, and so survives
    [strip()], provided lower-casing leaves blank text blank. *)
Lemma ratio_met_not_blank {text : PyText}
    (lower_blank : forall s, forallb isspace s = true ->
                             forallb isspace (lower s) = true)
    (content : pystr) :
  (ContentQualityGate._detect_spanish_ratio content <? REQUIRED_SPANISH_RATIO)%float
    = false ->
  strip content <> [].
Proof.
  unfold ContentQualityGate._detect_spanish_ratio. intros Hratio Hstrip.
  apply strip_nil_all_space, lower_blank, split_all_space in Hstrip.
  rewrite Hstrip in Hratio. cbn [len List.length Z.of_nat Z.eqb] in Hratio.
  vm_compute in Hratio. discriminate.
Qed.

(** C10. The content-quality gate never fails with the reason
    "Missing content": content that is long enough and meets the required
    language-marker ratio holds a word, so the closing emptiness check on the
    content cannot be the first check to fail. Lower-casing is only asked to
    leave blank text blank, as [str.lower()] does. *)
Theorem content_quality_never_missing_content {text : PyText}
    (lower_blank : forall s, forallb isspace s = true ->
                             forallb isspace (lower s) = true)
    (article : RawNews.t) :
  ftemplate (GateCheckResult.gate_reason (ContentQualityGate.check article))
    <> "Missing content"%string /\
  (MIN_CONTENT_LENGTH <= len (RawNews.content article) ->
   (ContentQualityGate._detect_spanish_ratio (RawNews.content article)
      <? REQUIRED_SPANISH_RATIO)%float = false ->
   is_empty (RawNews.content article) = false /\
   is_empty (strip (RawNews.content article)) = false).
Proof.
  split.
  - unfold ContentQualityGate.check, _create_result.
    destruct (len (RawNews.content article) <? MIN_CONTENT_LENGTH);
      [cbn; discriminate|].
    destruct (len (RawNews.content article) >? MAX_CONTENT_LENGTH);
      [cbn; discriminate|].
    destruct (ContentQualityGate._detect_spanish_ratio (RawNews.content article)
                <? REQUIRED_SPANISH_RATIO)%float eqn:Hratio;
      [cbn; discriminate|].
    pose proof (ratio_met_not_blank lower_blank _ Hratio) as Hstrip.
    destruct (_ || _)%bool; [cbn; discriminate|].
    destruct (RawNews.content article) as [|c content] eqn:Hcontent.
    + exfalso. apply Hstrip. reflexivity.
    + destruct (strip (c :: content)); [exfalso; now apply Hstrip|].
      cbn. discriminate.
  - intros _ Hratio.
    pose proof (ratio_met_not_blank lower_blank _ Hratio) as Hstrip.
    destruct (RawNews.content article) as [|c content].
    + exfalso. apply Hstrip. reflexivity.
    + split; [reflexivity|].
      destruct (strip (c :: content)); [exfalso; now apply Hstrip|reflexivity].
Qed.

Lemma latin1_lower_blank (s : pystr) :
  forallb isspace s = true -> forallb isspace (lower (PyText := latin1) s) = true.
Proof.
  simpl. induction s as [|c s IH]; simpl; [reflexivity|].
  intros H. apply andb_prop in H as [Hc Hs].
  rewrite (IH Hs), andb_true_r.
  assert (Hsame : latin1_lower_char c = c).
  { unfold latin1_lower_char, isspace in *.
    destruct ((65 <=? c) && (c <=? 90))%N eqn:H1;
      [|destruct ((192 <=? c) && (c <=? 222) && negb (c =? 215))%N eqn:H2;
        [|reflexivity]]; exfalso;
    repeat match goal with
    | H : (_ && _)%bool = true |- _ => apply andb_prop in H as [? ?]
    | H : (_ || _)%bool = true |- _ => apply orb_prop in H as [?|?]
    | H : (_ <=? _)%N = true |- _ => apply N.leb_le in H
    | H : (_ =? _)%N = true |- _ => apply N.eqb_eq in H
    end; lia. }
  now rewrite Hsame.
Qed.

Lemma content_quality_never_missing_content_witness :
  (forall s, forallb isspace s = true ->
             forallb isspace (lower (PyText := latin1) s) = true) /\
  GateCheckResult.passed
    (ContentQualityGate.check (text := latin1) long_article) = true /\
  ftemplate (GateCheckResult.gate_reason
               (ContentQualityGate.check (text := latin1) long_article))
    <> "Missing content"%string /\
  is_empty (RawNews.content long_article) = false /\
  is_empty (strip (RawNews.content long_article)) = false.
Proof.
  split; [exact latin1_lower_blank|].
  split; [vm_compute; reflexivity|].
  destruct (content_quality_never_missing_content (text := latin1)
              latin1_lower_blank long_article) as [Hreason Hcontent].
  split; [exact Hreason|].
  apply Hcontent.
  - vm_compute. discriminate.
  - vm_compute. reflexivity.
Defined.

(* ================================================================== *)
(** * Topic-relevance gate *)
(* ================================================================== *)

Lemma topic_gate_verdict {text : PyText} (article : RawNews.t) :
  GateCheckResult.passed (TopicRelevanceGate.check article) =
  (MIN_KEYWORD_MATCHES <=?
     fst (TopicRelevanceGate._count_keyword_matches
            (RawNews.title article ++ utf8 " " ++ RawNews.content article))).
Proof.
  unfold TopicRelevanceGate.check, TopicRelevanceGate._count_keyword_matches.
  cbn [fst]. rewrite Z.leb_antisym.
  destruct (_ <? MIN_KEYWORD_MATCHES); reflexivity.
Qed.

Lemma filter_remove {A} (dec : forall x y : A, {x = y} + {x <> y})
    (f : A -> bool) (x : A) (l : list A) :
  f x = false -> filter f (remove dec x l) = filter f l.
Proof.
  intros Hx. induction l as [|y l IH]; simpl; [reflexivity|].
  destruct (dec x y) as [<-|Hne]; simpl.
  - now rewrite Hx.
  - now rewrite IH.
Qed.

(** The lexicon lists "exportación" under two categories and nothing else
    twice: without it in the text, the gate's count is the number of distinct
    keywords found. *)
Lemma count_is_distinct_without_exportacion {text : PyText} (t : pystr) :
  contains (utf8 "exportación") (lower t) = false ->
  fst (TopicRelevanceGate._count_keyword_matches t) = distinct_keyword_matches t.
Proof.
  intros Hx. unfold TopicRelevanceGate._count_keyword_matches,
    distinct_keyword_matches. cbn [fst]. f_equal. symmetry.
  apply nodup_fixed_point.
  rewrite <- (filter_remove (list_eq_dec N.eq_dec) _ (utf8 "exportación") _ Hx).
  apply NoDup_filter.
  assert (Hnodup :
    nodup (list_eq_dec N.eq_dec)
      (remove (list_eq_dec N.eq_dec) (utf8 "exportación") ALL_RELEVANT_KEYWORDS)
    = remove (list_eq_dec N.eq_dec) (utf8 "exportación") ALL_RELEVANT_KEYWORDS)
    by (vm_compute; reflexivity).
  rewrite <- Hnodup. apply NoDup_nodup.
Qed.

(** C6, at the article [export_article]: its title and body hold exactly one
    distinct lexicon keyword ("exportación", upper-cased in the title), yet
    the gate counts two matches and passes it with the minimum at 2. *)
Theorem topic_gate_passes_single_keyword :
  distinct_keyword_matches (text := latin1)
    (RawNews.title export_article ++ utf8 " " ++ RawNews.content export_article)
    = 1 /\
  TopicRelevanceGate._count_keyword_matches (text := latin1)
    (RawNews.title export_article ++ utf8 " " ++ RawNews.content export_article)
    = (2, [utf8 "exportación"; utf8 "exportación"]) /\
  MIN_KEYWORD_MATCHES = 2 /\
  GateCheckResult.passed
    (TopicRelevanceGate.check (text := latin1) export_article) = true.
Proof.
  repeat split; vm_compute; reflexivity.
Qed.

(* ================================================================== *)
(** * Chain executor: reading a response *)
(* ================================================================== *)

Lemma pystr_eqb_refl (s : pystr) : pystr_eqb s s = true.
Proof.
  unfold pystr_eqb. destruct (list_eq_dec N.eq_dec s s); congruence.
Qed.

Lemma get_missing (d : list (pystr * pyval)) (key : string) (default : pyval) :
  lookup (utf8 key) d = None -> get (PDict d) key default = Ok default.
Proof. intros H. unfold get. now rewrite H. Qed.

Lemma get_present (d : list (pystr * pyval)) (key : string)
    (default v : pyval) :
  lookup (utf8 key) d = Some v -> get (PDict d) key default = Ok v.
Proof. intros H. unfold get. now rewrite H. Qed.

Lemma get_cons_same (k : string) (v : pyval) (d : list (pystr * pyval))
    (default : pyval) :
  get (PDict (item k v :: d)) k default = Ok v.
Proof. unfold get, item. cbn [lookup]. now rewrite pystr_eqb_refl. Qed.

Lemma get_cons_other (k key : string) (v : pyval) (d : list (pystr * pyval))
    (default : pyval) :
  pystr_eqb (utf8 k) (utf8 key) = false ->
  get (PDict (item k v :: d)) key default = get (PDict d) key default.
Proof. intros H. unfold get, item. cbn [lookup]. now rewrite H. Qed.

#[local] Ltac other_key := rewrite get_cons_other by (vm_compute; reflexivity).

Section ChainFacts.
Context {rt : Runtime}.

Import ChainExecutor.

(** Each step: the client is called at the current world; its exception, or
    that of reading the response, is the step's. *)
Lemma execute_step_1_eq (article : RawNews.t) (w : World) :
  execute_step_1 article w =
  match call_with_json_response
          (STEP_1_SUMMARIZATION (RawNews.title article) (RawNews.content article)) w
  with
  | (Ok (response_json, i, o), w') =>
      match parse_step_1 response_json with
      | Ok out => (Ok (out, i, o, elapsed_ms (now w) (now w')), w')
      | Raise e => (Raise e, w')
      end
  | (Raise e, w') => (Raise e, w')
  end.
Proof.
  unfold execute_step_1, bind, get_now, lift, ret.
  destruct (call_with_json_response _ w) as [[[[r i] o]|e] w']; [|reflexivity].
  destruct (parse_step_1 r); reflexivity.
Qed.

Lemma execute_step_4_eq (article : RawNews.t) (summary : pystr)
    (topics : list TopicCategory) (impact : ImpactAnalysisOutput.t) (w : World) :
  execute_step_4 article summary topics impact w =
  match call_with_json_response
          (STEP_4_RANKING summary (topics_text topics) (impact_text impact)) w
  with
  | (Ok (response_json, i, o), w') =>
      match parse_step_4 response_json with
      | Ok out => (Ok (out, i, o, elapsed_ms (now w) (now w')), w')
      | Raise e => (Raise e, w')
      end
  | (Raise e, w') => (Raise e, w')
  end.
Proof.
  unfold execute_step_4, bind, get_now, lift, ret.
  destruct (call_with_json_response _ w) as [[[[r i] o]|e] w']; [|reflexivity].
  destruct (parse_step_4 r); reflexivity.
Qed.

(** A raising stage is a raising chain, with the world as the stage left
    it. *)
Lemma chain_raises_at_1 article market w e w1 :
  execute_step_1 article w = (Raise e, w1) ->
  execute_full_chain article market w = (Raise e, w1).
Proof.
  intros H. unfold execute_full_chain. unfold bind at 1. now rewrite H.
Qed.

Lemma chain_raises_at_2 article market w s1 i1 o1 t1 w1 e w2 :
  execute_step_1 article w = (Ok (s1, i1, o1, t1), w1) ->
  execute_step_2 article (SummarizationOutput.summary s1) w1 = (Raise e, w2) ->
  execute_full_chain article market w = (Raise e, w2).
Proof.
  intros H1 H2. unfold execute_full_chain.
  unfold bind at 1. rewrite H1. unfold bind at 1. now rewrite H2.
Qed.

Lemma chain_raises_at_3 article market w s1 i1 o1 t1 w1 s2 i2 o2 t2 w2 e w3 :
  execute_step_1 article w = (Ok (s1, i1, o1, t1), w1) ->
  execute_step_2 article (SummarizationOutput.summary s1) w1
    = (Ok (s2, i2, o2, t2), w2) ->
  execute_step_3 article (SummarizationOutput.summary s1)
    (TopicExtractionOutput.topics s2) market w2 = (Raise e, w3) ->
  execute_full_chain article market w = (Raise e, w3).
Proof.
  intros H1 H2 H3. unfold execute_full_chain.
  unfold bind at 1. rewrite H1. unfold bind at 1. rewrite H2.
  unfold bind at 1. now rewrite H3.
Qed.

Lemma chain_raises_at_4 article market w s1 i1 o1 t1 w1 s2 i2 o2 t2 w2
    s3 i3 o3 t3 w3 e w4 :
  execute_step_1 article w = (Ok (s1, i1, o1, t1), w1) ->
  execute_step_2 article (SummarizationOutput.summary s1) w1
    = (Ok (s2, i2, o2, t2), w2) ->
  execute_step_3 article (SummarizationOutput.summary s1)
    (TopicExtractionOutput.topics s2) market w2 = (Ok (s3, i3, o3, t3), w3) ->
  execute_step_4 article (SummarizationOutput.summary s1)
    (TopicExtractionOutput.topics s2) s3 w3 = (Raise e, w4) ->
  execute_full_chain article market w = (Raise e, w4).
Proof.
  intros H1 H2 H3 H4. unfold execute_full_chain.
  unfold bind at 1. rewrite H1. unfold bind at 1. rewrite H2.
  unfold bind at 1. rewrite H3. unfold bind at 1. now rewrite H4.
Qed.

Lemma parse_step_1_missing_summary (d : list (pystr * pyval)) :
  lookup (utf8 "summary") d = None ->
  parse_step_1 (PDict d) = Raise ValidationError.
Proof.
  intros H. unfold parse_step_1. rewrite (get_missing _ _ _ H).
  unfold get. cbn [result_bind].
  unfold SummarizationOutput.new. cbn [str_field validated result_bind].
  destruct (str_field _); reflexivity.
Qed.

Lemma parse_step_3_default_direction (d : list (pystr * pyval)) :
  lookup (utf8 "direction") d = None ->
  parse_step_3 (PDict d) =
  parse_step_3 (PDict (item "direction" (pstr "NEUTRAL") :: d)).
Proof.
  intros H. unfold parse_step_3.
  rewrite (get_missing _ _ _ H), get_cons_same.
  repeat other_key. reflexivity.
Qed.

Lemma parse_step_4_default_score (d : list (pystr * pyval)) :
  lookup (utf8 "score") d = None ->
  parse_step_4 (PDict d) = parse_step_4 (PDict (item "score" (PInt 3) :: d)).
Proof.
  intros H. unfold parse_step_4.
  rewrite (get_missing _ _ _ H), get_cons_same.
  repeat other_key. reflexivity.
Qed.

End ChainFacts.

(* ================================================================== *)
(** * Chain executor: missing fields *)
(* ================================================================== *)

(** C1, where it fails: a chain whose stage-3 response declares no direction
    and whose stage-4 response declares no score runs to the end and returns
    a record, with direction NEUTRAL and score 3. *)
Lemma chain_returns_without_direction_and_score :
  lookup (utf8 "direction")
    [ item "reasoning" (pstr "Mayor recaudo.");
      item "mechanisms" (PList [pstr "recaudo fiscal"]);
      item "confidence" (PFloat 0.7);
      item "time_horizon" (pstr "short-term") ] = None /\
  lookup (utf8 "score")
    [ item "reasoning" (pstr "Impacto medio.");
      item "category" (pstr "High");
      item "justification" (pstr "La reforma cambia el recaudo y mueve el peso.") ]
    = None /\
  exists processed,
    fst (ChainExecutor.execute_full_chain (rt := scripted) sample_article tt
           [good_step_1; good_step_2; step_3_without_direction;
            step_4_without_score]) = Ok processed /\
    ProcessedNews.impact_direction processed = Some NEUTRAL /\
    ProcessedNews.ranking_score processed = Some 3 /\
    ProcessedNews.ranking_category processed = Some MODERATE /\
    ProcessedNews.ranking_trader_action processed = Some ALERT.
Proof.
  split; [vm_compute; reflexivity|]. split; [vm_compute; reflexivity|].
  eexists. split; [vm_compute; reflexivity|].
  repeat split.
Qed.

(** C1, amended. A stage-1 response without a summary aborts the chain:
    [execute_full_chain] raises and returns no record. A stage-3 response
    without a direction is read as one that declares NEUTRAL, and a stage-4
    response without a score as one that declares 3: neither absence aborts
    the chain by itself. *)
Theorem missing_summary_aborts_direction_and_score_default {rt : Runtime}
    (article : RawNews.t) (market : MarketSnapshot) :
  (forall w d i o w',
     call_with_json_response
       (STEP_1_SUMMARIZATION (RawNews.title article) (RawNews.content article)) w
       = (Ok (PDict d, i, o), w') ->
     lookup (utf8 "summary") d = None ->
     ChainExecutor.execute_full_chain article market w
       = (Raise ValidationError, w')) /\
  (forall d,
     lookup (utf8 "direction") d = None ->
     ChainExecutor.parse_step_3 (PDict d) =
     ChainExecutor.parse_step_3 (PDict (item "direction" (pstr "NEUTRAL") :: d))) /\
  (forall d,
     lookup (utf8 "score") d = None ->
     ChainExecutor.parse_step_4 (PDict d) =
     ChainExecutor.parse_step_4 (PDict (item "score" (PInt 3) :: d))).
Proof.
  split; [|split].
  - intros w d i o w' Hcall Hmissing.
    apply chain_raises_at_1. rewrite execute_step_1_eq, Hcall.
    now rewrite parse_step_1_missing_summary.
  - apply parse_step_3_default_direction.
  - apply parse_step_4_default_score.
Qed.

Lemma missing_summary_aborts_direction_and_score_default_witness :
  ChainExecutor.execute_full_chain (rt := scripted) sample_article tt
    [Ok (PDict [item "reasoning" (pstr "Actores: gobierno.")], 100, 50);
     good_step_2; good_step_3; good_step_4]
  = (Raise ValidationError, [good_step_2; good_step_3; good_step_4]) /\
  ChainExecutor.parse_step_3 (rt := scripted)
    (PDict [item "mechanisms" (PList [pstr "recaudo fiscal"])]) =
  ChainExecutor.parse_step_3 (rt := scripted)
    (PDict [item "direction" (pstr "NEUTRAL");
            item "mechanisms" (PList [pstr "recaudo fiscal"])]) /\
  ChainExecutor.parse_step_4 (rt := scripted)
    (PDict [item "justification" (pstr "La reforma cambia el recaudo.")]) =
  ChainExecutor.parse_step_4 (rt := scripted)
    (PDict [item "score" (PInt 3);
            item "justification" (pstr "La reforma cambia el recaudo.")]).
Proof.
  destruct (missing_summary_aborts_direction_and_score_default
              (rt := scripted) sample_article tt) as [H1 [H3 H4]].
  split; [|split].
  - apply (H1 _ [item "reasoning" (pstr "Actores: gobierno.")] 100 50);
      reflexivity.
  - apply H3. reflexivity.
  - apply H4. reflexivity.
Defined.

(* ================================================================== *)
(** * Chain executor: ranking *)
(* ================================================================== *)

Section RankingFacts.
Context {rt : Runtime}.

Import ChainExecutor.

Lemma map_score_in_range (s : Z) :
  1 <= s <= 5 ->
  exists category action,
    category_of_score s = Some category /\
    action_of_score s = Some action /\
    map_score (PInt s) = Ok (category, action).
Proof.
  intros Hs.
  assert (Hcases : s = 1 \/ s = 2 \/ s = 3 \/ s = 4 \/ s = 5) by lia.
  destruct Hcases as [->|[->|[->|[->| ->]]]];
    eexists; eexists; repeat split.
Qed.

Lemma score_field_in_range (s : Z) :
  1 <= s <= 5 -> RankingOutput.score_field (PInt s) = Some s.
Proof.
  intros Hs. unfold RankingOutput.score_field.
  destruct (1 <=? s) eqn:H1; [|lia]. destruct (s <=? 5) eqn:H5; [|lia].
  reflexivity.
Qed.

(** With a score in range, the response is turned into the model built from
    the score, the table entries of the score, and the declared
    justification and reasoning. *)
Lemma parse_step_4_in_range (d : list (pystr * pyval)) (s : Z) :
  lookup (utf8 "score") d = Some (PInt s) ->
  1 <= s <= 5 ->
  exists category action justification reasoning,
    category_of_score s = Some category /\
    action_of_score s = Some action /\
    get (PDict d) "justification" (PStr []) = Ok justification /\
    get (PDict d) "reasoning" (PStr []) = Ok reasoning /\
    parse_step_4 (PDict d) =
    RankingOutput.new (PInt s) category justification action reasoning.
Proof.
  intros Hscore Hs.
  destruct (map_score_in_range Hs) as (category & action & Hc & Ha & Hmap).
  exists category, action.
  eexists. eexists. repeat split; try eassumption; try reflexivity.
  unfold parse_step_4. rewrite (get_present _ _ _ Hscore).
  cbn [result_bind]. unfold get at 1. cbn [result_bind]. rewrite Hmap.
  reflexivity.
Qed.

End RankingFacts.

(** C2, where it fails: a stage-4 response declaring the score 3 and a
    category, with no justification, gets no ranking from [execute_step_4]:
    the step raises. *)
Lemma step_4_in_range_score_raises :
  lookup (utf8 "score") [item "score" (PInt 3); item "category" (pstr "Moderate")]
    = Some (PInt 3) /\
  ChainExecutor.execute_step_4 (rt := scripted) sample_article
    (utf8 "El gobierno anuncia una reforma tributaria.") [POLITICS]
    sample_impact [step_4_score_only]
  = (Raise ValidationError, []).
Proof. split; vm_compute; reflexivity. Qed.

Section RankingRefusals.
Context {rt : Runtime}.

(** What the ranking model does with a score in range: it is built exactly
    from a justification that is a string of at least 20 characters once
    trimmed and a reasoning that is a string, and refuses anything else. *)
Lemma ranking_new_in_range (s : Z) (category : RankingCategory)
    (justification : pyval) (action : TraderAction) (reasoning : pyval) :
  1 <= s <= 5 ->
  RankingOutput.new (PInt s) category justification action reasoning =
  match justification, reasoning with
  | PStr j, PStr c =>
      if len (strip j) <? 20 then Raise ValidationError
      else Ok (RankingOutput.Build s category (strip j) action c)
  | _, _ => Raise ValidationError
  end.
Proof.
  intros Hs. unfold RankingOutput.new. rewrite (score_field_in_range Hs).
  cbn [validated result_bind]. unfold RankingOutput.validate_score.
  destruct (1 <=? s) eqn:H1; [|lia]. destruct (s <=? 5) eqn:H5; [|lia].
  cbn [andb negb as_validation_error result_bind].
  destruct justification as [| | | |j| |]; try reflexivity;
    try (destruct reasoning; reflexivity).
  cbn [str_field validated result_bind].
  unfold RankingOutput.validate_justification.
  destruct j as [|a j].
  - cbn. destruct reasoning; reflexivity.
  - cbn [is_empty orb].
    destruct (len (strip (a :: j)) <? 20);
      cbn [as_validation_error result_bind];
      destruct reasoning; reflexivity.
Qed.

End RankingRefusals.

(** C2, amended. For a stage-4 response whose declared integer score [s] is
    in 1..5: whenever the response is accepted, the ranking carries [s], the
    category the fixed table gives for [s] and the action the fixed table
    gives for [s], whatever category or action the response declares;
    [execute_step_4] returns that ranking when the justification is a string
    of at least 20 characters once trimmed and the reasoning, if any, is a
    string; and it raises [ValidationError] in every other case. *)
Theorem step_4_category_and_action_from_score {rt : Runtime}
    (d : list (pystr * pyval)) (s : Z) :
  lookup (utf8 "score") d = Some (PInt s) ->
  1 <= s <= 5 ->
  (forall r,
     ChainExecutor.parse_step_4 (PDict d) = Ok r ->
     RankingOutput.score r = s /\
     category_of_score s = Some (RankingOutput.category r) /\
     action_of_score s = Some (RankingOutput.trader_action r)) /\
  (forall article summary topics impact w i o w' justification reasoning,
     call_with_json_response
       (STEP_4_RANKING summary (ChainExecutor.topics_text topics)
          (ChainExecutor.impact_text impact)) w
       = (Ok (PDict d, i, o), w') ->
     lookup (utf8 "justification") d = Some (PStr justification) ->
     20 <= len (strip justification) ->
     get (PDict d) "reasoning" (PStr []) = Ok (PStr reasoning) ->
     exists category action,
       category_of_score s = Some category /\
       action_of_score s = Some action /\
       ChainExecutor.execute_step_4 article summary topics impact w =
       (Ok (RankingOutput.Build s category (strip justification) action
              reasoning,
            i, o, elapsed_ms (now w) (now w')), w')) /\
  (forall article summary topics impact w i o w',
     call_with_json_response
       (STEP_4_RANKING summary (ChainExecutor.topics_text topics)
          (ChainExecutor.impact_text impact)) w
       = (Ok (PDict d, i, o), w') ->
     (forall justification reasoning,
        lookup (utf8 "justification") d = Some (PStr justification) ->
        20 <= len (strip justification) ->
        get (PDict d) "reasoning" (PStr []) = Ok (PStr reasoning) ->
        False) ->
     ChainExecutor.execute_step_4 article summary topics impact w =
     (Raise ValidationError, w')).
Proof.
  intros Hscore Hs.
  destruct (parse_step_4_in_range d Hscore Hs)
    as (category & action & j & c & Hc & Ha & Hj & Hr & Hparse).
  rewrite (ranking_new_in_range category j action c Hs) in Hparse.
  split; [|split].
  - intros r Hr'. rewrite Hparse in Hr'.
    destruct j as [| | | |j| |]; try discriminate.
    destruct c as [| | | |c| |]; try discriminate.
    destruct (len (strip j) <? 20); [discriminate|].
    injection Hr' as <-. cbn. repeat split; assumption.
  - intros article summary topics impact w i o w' justification reasoning
      Hcall Hjust Hlen Hreason.
    exists category, action. repeat split; try assumption.
    rewrite execute_step_4_eq, Hcall, Hparse.
    rewrite (get_present _ _ _ Hjust) in Hj. injection Hj as <-.
    rewrite Hreason in Hr. injection Hr as <-.
    destruct (len (strip justification) <? 20) eqn:Hlt; [lia|].
    reflexivity.
  - intros article summary topics impact w i o w' Hcall Hnone.
    rewrite execute_step_4_eq, Hcall, Hparse.
    destruct j as [| | | |j| |]; try reflexivity.
    destruct c as [| | | |c| |]; try reflexivity.
    destruct (len (strip j) <? 20) eqn:Hlt; [reflexivity|].
    exfalso. apply (Hnone j c); [|lia|exact Hr].
    unfold get in Hj. destruct (lookup (utf8 "justification") d) as [v|].
    + now injection Hj as ->.
    + injection Hj as <-. vm_compute in Hlt. discriminate.
Qed.

Lemma step_4_category_and_action_from_score_witness :
  (forall r,
     ChainExecutor.parse_step_4 (rt := scripted)
       (PDict [ item "reasoning" (pstr "Impacto alto.");
                item "score" (PInt 4);
                item "category" (pstr "Irrelevant");
                item "trader_action" (pstr "monitor");
                item "justification"
                  (pstr "  La reforma cambia el recaudo y mueve el peso.  ") ])
       = Ok r ->
     RankingOutput.score r = 4 /\
     category_of_score 4 = Some (RankingOutput.category r) /\
     action_of_score 4 = Some (RankingOutput.trader_action r)) /\
  ChainExecutor.execute_step_4 (rt := scripted) sample_article
    (utf8 "El gobierno anuncia una reforma tributaria.") [POLITICS]
    sample_impact
    [Ok (PDict [ item "reasoning" (pstr "Impacto alto.");
                 item "score" (PInt 4);
                 item "category" (pstr "Irrelevant");
                 item "trader_action" (pstr "monitor");
                 item "justification"
                   (pstr "  La reforma cambia el recaudo y mueve el peso.  ") ],
         130, 45)]
  = (Ok (RankingOutput.Build 4 HIGH
           (utf8 "La reforma cambia el recaudo y mueve el peso.") ALERT
           (utf8 "Impacto alto."),
         130, 45, 0), []) /\
  ChainExecutor.execute_step_4 (rt := scripted) sample_article
    (utf8 "El gobierno anuncia una reforma tributaria.") [POLITICS]
    sample_impact [step_4_score_only]
  = (Raise ValidationError, []).
Proof.
  destruct (step_4_category_and_action_from_score (rt := scripted)
              [ item "reasoning" (pstr "Impacto alto.");
                item "score" (PInt 4);
                item "category" (pstr "Irrelevant");
                item "trader_action" (pstr "monitor");
                item "justification"
                  (pstr "  La reforma cambia el recaudo y mueve el peso.  ") ]
              (s := 4) eq_refl ltac:(lia)) as [Hany [Hruns _]].
  split; [exact Hany|]. split.
  - destruct (Hruns sample_article
                (utf8 "El gobierno anuncia una reforma tributaria.") [POLITICS]
                sample_impact
                [Ok (PDict [ item "reasoning" (pstr "Impacto alto.");
                   item "score" (PInt 4);
                   item "category" (pstr "Irrelevant");
                   item "trader_action" (pstr "monitor");
                   item "justification"
                     (pstr "  La reforma cambia el recaudo y mueve el peso.  ") ],
                     130, 45)]
                130 45 []
                (utf8 "  La reforma cambia el recaudo y mueve el peso.  ")
                (utf8 "Impacto alto.")
                eq_refl eq_refl ltac:(vm_compute; discriminate) eq_refl)
      as (category & action & Hc & Ha & Hrun).
    injection Hc as <-. injection Ha as <-. exact Hrun.
  - destruct (step_4_category_and_action_from_score (rt := scripted)
                [ item "score" (PInt 3); item "category" (pstr "Moderate") ]
                (s := 3) eq_refl ltac:(lia)) as [_ [_ Hraises]].
    apply (Hraises sample_article
             (utf8 "El gobierno anuncia una reforma tributaria.") [POLITICS]
             sample_impact [step_4_score_only] 130 45 []); [reflexivity|].
    intros justification reasoning Hjust. discriminate Hjust.
Defined.

Lemma SFeqb_finite (f : spec_float) (m : positive) (e : Z) :
  SFeqb f (S754_finite false m e) = true -> f = S754_finite false m e.
Proof.
  unfold SFeqb, SFcompare.
  destruct f as [s|s| |s m0 e0]; try discriminate;
    try (destruct s; discriminate).
  destruct s; [discriminate|].
  destruct (e0 ?= e) eqn:He; try discriminate.
  destruct (PosDef.Pos.compare_cont Eq m0 m) eqn:Hm; try discriminate.
  intros _. apply Z.compare_eq in He. apply Pos.compare_eq in Hm.
  now subst.
Qed.

Lemma small_ints_as_floats (n : Z) :
  1 <= n <= 5 ->
  exists m e,
    Prim2SF (float_of_int n) = S754_finite false m e /\
    SFleb (Prim2SF 1.0) (S754_finite false m e) = true /\
    SFleb (S754_finite false m e) (Prim2SF 5.0) = true.
Proof.
  intros Hn.
  assert (Hcases : n = 1 \/ n = 2 \/ n = 3 \/ n = 4 \/ n = 5) by lia.
  destruct Hcases as [->|[->|[->|[->| ->]]]];
    eexists; eexists; (split; [vm_compute; reflexivity|]);
    split; vm_compute; reflexivity.
Qed.

(** A float equal to one of the ints 1..5 lies between 1 and 5. *)
Lemma float_equal_in_range (x : float) (n : Z) :
  1 <= n <= 5 ->
  (x =? float_of_int n)%float = true ->
  ((1.0 <=? x) && (x <=? 5.0))%float = true.
Proof.
  intros Hn Heq. rewrite eqb_spec in Heq. rewrite !leb_spec.
  destruct (small_ints_as_floats Hn) as (m & e & Hk & H1 & H5).
  rewrite Hk in Heq. apply SFeqb_finite in Heq. now rewrite Heq, H1, H5.
Qed.

Section OutOfRange.
Context {rt : Runtime}.
Hypothesis lax_exact :
  forall x n, lax_int (PFloat x) = Some n -> (x =? float_of_int n)%float = true.

(** The mapper has no error path on a number. *)
Lemma map_score_outside (score : pyval) :
  outside_1_5 score = true ->
  exists category action,
    ChainExecutor.map_score score = Ok (category, action).
Proof.
  destruct score as [| |n|x| | |]; try discriminate; intros _;
    unfold ChainExecutor.map_score, int_table_get, le_int;
    cbn [result_bind].
  - destruct (n <=? 2); [|destruct (n <=? 4)];
      eexists; eexists; reflexivity.
  - destruct (x <=? float_of_int 2)%float;
      [|destruct (x <=? float_of_int 4)%float];
      eexists; eexists; reflexivity.
Qed.

(** The model's [Field(ge=1, le=5)] takes no score outside [1,5]. *)
Lemma score_field_outside (score : pyval) :
  outside_1_5 score = true -> RankingOutput.score_field score = None.
Proof.
  destruct score as [| |n|x| | |]; try discriminate;
    unfold outside_1_5, RankingOutput.score_field; intros Hout.
  - apply negb_true_iff in Hout. now rewrite Hout.
  - destruct (lax_int (PFloat x)) as [n|] eqn:Hn; [|reflexivity].
    destruct ((1 <=? n) && (n <=? 5)) eqn:Hrange; [|reflexivity].
    apply andb_prop in Hrange as [H1 H5].
    apply Z.leb_le in H1. apply Z.leb_le in H5.
    rewrite (@float_equal_in_range x n (conj H1 H5) (lax_exact _ Hn)) in Hout.
    discriminate.
Qed.

Lemma parse_step_4_outside (d : list (pystr * pyval)) (score : pyval) :
  lookup (utf8 "score") d = Some score ->
  outside_1_5 score = true ->
  ChainExecutor.parse_step_4 (PDict d) = Raise ValidationError.
Proof.
  intros Hscore Hout. unfold ChainExecutor.parse_step_4.
  rewrite (get_present _ _ _ Hscore). cbn [result_bind].
  destruct (map_score_outside score Hout) as (category & action & Hmap).
  unfold get. cbn [result_bind]. rewrite Hmap. cbn [result_bind].
  unfold RankingOutput.new. now rewrite (score_field_outside score Hout).
Qed.

End OutOfRange.

(** C3, where it fails: the mapper comes first. The score 7 reaches it and
    gets a category and an action from it, Moderate and urgent, dropped
    only afterwards with the refusal of the model; and on the text "7",
    which the model would refuse, the stage raises the [TypeError] of the
    mapper's comparison, not a refusal of validation. *)
Lemma out_of_range_score_reaches_mapper :
  ChainExecutor.map_score (PInt 7) = Ok (MODERATE, URGENT) /\
  lookup (utf8 "score") score_7_as_text = Some (pstr "7") /\
  RankingOutput.score_field (rt := scripted) (pstr "7") = None /\
  ChainExecutor.parse_step_4 (rt := scripted) (PDict score_7_as_text)
    = Raise TypeError.
Proof. repeat split. Qed.

(** C3, amended. For a stage-4 response whose declared score is a number
    outside [1,5], an int or a float: the raw score does reach the mapper,
    which returns a category and an action for it without raising; the
    ranking model then refuses the score, so reading the response raises
    [ValidationError], so does [execute_step_4], and so does the whole chain,
    which returns no record for the article, and with it no category or
    action taken from that score. Of the validation library it is only asked
    that it takes a float for an int when the two are equal. *)
Theorem out_of_range_score_aborts_chain {rt : Runtime}
    (lax_exact : forall x n, lax_int (PFloat x) = Some n ->
                             (x =? float_of_int n)%float = true)
    (d : list (pystr * pyval)) (score : pyval) :
  lookup (utf8 "score") d = Some score ->
  outside_1_5 score = true ->
  (exists category action,
     ChainExecutor.map_score score = Ok (category, action)) /\
  RankingOutput.score_field score = None /\
  ChainExecutor.parse_step_4 (PDict d) = Raise ValidationError /\
  (forall article summary topics impact w i o w',
     call_with_json_response
       (STEP_4_RANKING summary (ChainExecutor.topics_text topics)
          (ChainExecutor.impact_text impact)) w
       = (Ok (PDict d, i, o), w') ->
     ChainExecutor.execute_step_4 article summary topics impact w
       = (Raise ValidationError, w')) /\
  (forall article market w s1 i1 o1 t1 w1 s2 i2 o2 t2 w2 s3 i3 o3 t3 w3 i o w4,
     ChainExecutor.execute_step_1 article w = (Ok (s1, i1, o1, t1), w1) ->
     ChainExecutor.execute_step_2 article (SummarizationOutput.summary s1) w1
       = (Ok (s2, i2, o2, t2), w2) ->
     ChainExecutor.execute_step_3 article (SummarizationOutput.summary s1)
       (TopicExtractionOutput.topics s2) market w2
       = (Ok (s3, i3, o3, t3), w3) ->
     call_with_json_response
       (STEP_4_RANKING (SummarizationOutput.summary s1)
          (ChainExecutor.topics_text (TopicExtractionOutput.topics s2))
          (ChainExecutor.impact_text s3)) w3
       = (Ok (PDict d, i, o), w4) ->
     ChainExecutor.execute_full_chain article market w
       = (Raise ValidationError, w4)).
Proof.
  intros Hscore Hout.
  pose proof (parse_step_4_outside lax_exact d Hscore Hout) as Hparse.
  assert (Hstep : forall article summary topics impact w i o w',
     call_with_json_response
       (STEP_4_RANKING summary (ChainExecutor.topics_text topics)
          (ChainExecutor.impact_text impact)) w
       = (Ok (PDict d, i, o), w') ->
     ChainExecutor.execute_step_4 article summary topics impact w
       = (Raise ValidationError, w')).
  { intros. rewrite execute_step_4_eq, H, Hparse. reflexivity. }
  split; [exact (map_score_outside score Hout)|].
  split; [exact (score_field_outside lax_exact score Hout)|].
  split; [exact Hparse|]. split; [exact Hstep|].
  intros article market w s1 i1 o1 t1 w1 s2 i2 o2 t2 w2 s3 i3 o3 t3 w3 i o w4
    H1 H2 H3 H4.
  eapply chain_raises_at_4; eauto.
Qed.

Lemma small_int_of_float_exact (x : float) (n : Z) :
  lax_int (Runtime := scripted_coercing) (PFloat x) = Some n ->
  (x =? float_of_int n)%float = true.
Proof.
  cbn [lax_int scripted_coercing small_int_of_float]. intros H.
  now apply find_some in H as [_ H].
Qed.

Lemma out_of_range_score_aborts_chain_witness :
  (forall x n, lax_int (Runtime := scripted_coercing) (PFloat x) = Some n ->
               (x =? float_of_int n)%float = true) /\
  lax_int (Runtime := scripted_coercing) (PFloat 7.0) = Some 7 /\
  ChainExecutor.map_score (PFloat 7.0) = Ok (MODERATE, URGENT) /\
  ChainExecutor.parse_step_4 (rt := scripted_coercing) (PDict score_7_as_float)
    = Raise ValidationError /\
  ChainExecutor.parse_step_4 (rt := scripted)
    (PDict [ item "reasoning" (pstr "Impacto total.");
             item "score" (PInt 7);
             item "category" (pstr "Critical");
             item "justification"
               (pstr "La reforma cambia el recaudo y mueve el peso.") ])
    = Raise ValidationError /\
  ChainExecutor.execute_full_chain (rt := scripted) sample_article tt
    [good_step_1; good_step_2; good_step_3; step_4_score_7]
    = (Raise ValidationError, []).
Proof.
  split; [exact small_int_of_float_exact|].
  split; [vm_compute; reflexivity|]. split; [vm_compute; reflexivity|].
  split.
  - apply (@out_of_range_score_aborts_chain scripted_coercing
             small_int_of_float_exact score_7_as_float (PFloat 7.0));
      reflexivity.
  - destruct (@out_of_range_score_aborts_chain scripted
                ltac:(intros x n H; discriminate H)
                [ item "reasoning" (pstr "Impacto total.");
                  item "score" (PInt 7);
                  item "category" (pstr "Critical");
                  item "justification"
                    (pstr "La reforma cambia el recaudo y mueve el peso.") ]
                (PInt 7) eq_refl eq_refl) as (_ & _ & Hparse & _ & Hchain).
    split; [exact Hparse|].
    eapply (Hchain sample_article tt
              [good_step_1; good_step_2; good_step_3; step_4_score_7]);
      [lazy; reflexivity ..].
Defined.

(* ================================================================== *)
(** * Chain executor: enumerated fields *)
(* ================================================================== *)




Lemma parse_topics_none (items : list pyval) (acc : list TopicCategory) :
  (forall v, In v items -> is_ok (TopicCategory_call v) = false) ->
  ChainExecutor.parse_topics items acc = acc.
Proof.
  revert acc. induction items as [|v items IH]; intros acc Hall; simpl;
    [reflexivity|].
  pose proof (Hall v (or_introl eq_refl)) as Hv.
  destruct (TopicCategory_call v); [discriminate|].
  apply IH. intros u Hu. apply Hall. now right.
Qed.




(* ================================================================== *)
(** * Processing loop and cost tracker *)
(* ================================================================== *)

(** C4. When the chain of an article raises, at whatever stage, the turn of
    the processing loop for that article appends no record and leaves the
    cost tracker as it was (input tokens, output tokens, cost and ledger),
    and the loop goes on with the next article. A stage 2 that raises is one
    such case. *)
Theorem failed_chain_leaves_tracker_untouched {rt : Runtime}
    (market : MarketSnapshot) (st : PipelineOrchestrator.state)
    (article : RawNews.t) (rest : list RawNews.t) (e : exn) (w' : World) :
  ChainExecutor.execute_full_chain article market
    (PipelineOrchestrator.world st) = (Raise e, w') ->
  let st' := PipelineOrchestrator.process_article market st article in
  PipelineOrchestrator.processed_articles st' =
    PipelineOrchestrator.processed_articles st /\
  PipelineOrchestrator.cost_tracker st' = PipelineOrchestrator.cost_tracker st /\
  CostTracker.total_input_tokens (PipelineOrchestrator.cost_tracker st') =
    CostTracker.total_input_tokens (PipelineOrchestrator.cost_tracker st) /\
  CostTracker.total_output_tokens (PipelineOrchestrator.cost_tracker st') =
    CostTracker.total_output_tokens (PipelineOrchestrator.cost_tracker st) /\
  CostTracker.total_cost_usd (PipelineOrchestrator.cost_tracker st') =
    CostTracker.total_cost_usd (PipelineOrchestrator.cost_tracker st) /\
  CostTracker.article_costs (PipelineOrchestrator.cost_tracker st') =
    CostTracker.article_costs (PipelineOrchestrator.cost_tracker st) /\
  PipelineOrchestrator.run_processing (article :: rest) market st =
    PipelineOrchestrator.run_processing rest market
      (PipelineOrchestrator.State (PipelineOrchestrator.cost_tracker st)
         (PipelineOrchestrator.processed_articles st) w') /\
  (forall s1 i1 o1 t1 w1,
     ChainExecutor.execute_step_1 article (PipelineOrchestrator.world st)
       = (Ok (s1, i1, o1, t1), w1) ->
     ChainExecutor.execute_step_2 article (SummarizationOutput.summary s1) w1
       = (Raise e, w') ->
     ChainExecutor.execute_full_chain article market
       (PipelineOrchestrator.world st) = (Raise e, w')).
Proof.
  intros Hchain st'.
  assert (Hst : st' =
    PipelineOrchestrator.State (PipelineOrchestrator.cost_tracker st)
      (PipelineOrchestrator.processed_articles st) w').
  { unfold st', PipelineOrchestrator.process_article. now rewrite Hchain. }
  repeat apply conj; try (rewrite Hst; reflexivity).
  - cbn [PipelineOrchestrator.run_processing]. fold st'. now rewrite Hst.
  - intros. eapply chain_raises_at_2; eauto.
Qed.

Lemma failed_chain_leaves_tracker_untouched_witness :
  ChainExecutor.execute_full_chain (rt := scripted) sample_article tt
    (PipelineOrchestrator.world stage_2_refused)
    = (Raise ValidationError, [good_step_1; good_step_2; good_step_3; good_step_4]) /\
  PipelineOrchestrator.cost_tracker
    (PipelineOrchestrator.process_article (rt := scripted) tt stage_2_refused sample_article)
    = CostTracker.init /\
  PipelineOrchestrator.processed_articles
    (PipelineOrchestrator.process_article (rt := scripted) tt stage_2_refused sample_article)
    = [] /\
  PipelineOrchestrator.run_processing (rt := scripted) [sample_article; long_article] tt
    stage_2_refused =
  PipelineOrchestrator.run_processing (rt := scripted) [long_article] tt
    (PipelineOrchestrator.State (rt := scripted) CostTracker.init []
       [good_step_1; good_step_2; good_step_3; good_step_4]) /\
  List.length
    (PipelineOrchestrator.processed_articles
       (PipelineOrchestrator.run_processing (rt := scripted) [sample_article; long_article] tt
          stage_2_refused))
    = 1%nat.
Proof.
  assert (Hchain :
    ChainExecutor.execute_full_chain (rt := scripted) sample_article tt
      (PipelineOrchestrator.world stage_2_refused)
    = (Raise ValidationError,
       [good_step_1; good_step_2; good_step_3; good_step_4]))
    by (vm_compute; reflexivity).
  destruct (@failed_chain_leaves_tracker_untouched scripted tt stage_2_refused
              sample_article [long_article] ValidationError _ Hchain)
    as (Hprocessed & Htracker & _ & _ & _ & _ & Hloop & _).
  split; [exact Hchain|]. split; [exact Htracker|].
  split; [exact Hprocessed|]. split; [exact Hloop|].
  vm_compute. reflexivity.
Defined.

(** C8. For a tracker with no recorded article, [generate_report] returns,
    without raising, a report whose article count, token totals, cost,
    per-article averages, minimum and maximum article cost and summed
    processing time are all zero, under the date asked for (or today's). *)
Theorem empty_tracker_report_is_zero
    (self : CostTracker.t) (date : option pystr) (today : pystr) :
  CostTracker.article_costs self = [] ->
  exists report,
    CostTracker.generate_report self date today = Ok report /\
    CostReport.date report = match date with Some d => d | None => today end /\
    CostReport.total_articles report = 0 /\
    CostReport.total_input_tokens report = 0 /\
    CostReport.total_output_tokens report = 0 /\
    CostReport.total_tokens report = 0 /\
    CostReport.total_cost_usd report = 0.0%float /\
    CostReport.avg_tokens_per_article report = 0.0%float /\
    CostReport.avg_cost_per_article report = 0.0%float /\
    CostReport.min_cost_article report = 0.0%float /\
    CostReport.max_cost_article report = 0.0%float /\
    CostReport.processing_time_ms report = 0 /\
    CostReport.cost_breakdown report = [].
Proof.
  intros Hempty. unfold CostTracker.generate_report. rewrite Hempty.
  cbn [map]. eexists. split; [reflexivity|].
  destruct date; repeat split.
Qed.

Lemma empty_tracker_report_is_zero_witness :
  CostTracker.article_costs CostTracker.init = [] /\
  CostTracker.generate_report CostTracker.init None (utf8 "2025-01-01") =
  Ok (CostReport.Build (utf8 "2025-01-01") 0 0 0 0 0.0 0.0 0.0 0.0 0.0 0 []).
Proof.
  split; [reflexivity|].
  destruct (empty_tracker_report_is_zero CostTracker.init None
              (utf8 "2025-01-01") eq_refl) as (report & Hreport & _).
  rewrite Hreport. f_equal.
  vm_compute in Hreport. injection Hreport as <-. reflexivity.
Defined.

(* ================================================================== *)
(** * Gate pipeline and gate phase: shape of the results *)
(* ================================================================== *)

Lemma run_loop_shape (article : RawNews.t) (gates : list Gate)
    (acc : list GateCheckResult.t) :
  forallb GateCheckResult.passed acc = true ->
  let r := GatePipeline.run_loop gates article acc in
  (fst r = true ->
     snd r = acc ++ map (fun g => check g article) gates /\
     forallb GateCheckResult.passed (snd r) = true) /\
  (fst r = false ->
     exists pre failing,
       snd r = pre ++ [failing] /\
       forallb GateCheckResult.passed pre = true /\
       GateCheckResult.passed failing = false) /\
  (List.length (snd r) <= List.length acc + List.length gates)%nat.
Proof.
  revert acc. induction gates as [|g gates IH]; intros acc Hacc; simpl.
  - split; [|split].
    + intros _. now rewrite app_nil_r.
    + discriminate.
    + lia.
  - destruct (GateCheckResult.passed (check g article)) eqn:Hg; simpl.
    + assert (Hacc' : forallb GateCheckResult.passed (acc ++ [check g article])
                      = true).
      { rewrite forallb_app, Hacc. simpl. now rewrite Hg. }
      destruct (IH _ Hacc') as (Hok & Hfail & Hlen).
      split; [|split].
      * intros H. destruct (Hok H) as [Heq Hall]. split; [|exact Hall].
        rewrite Heq, <- app_assoc. reflexivity.
      * exact Hfail.
      * rewrite length_app in Hlen. simpl in Hlen. lia.
    + split; [|split].
      * discriminate.
      * intros _. exists acc, (check g article). repeat split; assumption.
      * rewrite length_app. simpl. lia.
Qed.

(** X1. What [run] returns has one of two shapes. With the verdict [True]
    there is one result per gate, in gate order, and every result passed.
    With the verdict [False] the list is not empty, its last result is a
    failed one and all results before it passed. It never holds more results
    than there are gates. *)
Theorem run_results_shape (gates : list Gate) (article : RawNews.t) :
  (fst (GatePipeline.run gates article) = true ->
     snd (GatePipeline.run gates article) = map (fun g => check g article) gates /\
     forallb GateCheckResult.passed (snd (GatePipeline.run gates article)) = true) /\
  (fst (GatePipeline.run gates article) = false ->
     exists pre failing,
       snd (GatePipeline.run gates article) = pre ++ [failing] /\
       forallb GateCheckResult.passed pre = true /\
       GateCheckResult.passed failing = false) /\
  (List.length (snd (GatePipeline.run gates article)) <= List.length gates)%nat.
Proof.
  unfold GatePipeline.run.
  destruct (@run_loop_shape article gates [] eq_refl) as (Hok & Hfail & Hlen).
  split; [exact Hok|]. split; [exact Hfail|exact Hlen].
Qed.

Lemma run_gates_loop_spec (gates : list Gate) (articles passed_articles : list RawNews.t)
    (all_gate_results : list GateCheckResult.t) :
  GatePhase.run_gates_loop gates articles passed_articles all_gate_results =
  Some (passed_articles ++
          filter (fun a => fst (GatePipeline.run gates a)) articles,
        all_gate_results ++
          flat_map (fun a => snd (GatePipeline.run gates a)) articles).
Proof.
  revert passed_articles all_gate_results.
  induction articles as [|a articles IH]; intros passed_articles all_gate_results;
    simpl.
  - now rewrite !app_nil_r.
  - destruct (run_results_shape gates a) as (_ & Hfail & _).
    destruct (GatePipeline.run gates a) as [ok results] eqn:Hrun.
    simpl in *. destruct ok.
    + rewrite IH, <- !app_assoc. reflexivity.
    + destruct (Hfail eq_refl) as (pre & failing & -> & _ & _).
      rewrite rev_app_distr. simpl. rewrite IH, <- !app_assoc. reflexivity.
Qed.

(** X2. [run_gates] always completes: the [gate_results[-1]] it reads for a
    rejected article is never taken from an empty list. It admits exactly the
    articles that pass every gate of the pipeline, in their order of arrival,
    and the results it collects are the results of the fail-fast runs, article
    after article. *)
Theorem run_gates_admits_passing (gates : list Gate) (articles : list RawNews.t) :
  GatePhase.run_gates gates articles =
  Some (filter (fun a =>
                  forallb (fun g => GateCheckResult.passed (check g a)) gates)
          articles,
        flat_map (fun a => snd (GatePipeline.run gates a)) articles).
Proof.
  unfold GatePhase.run_gates. rewrite run_gates_loop_spec. simpl.
  f_equal. f_equal. apply filter_ext. intros a.
  unfold GatePipeline.run. now destruct (@run_loop_spec a gates []) as [-> _].
Qed.

(* ================================================================== *)
(** * Chain executor: what a returned record holds *)
(* ================================================================== *)

Lemma lstrip_head (s : pystr) (c : N) (r : pystr) :
  lstrip s = c :: r -> isspace c = false.
Proof.
  induction s as [|a s IH]; simpl; [discriminate|].
  destruct (isspace a) eqn:Ha; [exact IH|].
  intros H. injection H as <- _. exact Ha.
Qed.

Lemma lstrip_fixed (s : pystr) (c : N) (r : pystr) :
  s = c :: r -> isspace c = false -> lstrip s = s.
Proof. intros -> Hc. simpl. now rewrite Hc. Qed.

Lemma lstrip_idempotent (s : pystr) : lstrip (lstrip s) = lstrip s.
Proof.
  destruct (lstrip s) as [|c r] eqn:H; [reflexivity|].
  apply (lstrip_fixed eq_refl). exact (lstrip_head _ H).
Qed.

Lemma lstrip_suffix (s : pystr) :
  exists blank, s = blank ++ lstrip s /\ forallb isspace blank = true.
Proof.
  induction s as [|c s (blank & Hs & Hblank)]; simpl.
  - exists []. split; reflexivity.
  - destruct (isspace c) eqn:Hc.
    + exists (c :: blank). simpl. rewrite Hc, Hblank. split; [|reflexivity].
      now rewrite <- Hs.
    + exists []. split; reflexivity.
Qed.

Lemma rstrip_prefix (s : pystr) :
  exists blank, s = rstrip s ++ blank /\ forallb isspace blank = true.
Proof.
  unfold rstrip. destruct (lstrip_suffix (rev s)) as (blank & Hs & Hblank).
  exists (rev blank). split.
  - rewrite <- rev_app_distr, <- Hs. now rewrite rev_involutive.
  - apply forallb_forall. intros c Hc. rewrite <- in_rev in Hc.
    rewrite forallb_forall in Hblank. now apply Hblank.
Qed.

Lemma rstrip_idempotent (s : pystr) : rstrip (rstrip s) = rstrip s.
Proof.
  unfold rstrip. now rewrite rev_involutive, lstrip_idempotent.
Qed.

Lemma rstrip_keeps_head (c : N) (r : pystr) :
  isspace c = false -> exists r', rstrip (c :: r) = c :: r'.
Proof.
  intros Hc. destruct (rstrip_prefix (c :: r)) as (blank & Hs & Hblank).
  destruct (rstrip (c :: r)) as [|a r'].
  - simpl in Hs. subst blank. simpl in Hblank. rewrite Hc in Hblank.
    discriminate.
  - injection Hs as <- _. now exists r'.
Qed.

(** [strip] returns a text that [strip] leaves alone. *)
Lemma strip_idempotent (s : pystr) : strip (strip s) = strip s.
Proof.
  unfold strip.
  assert (H : lstrip (rstrip (lstrip s)) = rstrip (lstrip s)).
  { destruct (lstrip s) as [|c r] eqn:Hs; [reflexivity|].
    destruct (@rstrip_keeps_head c r (lstrip_head _ Hs)) as (r' & Hr).
    rewrite Hr. apply (lstrip_fixed eq_refl). exact (lstrip_head _ Hs). }
  now rewrite H, rstrip_idempotent.
Qed.

Section RecordFacts.
Context {rt : Runtime}.

Import ChainExecutor.

Lemma summarization_new_ok summary reasoning out :
  SummarizationOutput.new summary reasoning = Ok out ->
  10 <= len (SummarizationOutput.summary out) /\
  strip (SummarizationOutput.summary out) = SummarizationOutput.summary out.
Proof.
  unfold SummarizationOutput.new.
  destruct (str_field summary) as [s|]; [|discriminate].
  destruct (str_field reasoning) as [c|]; [|discriminate].
  cbn [validated result_bind]. unfold SummarizationOutput.validate_summary.
  destruct (is_empty s || (len (strip s) <? 10)) eqn:Hs; [discriminate|].
  cbn [as_validation_error result_bind]. intros H. injection H as <-.
  cbn [SummarizationOutput.summary]. apply orb_false_elim in Hs as [_ Hlen].
  rewrite strip_idempotent. split; [|reflexivity].
  apply Z.ltb_ge in Hlen. exact Hlen.
Qed.

Lemma topics_new_ok topics reasoning confidence out :
  TopicExtractionOutput.new topics reasoning confidence = Ok out ->
  TopicExtractionOutput.topics out = topics /\ topics <> [] /\
  ((0.0 <=? TopicExtractionOutput.confidence out)
   && (TopicExtractionOutput.confidence out <=? 1.0))%float = true.
Proof.
  unfold TopicExtractionOutput.new, TopicExtractionOutput.validate_topics.
  destruct topics as [|t topics]; [discriminate|].
  cbn [is_empty as_validation_error result_bind].
  destruct (str_field reasoning); [|discriminate].
  destruct (confidence_field confidence) as [c|]; [|discriminate].
  cbn [validated result_bind]. unfold TopicExtractionOutput.validate_confidence.
  destruct ((0.0 <=? c) && (c <=? 1.0))%float eqn:Hc; [|discriminate].
  cbn [negb as_validation_error result_bind]. intros H. injection H as <-.
  cbn. repeat split; [discriminate|exact Hc].
Qed.

Lemma impact_new_ok direction mechanisms confidence horizon reasoning out :
  ImpactAnalysisOutput.new direction mechanisms confidence horizon reasoning
    = Ok out ->
  ImpactAnalysisOutput.direction out = direction /\
  ImpactAnalysisOutput.time_horizon out = horizon /\
  ImpactAnalysisOutput.mechanisms out <> [].
Proof.
  unfold ImpactAnalysisOutput.new.
  destruct (list_str_field mechanisms) as [m|]; [|discriminate].
  cbn [validated result_bind]. unfold ImpactAnalysisOutput.validate_mechanisms.
  destruct m as [|m0 m]; [discriminate|].
  cbn [is_empty as_validation_error result_bind].
  destruct (confidence_field confidence); [|discriminate].
  destruct (str_field reasoning); [|discriminate].
  cbn [validated result_bind]. intros H. injection H as <-.
  cbn. repeat split. discriminate.
Qed.

Lemma ranking_new_ok score category justification action reasoning out :
  RankingOutput.new score category justification action reasoning = Ok out ->
  1 <= RankingOutput.score out <= 5 /\
  20 <= len (RankingOutput.justification out) /\
  strip (RankingOutput.justification out) = RankingOutput.justification out.
Proof.
  unfold RankingOutput.new.
  destruct (RankingOutput.score_field score) as [n|] eqn:Hn; [|discriminate].
  cbn [validated result_bind]. unfold RankingOutput.validate_score.
  destruct ((1 <=? n) && (n <=? 5)) eqn:Hrange; [|discriminate].
  cbn [negb as_validation_error result_bind].
  destruct (str_field justification) as [j|]; [|discriminate].
  cbn [validated result_bind]. unfold RankingOutput.validate_justification.
  destruct (is_empty j || (len (strip j) <? 20)) eqn:Hj; [discriminate|].
  cbn [as_validation_error result_bind].
  destruct (str_field reasoning); [|discriminate].
  cbn [validated result_bind]. intros H. injection H as <-.
  cbn [RankingOutput.score RankingOutput.justification].
  apply andb_prop in Hrange as [H1 H5].
  apply orb_false_elim in Hj as [_ Hlen].
  rewrite strip_idempotent. apply Z.ltb_ge in Hlen.
  apply Z.leb_le in H1. apply Z.leb_le in H5. repeat split; assumption.
Qed.

Lemma step_1_ok article w out i o t w' :
  execute_step_1 article w = (Ok (out, i, o, t), w') ->
  exists response, parse_step_1 response = Ok out.
Proof.
  rewrite execute_step_1_eq.
  destruct (call_with_json_response _ w) as [[[[r i0] o0]|e] w0]; [|discriminate].
  destruct (parse_step_1 r) eqn:Hp; [|discriminate].
  intros H. injection H as <- _ _ _ _. now exists r.
Qed.

Lemma step_2_ok article summary w out i o t w' :
  execute_step_2 article summary w = (Ok (out, i, o, t), w') ->
  exists response, parse_step_2 response = Ok out.
Proof.
  unfold execute_step_2, bind, get_now, lift, ret.
  destruct (call_with_json_response _ w) as [[[[r i0] o0]|e] w0]; [|discriminate].
  destruct (parse_step_2 r) eqn:Hp; [|discriminate].
  intros H. injection H as <- _ _ _ _. now exists r.
Qed.

Lemma step_3_ok article summary topics market w out i o t w' :
  execute_step_3 article summary topics market w = (Ok (out, i, o, t), w') ->
  exists response, parse_step_3 response = Ok out.
Proof.
  unfold execute_step_3, bind, get_now, lift, ret.
  destruct (call_with_json_response _ w) as [[[[r i0] o0]|e] w0]; [|discriminate].
  destruct (parse_step_3 r) eqn:Hp; [|discriminate].
  intros H. injection H as <- _ _ _ _. now exists r.
Qed.

Lemma step_4_ok article summary topics impact w out i o t w' :
  execute_step_4 article summary topics impact w = (Ok (out, i, o, t), w') ->
  exists response, parse_step_4 response = Ok out.
Proof.
  rewrite execute_step_4_eq.
  destruct (call_with_json_response _ w) as [[[[r i0] o0]|e] w0]; [|discriminate].
  destruct (parse_step_4 r) eqn:Hp; [|discriminate].
  intros H. injection H as <- _ _ _ _. now exists r.
Qed.

End RecordFacts.

Section ChainReturns.
Context {rt : Runtime}.

Import ChainExecutor.

(** A chain that returns went through four stages that returned, each run
    from the world the one before left. *)
Lemma chain_ok (article : RawNews.t) (market : MarketSnapshot)
    (w : World) (p : ProcessedNews.t) (w' : World) :
  execute_full_chain article market w = (Ok p, w') ->
  exists s1 i1 o1 t1 w1 s2 i2 o2 t2 w2 s3 i3 o3 t3 w3 s4 i4 o4 t4,
    execute_step_1 article w = (Ok (s1, i1, o1, t1), w1) /\
    execute_step_2 article (SummarizationOutput.summary s1) w1
      = (Ok (s2, i2, o2, t2), w2) /\
    execute_step_3 article (SummarizationOutput.summary s1)
      (TopicExtractionOutput.topics s2) market w2 = (Ok (s3, i3, o3, t3), w3) /\
    execute_step_4 article (SummarizationOutput.summary s1)
      (TopicExtractionOutput.topics s2) s3 w3 = (Ok (s4, i4, o4, t4), w') /\
    is_ok (ProcessedNews.cost_usd p) = true /\
    p = ProcessedNews.Build
          (RawNews.article_id article) RANKING 4
          (0 + i1 + i2 + i3 + i4) (0 + o1 + o2 + o3 + o4)
          (0 + t1 + t2 + t3 + t4) (now w')
          (Some (SummarizationOutput.summary s1))
          (Some (SummarizationOutput.cot_reasoning s1))
          (Some (TopicExtractionOutput.topics s2))
          (Some (TopicExtractionOutput.cot_reasoning s2))
          (Some (TopicExtractionOutput.confidence s2))
          (Some (ImpactAnalysisOutput.direction s3))
          (Some (ImpactAnalysisOutput.mechanisms s3))
          (Some (ImpactAnalysisOutput.confidence s3))
          (Some (ImpactAnalysisOutput.time_horizon s3))
          (Some (ImpactAnalysisOutput.cot_reasoning s3))
          (Some (RankingOutput.score s4))
          (Some (RankingOutput.category s4))
          (Some (RankingOutput.justification s4))
          (Some (RankingOutput.trader_action s4))
          (Some (RankingOutput.cot_reasoning s4)).
Proof.
  unfold execute_full_chain.
  unfold bind at 1.
  destruct (execute_step_1 article w) as [[[[[s1 i1] o1] t1]|e1] w1] eqn:H1;
    [|discriminate].
  unfold bind at 1.
  destruct (execute_step_2 article (SummarizationOutput.summary s1) w1)
    as [[[[[s2 i2] o2] t2]|e2] w2] eqn:H2; [|discriminate].
  unfold bind at 1.
  destruct (execute_step_3 article (SummarizationOutput.summary s1)
              (TopicExtractionOutput.topics s2) market w2)
    as [[[[[s3 i3] o3] t3]|e3] w3] eqn:H3; [|discriminate].
  unfold bind at 1.
  destruct (execute_step_4 article (SummarizationOutput.summary s1)
              (TopicExtractionOutput.topics s2) s3 w3)
    as [[[[[s4 i4] o4] t4]|e4] w4] eqn:H4; [|discriminate].
  unfold bind, get_now, lift, ret. cbv beta zeta iota.
  destruct (ProcessedNews.cost_usd _) eqn:Hcost; intros H;
    [|inversion H].
  injection H as <- <-.
  exists s1, i1, o1, t1, w1, s2, i2, o2, t2, w2, s3, i3, o3, t3, w3,
    s4, i4, o4, t4.
  repeat split; try reflexivity; try assumption.
  exact (f_equal is_ok Hcost).
Qed.

End ChainReturns.

(** X3. Every record [execute_full_chain] returns carries the id of the
    article, stage RANKING and step 4; a summary of at least 10 characters
    and a justification of at least 20, both without blanks at either end; at
    least one topic and one mechanism; a topic confidence within [0, 1]; and a
    score within 1..5. *)
Theorem returned_record_is_valid {rt : Runtime}
    (article : RawNews.t) (market : MarketSnapshot)
    (w : World) (p : ProcessedNews.t) (w' : World) :
  ChainExecutor.execute_full_chain article market w = (Ok p, w') ->
  ProcessedNews.article_id p = RawNews.article_id article /\
  ProcessedNews.processing_stage p = RANKING /\
  ProcessedNews.chain_step p = 4 /\
  exists summary topics confidence mechanisms score justification,
    ProcessedNews.summary p = Some summary /\
    10 <= len summary /\ strip summary = summary /\
    ProcessedNews.topics p = Some topics /\ topics <> [] /\
    ProcessedNews.topics_confidence p = Some confidence /\
    ((0.0 <=? confidence) && (confidence <=? 1.0))%float = true /\
    ProcessedNews.impact_mechanisms p = Some mechanisms /\ mechanisms <> [] /\
    ProcessedNews.ranking_score p = Some score /\ 1 <= score <= 5 /\
    ProcessedNews.ranking_justification p = Some justification /\
    20 <= len justification /\ strip justification = justification.
Proof.
  intros Hchain.
  destruct (chain_ok _ _ _ Hchain)
    as (s1 & i1 & o1 & t1 & w1 & s2 & i2 & o2 & t2 & w2 & s3 & i3 & o3 & t3
        & w3 & s4 & i4 & o4 & t4 & H1 & H2 & H3 & H4 & _ & ->).
  destruct (step_1_ok _ _ H1) as (r1 & Hp1).
  destruct (step_2_ok _ _ _ H2) as (r2 & Hp2).
  destruct (step_3_ok _ _ _ _ _ H3) as (r3 & Hp3).
  destruct (step_4_ok _ _ _ _ _ H4) as (r4 & Hp4).
  unfold ChainExecutor.parse_step_1 in Hp1.
  destruct (get r1 "summary" _); [|discriminate].
  destruct (get r1 "reasoning" _); [|discriminate].
  cbn [result_bind] in Hp1. apply summarization_new_ok in Hp1 as [Hs1 Hs2].
  unfold ChainExecutor.parse_step_2 in Hp2.
  destruct (get r2 "topics" _) as [ts|]; [|discriminate].
  cbn [result_bind] in Hp2. destruct (iter ts); [|discriminate].
  cbn [result_bind] in Hp2.
  destruct (get r2 "reasoning" _); [|discriminate].
  destruct (get r2 "confidence" _); [|discriminate].
  cbn [result_bind] in Hp2. apply topics_new_ok in Hp2 as (Ht1 & Ht2 & Ht3).
  unfold ChainExecutor.parse_step_3 in Hp3.
  destruct (get r3 "direction" _); [|discriminate]. cbn [result_bind] in Hp3.
  destruct (ImpactDirection_call _); [|discriminate]. cbn [result_bind] in Hp3.
  destruct (get r3 "mechanisms" _); [|discriminate].
  destruct (get r3 "confidence" _); [|discriminate].
  destruct (get r3 "time_horizon" _); [|discriminate]. cbn [result_bind] in Hp3.
  destruct (TimeHorizon_call _); [|discriminate]. cbn [result_bind] in Hp3.
  destruct (get r3 "reasoning" _); [|discriminate]. cbn [result_bind] in Hp3.
  apply impact_new_ok in Hp3 as (_ & _ & Hm).
  unfold ChainExecutor.parse_step_4 in Hp4.
  destruct (get r4 "score" _); [|discriminate].
  destruct (get r4 "category" _); [|discriminate]. cbn [result_bind] in Hp4.
  destruct (ChainExecutor.map_score _) as [[cat act]|]; [|discriminate].
  destruct (get r4 "justification" _); [|discriminate].
  destruct (get r4 "reasoning" _); [|discriminate]. cbn [result_bind] in Hp4.
  apply ranking_new_ok in Hp4 as (Hr1 & Hr2 & Hr3).
  cbn. split; [reflexivity|]. split; [reflexivity|]. split; [reflexivity|].
  exists (SummarizationOutput.summary s1), (TopicExtractionOutput.topics s2),
    (TopicExtractionOutput.confidence s2), (ImpactAnalysisOutput.mechanisms s3),
    (RankingOutput.score s4), (RankingOutput.justification s4).
  rewrite Ht1. repeat split; try assumption; lia.
Qed.

Lemma sample_chain_returns :
  ChainExecutor.execute_full_chain (rt := scripted) sample_article tt
    [good_step_1; good_step_2; good_step_3; good_step_4] = sample_run.
Proof. vm_cast_no_check (eq_refl sample_run). Qed.

Lemma returned_record_is_valid_witness :
  exists p,
    ChainExecutor.execute_full_chain (rt := scripted) sample_article tt
      [good_step_1; good_step_2; good_step_3; good_step_4] = (Ok p, []) /\
    ProcessedNews.article_id p = RawNews.article_id sample_article /\
    ProcessedNews.processing_stage p = RANKING /\
    ProcessedNews.chain_step p = 4 /\
    exists summary topics confidence mechanisms score justification,
      ProcessedNews.summary p = Some summary /\
      10 <= len summary /\ strip summary = summary /\
      ProcessedNews.topics p = Some topics /\ topics <> [] /\
      ProcessedNews.topics_confidence p = Some confidence /\
      ((0.0 <=? confidence) && (confidence <=? 1.0))%float = true /\
      ProcessedNews.impact_mechanisms p = Some mechanisms /\ mechanisms <> [] /\
      ProcessedNews.ranking_score p = Some score /\ 1 <= score <= 5 /\
      ProcessedNews.ranking_justification p = Some justification /\
      20 <= len justification /\ strip justification = justification.
Proof.
  eexists. split; [exact sample_chain_returns|].
  exact (returned_record_is_valid (rt := scripted) sample_article tt
           [good_step_1; good_step_2; good_step_3; good_step_4]
           sample_chain_returns).
Defined.

(** X4. The token counts and the time of a returned record are the sums
    over the four stages of the chain, which all returned, each run from the
    world the one before left; the record is stamped with the clock at the
    world the last stage left. *)
Theorem returned_record_sums_stages {rt : Runtime}
    (article : RawNews.t) (market : MarketSnapshot)
    (w : World) (p : ProcessedNews.t) (w' : World) :
  ChainExecutor.execute_full_chain article market w = (Ok p, w') ->
  exists s1 i1 o1 t1 w1 s2 i2 o2 t2 w2 s3 i3 o3 t3 w3 s4 i4 o4 t4,
    ChainExecutor.execute_step_1 article w = (Ok (s1, i1, o1, t1), w1) /\
    ChainExecutor.execute_step_2 article (SummarizationOutput.summary s1) w1
      = (Ok (s2, i2, o2, t2), w2) /\
    ChainExecutor.execute_step_3 article (SummarizationOutput.summary s1)
      (TopicExtractionOutput.topics s2) market w2 = (Ok (s3, i3, o3, t3), w3) /\
    ChainExecutor.execute_step_4 article (SummarizationOutput.summary s1)
      (TopicExtractionOutput.topics s2) s3 w3 = (Ok (s4, i4, o4, t4), w') /\
    ProcessedNews.input_tokens p = i1 + i2 + i3 + i4 /\
    ProcessedNews.output_tokens p = o1 + o2 + o3 + o4 /\
    ProcessedNews.processing_time_ms p = t1 + t2 + t3 + t4 /\
    ProcessedNews.total_tokens p = (i1 + i2 + i3 + i4) + (o1 + o2 + o3 + o4) /\
    ProcessedNews.processed_at p = now w'.
Proof.
  intros Hchain.
  destruct (chain_ok _ _ _ Hchain)
    as (s1 & i1 & o1 & t1 & w1 & s2 & i2 & o2 & t2 & w2 & s3 & i3 & o3 & t3
        & w3 & s4 & i4 & o4 & t4 & H1 & H2 & H3 & H4 & _ & ->).
  exists s1, i1, o1, t1, w1, s2, i2, o2, t2, w2, s3, i3, o3, t3, w3,
    s4, i4, o4, t4.
  repeat split; try assumption.
Qed.

Lemma returned_record_sums_stages_witness :
  exists p,
    ChainExecutor.execute_full_chain (rt := scripted) sample_article tt
      [good_step_1; good_step_2; good_step_3; good_step_4] = (Ok p, []) /\
    ProcessedNews.input_tokens p = 100 + 120 + 150 + 130 /\
    ProcessedNews.output_tokens p = 50 + 40 + 60 + 45.
Proof.
  eexists. split; [exact sample_chain_returns|].
  destruct (returned_record_sums_stages (rt := scripted) sample_article tt
              [good_step_1; good_step_2; good_step_3; good_step_4]
              sample_chain_returns)
    as (s1 & i1 & o1 & t1 & w1 & s2 & i2 & o2 & t2 & w2 & s3 & i3 & o3 & t3
        & w3 & s4 & i4 & o4 & t4 & H1 & H2 & H3 & H4 & Hi & Ho & _).
  split; reflexivity.
Defined.

(* ================================================================== *)
(** * Processing loop: records and ledger *)
(* ================================================================== *)

Lemma add_processed_article_ok {rt : Runtime} (p : ProcessedNews.t)
    (t : CostTracker.t) (cost : float) :
  ProcessedNews.cost_usd p = Ok cost ->
  CostTracker.add_processed_article p t =
  Ok (CostTracker.Build
        (CostTracker.total_input_tokens t + ProcessedNews.input_tokens p)
        (CostTracker.total_output_tokens t + ProcessedNews.output_tokens p)
        (CostTracker.total_cost_usd t + cost)%float
        (CostTracker.article_costs t ++
           [CostRecord.Build (ProcessedNews.article_id p)
              (ProcessedNews.input_tokens p) (ProcessedNews.output_tokens p)
              (ProcessedNews.total_tokens p) cost
              (ProcessedNews.ranking_score p)
              (ProcessedNews.processing_time_ms p)])).
Proof.
  intros H. unfold CostTracker.add_processed_article. rewrite H. reflexivity.
Qed.

(** X5. A record the chain returns always reaches the ledger: the tracker
    takes it without raising (the chain has already computed its cost), the
    turn of the loop appends the record to the processed list and one entry
    for it to the ledger, and adds its token counts to the totals. *)
Theorem returned_record_is_recorded {rt : Runtime}
    (market : MarketSnapshot) (st : PipelineOrchestrator.state)
    (article : RawNews.t) (p : ProcessedNews.t) (w' : World) :
  ChainExecutor.execute_full_chain article market
    (PipelineOrchestrator.world st) = (Ok p, w') ->
  exists tracker entry,
    PipelineOrchestrator.process_article market st article =
      PipelineOrchestrator.State tracker
        (PipelineOrchestrator.processed_articles st ++ [p]) w' /\
    CostTracker.add_processed_article p (PipelineOrchestrator.cost_tracker st)
      = Ok tracker /\
    CostTracker.article_costs tracker =
      CostTracker.article_costs (PipelineOrchestrator.cost_tracker st) ++ [entry] /\
    recorded p entry /\
    CostTracker.total_input_tokens tracker =
      CostTracker.total_input_tokens (PipelineOrchestrator.cost_tracker st)
      + ProcessedNews.input_tokens p /\
    CostTracker.total_output_tokens tracker =
      CostTracker.total_output_tokens (PipelineOrchestrator.cost_tracker st)
      + ProcessedNews.output_tokens p.
Proof.
  intros Hchain.
  destruct (chain_ok _ _ _ Hchain)
    as (s1 & i1 & o1 & t1 & w1 & s2 & i2 & o2 & t2 & w2 & s3 & i3 & o3 & t3
        & w3 & s4 & i4 & o4 & t4 & _ & _ & _ & _ & Hcost & _).
  destruct (ProcessedNews.cost_usd p) as [cost|] eqn:Hc; [|discriminate].
  pose proof (add_processed_article_ok p (PipelineOrchestrator.cost_tracker st) Hc)
    as Hadd.
  eexists. eexists. split; [|split; [exact Hadd|]].
  - unfold PipelineOrchestrator.process_article. rewrite Hchain, Hadd.
    reflexivity.
  - cbn. repeat split. exact Hc.
Qed.

Lemma returned_record_is_recorded_witness :
  exists p tracker,
    ChainExecutor.execute_full_chain (rt := scripted) sample_article tt
      [good_step_1; good_step_2; good_step_3; good_step_4] = (Ok p, []) /\
    PipelineOrchestrator.process_article (rt := scripted) tt
      (PipelineOrchestrator.State (rt := scripted) CostTracker.init []
         [good_step_1; good_step_2; good_step_3; good_step_4])
      sample_article =
    PipelineOrchestrator.State (rt := scripted) tracker [p] [] /\
    CostTracker.add_processed_article p CostTracker.init = Ok tracker /\
    List.length (CostTracker.article_costs tracker) = 1%nat /\
    CostTracker.total_input_tokens tracker = ProcessedNews.input_tokens p.
Proof.
  destruct (@returned_record_is_recorded scripted tt
              (PipelineOrchestrator.State (rt := scripted) CostTracker.init []
                 [good_step_1; good_step_2; good_step_3; good_step_4])
              sample_article _ [] sample_chain_returns)
    as (tracker & entry & Hturn & Hadd & Hledger & _ & Hin & _).
  eexists. exists tracker.
  split; [exact sample_chain_returns|]. split; [exact Hturn|].
  split; [exact Hadd|]. split; [now rewrite Hledger|exact Hin].
Defined.

Lemma sum_Z_app (l1 l2 : list Z) : sum_Z (l1 ++ l2) = sum_Z l1 + sum_Z l2.
Proof.
  unfold sum_Z. induction l1 as [|x l1 IH]; simpl; [reflexivity|].
  rewrite IH. lia.
Qed.

Section LoopFacts.
Context {rt : Runtime}.

Import PipelineOrchestrator.

(** One turn of the loop either leaves tracker and list alone, or appends
    the record of the article and the entry of that record. *)
Lemma process_article_cases (market : MarketSnapshot) (st : state)
    (article : RawNews.t) :
  (cost_tracker (process_article market st article) = cost_tracker st /\
   processed_articles (process_article market st article)
     = processed_articles st) \/
  (exists p cost,
     ProcessedNews.article_id p = RawNews.article_id article /\
     ProcessedNews.cost_usd p = Ok cost /\
     CostTracker.add_processed_article p (cost_tracker st)
       = Ok (cost_tracker (process_article market st article)) /\
     processed_articles (process_article market st article)
       = processed_articles st ++ [p]).
Proof.
  unfold process_article.
  destruct (ChainExecutor.execute_full_chain article market (world st))
    as [[p|e] w'] eqn:Hchain; [|left; split; reflexivity].
  destruct (CostTracker.add_processed_article p (cost_tracker st))
    as [tracker|e] eqn:Hadd; [|left; split; reflexivity].
  right.
  destruct (chain_ok _ _ _ Hchain)
    as (s1 & i1 & o1 & t1 & w1 & s2 & i2 & o2 & t2 & w2 & s3 & i3 & o3 & t3
        & w3 & s4 & i4 & o4 & t4 & _ & _ & _ & _ & Hcost & Hp).
  destruct (ProcessedNews.cost_usd p) as [cost|] eqn:Hc; [|discriminate].
  exists p, cost. repeat split; try assumption.
  now rewrite Hp.
Qed.

Lemma run_processing_spec (articles : list RawNews.t)
    (market : MarketSnapshot) (st : state) :
  exists ps entries,
    processed_articles (run_processing articles market st)
      = processed_articles st ++ ps /\
    CostTracker.article_costs (cost_tracker (run_processing articles market st))
      = CostTracker.article_costs (cost_tracker st) ++ entries /\
    Forall2 recorded ps entries /\
    subsequence (map ProcessedNews.article_id ps)
      (map RawNews.article_id articles) /\
    CostTracker.total_input_tokens
      (cost_tracker (run_processing articles market st))
      = CostTracker.total_input_tokens (cost_tracker st)
        + sum_Z (map CostRecord.input_tokens entries) /\
    CostTracker.total_output_tokens
      (cost_tracker (run_processing articles market st))
      = CostTracker.total_output_tokens (cost_tracker st)
        + sum_Z (map CostRecord.output_tokens entries) /\
    CostTracker.total_cost_usd
      (cost_tracker (run_processing articles market st))
      = fold_left PrimFloat.add (map CostRecord.cost_usd entries)
          (CostTracker.total_cost_usd (cost_tracker st)).
Proof.
  revert st. induction articles as [|article articles IH]; intros st.
  - exists [], []. cbn [run_processing map sum_Z fold_right fold_left].
    rewrite !app_nil_r, !Z.add_0_r.
    repeat split; constructor.
  - cbn [run_processing].
    destruct (IH (process_article market st article))
      as (ps & entries & Hps & Hledger & Hrec & Hsub & Hin & Hout & Hcost).
    destruct (process_article_cases market st article)
      as [[Htracker Hlist]|(p & cost & Hid & Hc & Hadd & Hlist)].
    + exists ps, entries. rewrite Hps, Hledger, Hin, Hout, Hcost, Htracker, Hlist.
      repeat split; try assumption.
      cbn [map]. now apply subsequence_skip.
    + rewrite (add_processed_article_ok p (cost_tracker st) Hc) in Hadd.
      injection Hadd as Hadd.
      exists (p :: ps),
        (CostRecord.Build (ProcessedNews.article_id p)
           (ProcessedNews.input_tokens p) (ProcessedNews.output_tokens p)
           (ProcessedNews.total_tokens p) cost
           (ProcessedNews.ranking_score p)
           (ProcessedNews.processing_time_ms p) :: entries).
      rewrite Hps, Hledger, Hin, Hout, Hcost, Hlist, <- Hadd.
      cbn [CostTracker.article_costs CostTracker.total_input_tokens
           CostTracker.total_output_tokens CostTracker.total_cost_usd
           map fold_left CostRecord.input_tokens CostRecord.output_tokens
           CostRecord.cost_usd].
      rewrite <- !app_assoc. unfold sum_Z. cbn [fold_right app].
      repeat split; try reflexivity; try lia.
      * constructor; [|exact Hrec]. unfold recorded. cbn.
        repeat split; try reflexivity. exact Hc.
      * rewrite Hid. now apply subsequence_take.
Qed.

End LoopFacts.

(** X6. Whatever tracker the orchestrator holds when [run_processing]
    starts, the loop only appends to its ledger, and what it appends are the
    entries of the records it returns, one for one and in the same order. *)
Theorem run_processing_extends_ledger {rt : Runtime}
    (articles : list RawNews.t) (market : MarketSnapshot)
    (tracker : CostTracker.t) (w : World) :
  exists entries,
    CostTracker.article_costs
      (PipelineOrchestrator.cost_tracker
         (PipelineOrchestrator.run_processing articles market
            (PipelineOrchestrator.State tracker [] w)))
      = CostTracker.article_costs tracker ++ entries /\
    Forall2 recorded
      (PipelineOrchestrator.processed_articles
         (PipelineOrchestrator.run_processing articles market
            (PipelineOrchestrator.State tracker [] w)))
      entries.
Proof.
  destruct (run_processing_spec articles market
              (PipelineOrchestrator.State tracker [] w))
    as (ps & entries & Hps & Hledger & Hrec & _).
  exists entries. split; [exact Hledger|]. now rewrite Hps.
Qed.

(** X7. The records [run_processing] returns carry ids of the articles it
    was given, in the order of the articles, each article at most once: the
    loop skips articles, it never repeats or reorders them. *)
Theorem run_processing_keeps_order {rt : Runtime}
    (articles : list RawNews.t) (market : MarketSnapshot)
    (tracker : CostTracker.t) (w : World) :
  subsequence
    (map ProcessedNews.article_id
       (PipelineOrchestrator.processed_articles
          (PipelineOrchestrator.run_processing articles market
             (PipelineOrchestrator.State tracker [] w))))
    (map RawNews.article_id articles).
Proof.
  destruct (run_processing_spec articles market
              (PipelineOrchestrator.State tracker [] w))
    as (ps & entries & Hps & _ & _ & Hsub & _).
  now rewrite Hps.
Qed.

Lemma fold_left_add_app (l1 l2 : list float) (x : float) :
  fold_left PrimFloat.add (l1 ++ l2) x
  = fold_left PrimFloat.add l2 (fold_left PrimFloat.add l1 x).
Proof. apply fold_left_app. Qed.

(** X8. If the totals of the tracker are those of its ledger when
    [run_processing] starts, they are still those of its ledger when it ends:
    token totals are the sums over the entries, the cost total is the entries'
    costs added in ledger order. A skipped article moves none of them. *)
Theorem run_processing_keeps_totals {rt : Runtime}
    (articles : list RawNews.t) (market : MarketSnapshot)
    (tracker : CostTracker.t) (w : World) :
  totals_match_ledger tracker ->
  totals_match_ledger
    (PipelineOrchestrator.cost_tracker
       (PipelineOrchestrator.run_processing articles market
          (PipelineOrchestrator.State tracker [] w))).
Proof.
  intros (Hin0 & Hout0 & Hcost0).
  destruct (run_processing_spec articles market
              (PipelineOrchestrator.State tracker [] w))
    as (ps & entries & _ & Hledger & _ & _ & Hin & Hout & Hcost).
  unfold totals_match_ledger.
  rewrite Hledger, Hin, Hout, Hcost, !map_app, !sum_Z_app, fold_left_app.
  cbn [PipelineOrchestrator.cost_tracker].
  rewrite <- Hin0, <- Hout0, <- Hcost0. repeat split.
Qed.

Lemma run_processing_keeps_totals_witness :
  totals_match_ledger CostTracker.init /\
  totals_match_ledger
    (PipelineOrchestrator.cost_tracker
       (PipelineOrchestrator.run_processing (rt := scripted)
          [sample_article; sample_article] tt
          (PipelineOrchestrator.State (rt := scripted) CostTracker.init []
             [good_step_1; step_2_confidence_7;
              good_step_1; good_step_2; good_step_3; good_step_4]))).
Proof.
  assert (H : totals_match_ledger CostTracker.init) by (repeat split).
  split; [exact H|].
  exact (@run_processing_keeps_totals scripted
           [sample_article; sample_article] tt CostTracker.init
           [good_step_1; step_2_confidence_7;
            good_step_1; good_step_2; good_step_3; good_step_4] H).
Defined.

(* ================================================================== *)
(** * Cost report of a ledger with entries *)
(* ================================================================== *)

Lemma fold_min_in (costs : list float) (c : float) :
  In (fold_left float_min costs c) (c :: costs).
Proof.
  revert c. induction costs as [|x costs IH]; intros c; [now left|].
  cbn [fold_left]. destruct (IH (float_min c x)) as [H|H].
  - unfold float_min in H at 1. rewrite <- H.
    destruct (x <? c)%float; [right; now left|now left].
  - right. now right.
Qed.

Lemma fold_max_in (costs : list float) (c : float) :
  In (fold_left float_max costs c) (c :: costs).
Proof.
  revert c. induction costs as [|x costs IH]; intros c; [now left|].
  cbn [fold_left]. destruct (IH (float_max c x)) as [H|H].
  - unfold float_max in H at 1. rewrite <- H.
    destruct (c <? x)%float; [right; now left|now left].
  - right. now right.
Qed.

(** X9. The report of a ledger with entries: its least and its largest
    article cost are costs of ledger entries, it counts the entries, carries
    the ledger as its breakdown, the totals of the tracker, and the sum of
    the entries' times. *)
Theorem report_extremes_are_ledger_costs (self : CostTracker.t)
    (date : option pystr) (today : pystr) (report : CostReport.t) :
  CostTracker.article_costs self <> [] ->
  CostTracker.generate_report self date today = Ok report ->
  In (CostReport.min_cost_article report)
    (map CostRecord.cost_usd (CostTracker.article_costs self)) /\
  In (CostReport.max_cost_article report)
    (map CostRecord.cost_usd (CostTracker.article_costs self)) /\
  CostReport.total_articles report = len (CostTracker.article_costs self) /\
  CostReport.cost_breakdown report = CostTracker.article_costs self /\
  CostReport.total_tokens report =
    CostTracker.total_input_tokens self + CostTracker.total_output_tokens self /\
  CostReport.processing_time_ms report =
    sum_Z (map CostRecord.processing_time_ms (CostTracker.article_costs self)).
Proof.
  intros Hledger. unfold CostTracker.generate_report.
  destruct (map CostRecord.cost_usd (CostTracker.article_costs self))
    as [|c costs] eqn:Hcosts.
  - destruct (CostTracker.article_costs self); [now elim Hledger|discriminate].
  - destruct (CostTracker.get_average_tokens_per_article self); [|discriminate].
    cbn [result_bind]. intros H. injection H as <-.
    cbn [CostReport.min_cost_article CostReport.max_cost_article
         CostReport.total_articles CostReport.cost_breakdown
         CostReport.total_tokens CostReport.processing_time_ms].
    split; [apply fold_min_in|]. split; [apply fold_max_in|].
    repeat split.
    clear. generalize (CostTracker.article_costs self). intros l.
    assert (H : forall a, fold_left
                  (fun acc x => acc + CostRecord.processing_time_ms x) l a
                = a + sum_Z (map CostRecord.processing_time_ms l)).
    { induction l as [|x l IH]; intros a; cbn; [lia|].
      rewrite IH. unfold sum_Z. lia. }
    now rewrite H.
Qed.

Lemma report_extremes_are_ledger_costs_witness :
  exists report,
    CostTracker.article_costs one_entry_tracker <> [] /\
    CostTracker.generate_report one_entry_tracker None (utf8 "2025-01-01")
      = Ok report /\
    In (CostReport.min_cost_article report)
      (map CostRecord.cost_usd (CostTracker.article_costs one_entry_tracker)) /\
    CostReport.total_articles report = 1.
Proof.
  eexists.
  assert (H1 : CostTracker.article_costs one_entry_tracker <> [])
    by discriminate.
  split; [exact H1|]. split; [vm_compute; reflexivity|].
  destruct (@report_extremes_are_ledger_costs one_entry_tracker None
              (utf8 "2025-01-01") _ H1 eq_refl) as (Hmin & _ & Hn & _).
  split; [exact Hmin|exact Hn].
Defined.

(** X10. [generate_report] raises nothing but [OverflowError], and only on
    a ledger with entries: the average of tokens per article is the one
    division it makes on ints, and it divides by a count that is not zero. *)
Theorem report_raises_only_overflow (self : CostTracker.t)
    (date : option pystr) (today : pystr) (e : exn) :
  CostTracker.generate_report self date today = Raise e ->
  e = OverflowError /\ CostTracker.article_costs self <> [].
Proof.
  unfold CostTracker.generate_report, CostTracker.get_average_tokens_per_article.
  destruct (CostTracker.article_costs self) as [|a l] eqn:Hl;
    cbn [map]; [discriminate|].
  cbn [is_empty]. unfold int_true_div_checked.
  assert (Hlen : (len (a :: l) =? 0) = false).
  { apply Z.eqb_neq. unfold len. cbn [List.length]. lia. }
  rewrite Hlen.
  destruct (is_infinity _); cbn [result_bind]; [|discriminate].
  intros H. injection H as <-. split; [reflexivity|discriminate].
Qed.

Lemma report_raises_only_overflow_witness :
  CostTracker.generate_report overflowing_tracker None (utf8 "2025-01-01")
    = Raise OverflowError /\
  OverflowError = OverflowError /\
  CostTracker.article_costs overflowing_tracker <> [].
Proof.
  assert (H : CostTracker.generate_report overflowing_tracker None
                (utf8 "2025-01-01") = Raise OverflowError)
    by (vm_compute; reflexivity).
  split; [exact H|].
  exact (@report_raises_only_overflow overflowing_tracker None
           (utf8 "2025-01-01") OverflowError H).
Defined.

(* ================================================================== *)
(** * Response text: fences *)
(* ================================================================== *)

Lemma lstrip_length (s : pystr) : (List.length (lstrip s) <= List.length s)%nat.
Proof.
  induction s as [|c s IH]; simpl; [lia|].
  destruct (isspace c); simpl; lia.
Qed.

Lemma rstrip_length (s : pystr) : (List.length (rstrip s) <= List.length s)%nat.
Proof.
  unfold rstrip. rewrite length_rev.
  etransitivity; [apply lstrip_length|]. now rewrite length_rev.
Qed.

Lemma rstrip_snoc_space (s : pystr) (c : N) :
  isspace c = true -> rstrip (s ++ [c]) = rstrip s.
Proof.
  intros Hc. unfold rstrip. rewrite rev_app_distr. simpl. now rewrite Hc.
Qed.

Lemma rstrip_snoc (s : pystr) (c : N) :
  isspace c = false -> rstrip (s ++ [c]) = s ++ [c].
Proof.
  intros Hc. unfold rstrip. rewrite rev_app_distr. simpl. rewrite Hc.
  simpl. now rewrite rev_involutive.
Qed.

(** A text that [strip] leaves alone starts with no blank, and [rstrip]
    leaves it alone. *)
Lemma strip_fixed_head (c : N) (r : pystr) :
  strip (c :: r) = c :: r ->
  isspace c = false /\ rstrip (c :: r) = c :: r.
Proof.
  unfold strip. intros H.
  destruct (isspace c) eqn:Hc.
  - exfalso. simpl in H. rewrite Hc in H.
    pose proof (rstrip_length (lstrip r)) as H1.
    pose proof (lstrip_length r) as H2.
    rewrite H in H1. simpl in H1. lia.
  - split; [reflexivity|]. simpl in H. now rewrite Hc in H.
Qed.

(** A stripped text between two line feeds is what [strip] gives back. *)
Lemma strip_between_newlines (body : pystr) :
  strip body = body -> strip (10%N :: body ++ [10%N]) = body.
Proof.
  intros Hbody. unfold strip.
  change (lstrip (10%N :: body ++ [10%N])) with (lstrip (body ++ [10%N])).
  destruct body as [|c r]; [reflexivity|].
  destruct (strip_fixed_head Hbody) as [Hc Hr].
  change ((c :: r) ++ [10%N]) with (c :: (r ++ [10%N])) at 1.
  simpl lstrip. rewrite Hc.
  change (c :: r ++ [10%N]) with ((c :: r) ++ [10%N]).
  rewrite rstrip_snoc_space by reflexivity. exact Hr.
Qed.

Lemma firstn_without_suffix (A : Type) (a b : list A) :
  firstn (List.length (a ++ b) - List.length b) (a ++ b) = a.
Proof.
  rewrite length_app.
  replace (List.length a + List.length b - List.length b)%nat
    with (List.length a + 0)%nat by lia.
  rewrite firstn_app_2. simpl. now rewrite app_nil_r.
Qed.

(** What is left once the opening fence is cut: line feed, body, line feed
    and closing fence become the body. *)
Lemma closing_fence_cut (body : pystr) :
  strip body = body ->
  let response_text := 10%N :: body ++ [10%N] ++ utf8 "```" in
  strip (if endswith (utf8 "```") response_text
         then firstn (List.length response_text - 3) response_text
         else response_text) = body.
Proof.
  intros Hbody response_text.
  assert (Hshape : response_text = (10%N :: body ++ [10%N]) ++ utf8 "```").
  { unfold response_text. simpl. now rewrite <- app_assoc. }
  assert (Hends : endswith (utf8 "```") response_text = true).
  { unfold endswith. rewrite Hshape, rev_app_distr. reflexivity. }
  rewrite Hends, Hshape.
  change 3%nat with (List.length (utf8 "```")).
  rewrite firstn_without_suffix. now apply strip_between_newlines.
Qed.

Lemma strip_fenced (fence : pystr) (c : N) (middle : pystr) :
  isspace c = false ->
  strip ((c :: fence) ++ middle ++ utf8 "```") = (c :: fence) ++ middle ++ utf8 "```".
Proof.
  intros Hc. unfold strip.
  change ((c :: fence) ++ middle ++ utf8 "```")
    with (c :: (fence ++ middle ++ utf8 "```")).
  simpl lstrip. rewrite Hc.
  change (utf8 "```") with ([96%N; 96%N] ++ [96%N]).
  change (c :: fence ++ middle ++ [96%N; 96%N] ++ [96%N])
    with ((c :: fence) ++ middle ++ [96%N; 96%N] ++ [96%N]).
  rewrite !app_assoc. apply rstrip_snoc. reflexivity.
Qed.

(** X11. A response that wraps its text in a fence is unwrapped: for a text
    that has no blanks at either end, a line with [```json] (or with [```]
    alone) before it and a line with [```] after it are taken off, and the
    text itself is what goes to [json.loads]. *)
Theorem fenced_response_is_unwrapped (body : pystr) :
  strip body = body ->
  LLMClient.clean_response_text
    (utf8 "```json" ++ [10%N] ++ body ++ [10%N] ++ utf8 "```") = body /\
  LLMClient.clean_response_text
    (utf8 "```" ++ [10%N] ++ body ++ [10%N] ++ utf8 "```") = body.
Proof.
  intros Hbody. unfold LLMClient.clean_response_text. split.
  - change (utf8 "```json")
      with (96%N :: [96%N; 96%N; 106%N; 115%N; 111%N; 110%N]).
    rewrite (app_assoc [10%N] body), (app_assoc ([10%N] ++ body)).
    rewrite (@strip_fenced [96%N; 96%N; 106%N; 115%N; 111%N; 110%N] 96%N
               (([10%N] ++ body) ++ [10%N]) eq_refl).
    rewrite <- (app_assoc ([10%N] ++ body)), <- (app_assoc [10%N] body).
    cbn [app startswith N.eqb Pos.eqb andb skipn].
    now apply closing_fence_cut.
  - change (utf8 "```" ++ [10%N] ++ body ++ [10%N] ++ utf8 "```")
      with ([96%N; 96%N; 96%N] ++ [10%N] ++ body ++ [10%N] ++ utf8 "```").
    rewrite (app_assoc [10%N] body), (app_assoc ([10%N] ++ body)).
    rewrite (@strip_fenced [96%N; 96%N] 96%N
               (([10%N] ++ body) ++ [10%N]) eq_refl).
    rewrite <- (app_assoc ([10%N] ++ body)), <- (app_assoc [10%N] body).
    change (utf8 "```json")
      with [96%N; 96%N; 96%N; 106%N; 115%N; 111%N; 110%N].
    change (startswith (utf8 "```"))
      with (startswith [96%N; 96%N; 96%N]).
    cbn [app startswith N.eqb Pos.eqb andb skipn].
    now apply closing_fence_cut.
Qed.

Lemma fenced_response_is_unwrapped_witness :
  strip (utf8 "{}") = utf8 "{}" /\
  LLMClient.clean_response_text
    (utf8 "```json" ++ [10%N] ++ utf8 "{}" ++ [10%N] ++ utf8 "```") = utf8 "{}" /\
  LLMClient.clean_response_text
    (utf8 "```" ++ [10%N] ++ utf8 "{}" ++ [10%N] ++ utf8 "```") = utf8 "{}".
Proof.
  split; [reflexivity|].
  apply (@fenced_response_is_unwrapped (utf8 "{}")). reflexivity.
Defined.

(* ================================================================== *)
(** * Deduplication *)
(* ================================================================== *)

Section DuplicateFacts.
Context {text : PyText} {difflib : Difflib}.

Lemma is_duplicate_loop_spec (t : pystr) (existing_texts : list pystr)
    (threshold max_similarity : float) :
  hash_utils.is_duplicate_loop t existing_texts threshold max_similarity =
  match find (fun existing_text =>
                (threshold <=? hash_utils.calculate_similarity t existing_text)%float)
          existing_texts with
  | Some existing_text =>
      (true, hash_utils.calculate_similarity t existing_text)
  | None =>
      (false,
       fold_left (fun m existing_text =>
                    float_max m (hash_utils.calculate_similarity t existing_text))
         existing_texts max_similarity)
  end.
Proof.
  revert max_similarity.
  induction existing_texts as [|e l IH]; intros m; cbn; [reflexivity|].
  destruct (threshold <=? hash_utils.calculate_similarity t e)%float;
    [reflexivity|apply IH].
Qed.

Lemma similar_loop_spec (title : pystr) (threshold : float)
    (articles : list RawNews.t) (similar : list pystr) :
  ParquetStorage.similar_loop title threshold articles similar =
  similar ++
  map RawNews.title
    (filter (fun article =>
               (threshold <=?
                hash_utils.calculate_similarity title (RawNews.title article))%float)
       articles).
Proof.
  revert similar. induction articles as [|a l IH]; intros similar; cbn.
  - now rewrite app_nil_r.
  - destruct (threshold <=? _)%float; rewrite IH; [|reflexivity].
    cbn. now rewrite <- app_assoc.
Qed.

Lemma existsb_filter_nil (A : Type) (f : A -> bool) (l : list A) :
  existsb f l = negb (is_empty (filter f l)).
Proof.
  induction l as [|a l IH]; cbn; [reflexivity|].
  destruct (f a); [reflexivity|exact IH].
Qed.

End DuplicateFacts.

(** X12. [is_duplicate] reports a duplicate exactly when one of the
    existing texts reaches the threshold, and the similarity it then returns
    is that of the first such text in list order, whatever the later texts
    score; with no such text it returns the largest similarity met, counted
    from 0.0. *)
Theorem is_duplicate_first_match {text : PyText} {difflib : Difflib}
    (t : pystr) (existing_texts : list pystr) (threshold : float) :
  hash_utils.is_duplicate t existing_texts threshold =
  match find (fun existing_text =>
                (threshold <=? hash_utils.calculate_similarity t existing_text)%float)
          existing_texts with
  | Some existing_text =>
      (true, hash_utils.calculate_similarity t existing_text)
  | None =>
      (false,
       fold_left (fun m existing_text =>
                    float_max m (hash_utils.calculate_similarity t existing_text))
         existing_texts 0.0%float)
  end.
Proof. apply is_duplicate_loop_spec. Qed.

(** X13. When the storage cannot be read, the duplicate gate lets every
    article through: both lookups swallow the exception and answer "nothing
    found". *)
Theorem duplicate_gate_fails_open {text : PyText} {difflib : Difflib}
    (e : exn) (article : RawNews.t) :
  DuplicateDetectionGate.check (Raise e) article =
  _create_result DuplicateDetectionGate.name article true
    (Fmt "No duplicates detected" []).
Proof. reflexivity. Qed.

(** X14. Over a storage that can be read, the duplicate gate passes an
    article exactly when no stored article has its content hash and no
    stored title is similar to its title at the threshold 0.9. *)
Theorem duplicate_gate_verdict {text : PyText} {difflib : Difflib}
    (stored : list RawNews.t) (article : RawNews.t) :
  GateCheckResult.passed (DuplicateDetectionGate.check (Ok stored) article) =
  negb (existsb (fun other =>
                   pystr_eqb (RawNews.hash_content other)
                     (RawNews.hash_content article)) stored)
  && negb (existsb (fun other =>
                      (SIMILARITY_THRESHOLD <=?
                       hash_utils.calculate_similarity (RawNews.title article)
                         (RawNews.title other))%float) stored).
Proof.
  unfold DuplicateDetectionGate.check, ParquetStorage.hash_exists,
    ParquetStorage.find_similar_titles.
  destruct (existsb _ stored); [reflexivity|].
  rewrite similar_loop_spec. cbn [app negb andb].
  rewrite existsb_filter_nil.
  destruct (filter _ stored); reflexivity.
Qed.

(** X15. An article that is itself among the stored articles never passes
    the duplicate gate: it is found as its own duplicate by content hash. *)
Theorem stored_article_is_its_own_duplicate {text : PyText} {difflib : Difflib}
    (stored : list RawNews.t) (article : RawNews.t) :
  In article stored ->
  GateCheckResult.passed (DuplicateDetectionGate.check (Ok stored) article)
    = false.
Proof.
  intros Hin. unfold DuplicateDetectionGate.check, ParquetStorage.hash_exists.
  assert (H : existsb (fun other =>
                pystr_eqb (RawNews.hash_content other)
                  (RawNews.hash_content article)) stored = true).
  { apply existsb_exists. exists article. split; [exact Hin|].
    apply pystr_eqb_refl. }
  now rewrite H.
Qed.

Lemma stored_article_is_its_own_duplicate_witness :
  In sample_article [long_article; sample_article] /\
  GateCheckResult.passed
    (DuplicateDetectionGate.check (text := latin1) (difflib := exact_match)
       (Ok [long_article; sample_article]) sample_article) = false.
Proof.
  assert (H : In sample_article [long_article; sample_article])
    by (right; left; reflexivity).
  split; [exact H|].
  exact (@stored_article_is_its_own_duplicate latin1 exact_match _ _ H).
Defined.

(* ================================================================== *)
(** * Ranking distribution *)
(* ================================================================== *)

Lemma dict_get_set (d : list (Z * Z)) (key value k default : Z) :
  DailyAnalyzer.dict_get (DailyAnalyzer.dict_set d key value) k default =
  if k =? key then value else DailyAnalyzer.dict_get d k default.
Proof.
  induction d as [|[k0 v0] d IH]; cbn.
  - now rewrite (Z.eqb_sym key k).
  - destruct (k0 =? key) eqn:H0; cbn; destruct (k0 =? k) eqn:H1;
      destruct (k =? key) eqn:H2; rewrite ?IH, ?H2; try reflexivity;
      rewrite ?Z.eqb_eq, ?Z.eqb_neq in *; lia.
Qed.

Section DistributionFacts.
Context {rt : Runtime}.

Lemma distribution_fold (articles : list ProcessedNews.t)
    (distribution : list (Z * Z)) (score : Z) :
  DailyAnalyzer.dict_get
    (fold_left
       (fun distribution article =>
          match ProcessedNews.ranking_score article with
          | Some score =>
              if score =? 0 then distribution
              else DailyAnalyzer.dict_set distribution score
                     (DailyAnalyzer.dict_get distribution score 0 + 1)
          | None => distribution
          end) articles distribution) score 0 =
  DailyAnalyzer.dict_get distribution score 0 +
  (if score =? 0 then 0 else scored score articles).
Proof.
  revert distribution.
  induction articles as [|a l IH]; intros distribution; cbn [fold_left].
  - unfold scored. cbn. destruct (score =? 0); lia.
  - rewrite IH. unfold scored. cbn [filter].
    destruct (ProcessedNews.ranking_score a) as [s|]; [|reflexivity].
    destruct (s =? 0) eqn:Hs0.
    + apply Z.eqb_eq in Hs0. subst s.
      destruct (score =? 0) eqn:H0; [reflexivity|].
      rewrite (Z.eqb_sym 0 score), H0. reflexivity.
    + rewrite dict_get_set. rewrite (Z.eqb_sym score s).
      destruct (s =? score) eqn:Hs.
      * apply Z.eqb_eq in Hs. subst s. rewrite Hs0.
        unfold len. cbn [List.length]. lia.
      * reflexivity.
Qed.

End DistributionFacts.

(** X16. The distribution counts, under every score other than 0, the
    records that carry that score, also for a score outside 1..5; records
    with no score or with score 0 are counted nowhere. *)
Theorem ranking_distribution_counts {rt : Runtime}
    (articles : list ProcessedNews.t) (score : Z) :
  DailyAnalyzer.dict_get
    (DailyAnalyzer.get_ranking_distribution articles) score 0 =
  if score =? 0 then 0 else scored score articles.
Proof.
  unfold DailyAnalyzer.get_ranking_distribution. rewrite distribution_fold.
  assert (H : DailyAnalyzer.dict_get
                [(1, 0); (2, 0); (3, 0); (4, 0); (5, 0)] score 0 = 0).
  { cbn [DailyAnalyzer.dict_get].
    repeat (destruct (_ =? score); [reflexivity|]). reflexivity. }
  rewrite H. reflexivity.
Qed.

(* ================================================================== *)
(** * Dates in URLs *)
(* ================================================================== *)

Lemma search_skips {digits : PyDigits} (pre s : pystr) :
  (forall i, (i < List.length pre)%nat ->
     date_utils.match_here (skipn i (pre ++ s)) = None) ->
  date_utils.search (pre ++ s) = date_utils.search s.
Proof.
  induction pre as [|c pre IH]; intros Hpre; [reflexivity|].
  change ((c :: pre) ++ s) with (c :: (pre ++ s)).
  cbn [date_utils.search].
  pose proof (Hpre 0%nat ltac:(simpl; lia)) as H0. cbn [skipn app] in H0.
  rewrite H0. apply IH. intros i Hi.
  apply (Hpre (S i)). simpl. lia.
Qed.

(** X17. Only the first date-shaped segment of a URL counts. Where
    [/dddd/dd/dd/] first occurs, its three numbers are handed to [datetime]:
    the result is that date if it exists and [None] if it does not, whatever
    follows in the URL. *)
Theorem first_date_segment_decides {digits : PyDigits}
    (pre s : pystr) (y m d : Z) :
  (forall i, (i < List.length pre)%nat ->
     date_utils.match_here (skipn i (pre ++ s)) = None) ->
  date_utils.match_here s = Some (y, m, d) ->
  date_utils.parse_date_from_url (pre ++ s) = date_utils.datetime_of y m d.
Proof.
  intros Hpre Hs. unfold date_utils.parse_date_from_url.
  rewrite (search_skips pre s Hpre).
  destruct s as [|c s]; cbn [date_utils.search]; now rewrite Hs.
Qed.

Lemma first_date_segment_decides_witness :
  date_utils.parse_date_from_url (digits := ascii_digits)
    (utf8 "https://cnnespanol.cnn.com" ++ utf8 "/2025/13/45/2025/01/02/reforma")
  = None.
Proof.
  apply (@first_date_segment_decides ascii_digits
           (utf8 "https://cnnespanol.cnn.com")
           (utf8 "/2025/13/45/2025/01/02/reforma") 2025 13 45).
  - intros i Hi.
    do 26 (destruct i as [|i]; [reflexivity|]).
    exfalso. vm_compute in Hi. lia.
  - reflexivity.
Defined.

(* ================================================================== *)
(** * Chain executor: responses of the wrong shape *)
(* ================================================================== *)

(** X18. A response that parses to something other than an object (a list,
    a number, a text, null) aborts the chain at the first stage with
    [AttributeError]: the stage calls [.get] on it. Nothing is asked of the
    client after that. *)
Theorem non_object_response_aborts_chain {rt : Runtime}
    (article : RawNews.t) (market : MarketSnapshot) (w w' : World)
    (response_json : pyval) (input_tokens output_tokens : Z) :
  (forall d, response_json <> PDict d) ->
  call_with_json_response
    (STEP_1_SUMMARIZATION (RawNews.title article) (RawNews.content article)) w
    = (Ok (response_json, input_tokens, output_tokens), w') ->
  ChainExecutor.execute_full_chain article market w = (Raise AttributeError, w').
Proof.
  intros Hshape Hcall. apply chain_raises_at_1.
  rewrite execute_step_1_eq, Hcall.
  destruct response_json; try reflexivity. now elim (Hshape d).
Qed.

Lemma non_object_response_aborts_chain_witness :
  ChainExecutor.execute_full_chain (rt := scripted) sample_article tt
    [list_response; good_step_2; good_step_3; good_step_4]
  = (Raise AttributeError, [good_step_2; good_step_3; good_step_4]).
Proof.
  apply (@non_object_response_aborts_chain scripted sample_article tt
           [list_response; good_step_2; good_step_3; good_step_4]
           [good_step_2; good_step_3; good_step_4] (PList []) 100 50).
  - discriminate.
  - reflexivity.
Defined.

(** X19. A score that is no number aborts the fourth stage with
    [TypeError], before the model is built: a list or an object cannot be a
    key of the category table, and a text or null cannot be compared with
    2. *)
Theorem non_numeric_score_raises_type_error {rt : Runtime}
    (d : list (pystr * pyval)) (score : pyval) :
  lookup (utf8 "score") d = Some score ->
  is_number score = false ->
  ChainExecutor.parse_step_4 (PDict d) = Raise TypeError.
Proof.
  intros Hscore Hnum. unfold ChainExecutor.parse_step_4.
  rewrite (get_present d "score" (PInt 3) Hscore).
  unfold get. cbn [result_bind].
  destruct score; try discriminate; reflexivity.
Qed.

Lemma non_numeric_score_raises_type_error_witness :
  ChainExecutor.parse_step_4 (rt := scripted) (PDict score_as_text)
  = Raise TypeError.
Proof.
  apply (@non_numeric_score_raises_type_error scripted score_as_text
           (pstr "4")); reflexivity.
Defined.

Lemma pystr_eqb_length (a b : pystr) :
  List.length a <> List.length b -> pystr_eqb a b = false.
Proof.
  intros H. unfold pystr_eqb.
  destruct (list_eq_dec N.eq_dec a b) as [->|]; [now elim H|reflexivity].
Qed.

Lemma one_character_is_no_topic (c : N) :
  is_ok (TopicCategory_call (PStr [c])) = false.
Proof.
  unfold TopicCategory_call, enum_call, TopicCategory_members.
  cbn [find].
  repeat (rewrite pystr_eqb_length by (vm_compute; discriminate)).
  reflexivity.
Qed.

(** X20. Topics given as one text instead of a list are read character by
    character; no character is the value of a category, so every one is
    dropped and the stage goes on with the single topic OTHER, even when the
    text as a whole names a category. *)
Theorem text_topics_become_other {rt : Runtime}
    (d : list (pystr * pyval)) (s : pystr) :
  lookup (utf8 "topics") d = Some (PStr s) ->
  ChainExecutor.parse_step_2 (PDict d) =
  TopicExtractionOutput.new [OTHER]
    (match lookup (utf8 "reasoning") d with Some v => v | None => PStr [] end)
    (match lookup (utf8 "confidence") d with
     | Some v => v
     | None => PFloat 0.5
     end).
Proof.
  intros Htopics. unfold ChainExecutor.parse_step_2.
  rewrite (get_present d "topics" (PList []) Htopics).
  cbn [result_bind iter]. rewrite parse_topics_none.
  - reflexivity.
  - intros v Hv. apply in_map_iff in Hv as (c & <- & _).
    apply one_character_is_no_topic.
Qed.

Lemma text_topics_become_other_witness :
  ChainExecutor.parse_step_2 (rt := scripted) (PDict topics_as_text) =
  TopicExtractionOutput.new (rt := scripted) [OTHER] (PStr []) (PFloat 0.9).
Proof.
  apply (@text_topics_become_other scripted topics_as_text (utf8 "economy")).
  reflexivity.
Defined.

(* ================================================================== *)
(** * Stopwords *)
(* ================================================================== *)

Lemma forallb_rev_any (A : Type) (f : A -> bool) (l : list A) :
  forallb f (rev l) = forallb f l.
Proof.
  induction l as [|a l IH]; simpl; [reflexivity|].
  rewrite forallb_app, IH. simpl. rewrite andb_true_r. apply andb_comm.
Qed.

Lemma is_word_rev (c : N) (cur : pystr) :
  forallb (fun c => negb (isspace c)) (c :: cur) = true ->
  is_word (rev (c :: cur)) = true.
Proof.
  intros H. unfold is_word. rewrite forallb_rev_any, H.
  destruct (rev (c :: cur)) eqn:Hr; [|reflexivity].
  apply (f_equal (@List.length N)) in Hr. rewrite length_rev in Hr.
  discriminate.
Qed.

Lemma split_go_words (s cur : pystr) :
  forallb (fun c => negb (isspace c)) cur = true ->
  forallb is_word (split_go s cur) = true.
Proof.
  revert cur. induction s as [|c s IH]; intros cur Hcur; cbn [split_go].
  - destruct cur as [|a cur]; [reflexivity|].
    cbn [forallb]. now rewrite is_word_rev.
  - destruct (isspace c) eqn:Hc.
    + destruct cur as [|a cur]; [now apply IH|].
      cbn [forallb]. rewrite is_word_rev by exact Hcur. now apply IH.
    + apply IH. cbn [forallb]. now rewrite Hc, Hcur.
Qed.

Lemma split_go_word (w s cur : pystr) :
  forallb (fun c => negb (isspace c)) w = true ->
  split_go (w ++ s) cur = split_go s (rev w ++ cur).
Proof.
  revert cur. induction w as [|c w IH]; intros cur Hw; [reflexivity|].
  cbn [forallb] in Hw. apply andb_prop in Hw as [Hc Hw].
  cbn [app split_go]. apply negb_true_iff in Hc. rewrite Hc.
  rewrite IH by exact Hw. cbn [rev]. now rewrite <- app_assoc.
Qed.

Lemma split_word (w : pystr) (s : pystr) :
  is_word w = true ->
  split_go (w ++ s) [] =
  match s with
  | [] => [w]
  | c :: s' => if isspace c then w :: split_go s' [] else split_go s (rev w)
  end.
Proof.
  unfold is_word. intros Hw. apply andb_prop in Hw as [Hne Hw].
  rewrite split_go_word by exact Hw. rewrite app_nil_r.
  destruct (rev w) as [|a r] eqn:Hr.
  - apply (f_equal (@rev N)) in Hr. rewrite rev_involutive in Hr.
    subst w. discriminate.
  - rewrite <- Hr. destruct s as [|c s']; cbn [split_go].
    + rewrite Hr, <- Hr. now rewrite rev_involutive.
    + destruct (isspace c); [|reflexivity].
      rewrite Hr, <- Hr. now rewrite rev_involutive.
Qed.

(** Words joined by single spaces are the words [split] finds. *)
Lemma split_join (words : list pystr) :
  forallb is_word words = true ->
  split (join (utf8 " ") words) = words.
Proof.
  unfold split. induction words as [|w words IH]; intros Hall; [reflexivity|].
  cbn [forallb] in Hall. apply andb_prop in Hall as [Hw Hall].
  destruct words as [|w2 words].
  - cbn [join]. rewrite <- (app_nil_r w) at 1. now rewrite split_word.
  - change (join (utf8 " ") (w :: w2 :: words))
      with (w ++ 32%N :: join (utf8 " ") (w2 :: words)).
    rewrite split_word by exact Hw.
    change (isspace 32) with true. cbv iota.
    now rewrite IH.
Qed.

Lemma forallb_filter_keeps (A : Type) (f g : A -> bool) (l : list A) :
  forallb f l = true -> forallb f (filter g l) = true.
Proof.
  induction l as [|a l IH]; cbn; [reflexivity|].
  intros H. apply andb_prop in H as [Ha Hl].
  destruct (g a); cbn; [rewrite Ha|]; now apply IH.
Qed.

(** X21. The words of the text [remove_stopwords] returns are the words of
    the lower-cased input that are not stopwords, in their order; no word is
    cut, merged or lost on the way through [join]. *)
Theorem remove_stopwords_keeps_other_words {text : PyText}
    (t : pystr) (stopwords : list pystr) :
  split (hash_utils.remove_stopwords t stopwords) =
  filter (fun word => negb (hash_utils.in_set word stopwords))
    (split (lower t)).
Proof.
  unfold hash_utils.remove_stopwords. apply split_join.
  apply forallb_filter_keeps. unfold split. now apply split_go_words.
Qed.

(* ================================================================== *)
(** * Gates: verdicts *)
(* ================================================================== *)

(** X22. The content-quality gate passes an article exactly when its
    content has between 200 and 50000 characters, meets the required ratio of
    language markers, and its title is not blank. Lower-casing is only asked
    to leave blank text blank. *)
Theorem content_quality_verdict {text : PyText}
    (lower_blank : forall s, forallb isspace s = true ->
                             forallb isspace (lower s) = true)
    (article : RawNews.t) :
  GateCheckResult.passed (ContentQualityGate.check article) =
  (MIN_CONTENT_LENGTH <=? len (RawNews.content article))
  && (len (RawNews.content article) <=? MAX_CONTENT_LENGTH)
  && negb (ContentQualityGate._detect_spanish_ratio (RawNews.content article)
             <? REQUIRED_SPANISH_RATIO)%float
  && negb (is_empty (strip (RawNews.title article))).
Proof.
  unfold ContentQualityGate.check.
  rewrite (Z.leb_antisym (len (RawNews.content article)) MIN_CONTENT_LENGTH).
  destruct (len (RawNews.content article) <? MIN_CONTENT_LENGTH);
    [reflexivity|].
  rewrite Z.gtb_ltb, (Z.leb_antisym MAX_CONTENT_LENGTH).
  destruct (MAX_CONTENT_LENGTH <? len (RawNews.content article));
    [reflexivity|].
  destruct (ContentQualityGate._detect_spanish_ratio (RawNews.content article)
              <? REQUIRED_SPANISH_RATIO)%float eqn:Hratio; [reflexivity|].
  pose proof (ratio_met_not_blank lower_blank _ Hratio) as Hstrip.
  cbn [negb andb].
  destruct (RawNews.title article) as [|c title] eqn:Htitle; [reflexivity|].
  cbn [orb]. destruct (strip (c :: title)); [reflexivity|].
  destruct (RawNews.content article) as [|c0 content]; [now elim Hstrip|].
  cbn [orb]. destruct (strip (c0 :: content)); [now elim Hstrip|reflexivity].
Qed.

Lemma content_quality_verdict_witness :
  (forall s, forallb isspace s = true ->
             forallb isspace (lower (PyText := latin1) s) = true) /\
  GateCheckResult.passed
    (ContentQualityGate.check (text := latin1) sample_article) = false /\
  (MIN_CONTENT_LENGTH <=? len (RawNews.content sample_article)) = false.
Proof.
  split; [exact latin1_lower_blank|].
  assert (H : (MIN_CONTENT_LENGTH <=? len (RawNews.content sample_article))
              = false) by reflexivity.
  split; [|exact H].
  rewrite (@content_quality_verdict latin1 latin1_lower_blank sample_article).
  now rewrite H.
Defined.

(** X23. For a text without "exportación", the one keyword the lexicon
    lists twice, the topic gate passes an article exactly when at least 2
    distinct lexicon keywords occur in its title and content. *)
Theorem topic_gate_counts_distinct_keywords {text : PyText}
    (article : RawNews.t) :
  contains (utf8 "exportación")
    (lower (RawNews.title article ++ utf8 " " ++ RawNews.content article))
    = false ->
  GateCheckResult.passed (TopicRelevanceGate.check article) =
  (MIN_KEYWORD_MATCHES <=?
     distinct_keyword_matches
       (RawNews.title article ++ utf8 " " ++ RawNews.content article)).
Proof.
  intros Hx. rewrite topic_gate_verdict.
  now rewrite (count_is_distinct_without_exportacion _ Hx).
Qed.

Lemma topic_gate_counts_distinct_keywords_witness :
  contains (utf8 "exportación")
    (lower (PyText := latin1)
       (RawNews.title sample_article ++ utf8 " " ++ RawNews.content sample_article))
    = false /\
  GateCheckResult.passed (TopicRelevanceGate.check (text := latin1) sample_article) =
  (MIN_KEYWORD_MATCHES <=?
     distinct_keyword_matches (text := latin1)
       (RawNews.title sample_article ++ utf8 " " ++ RawNews.content sample_article)).
Proof.
  assert (H : contains (utf8 "exportación")
                (lower (PyText := latin1)
                   (RawNews.title sample_article ++ utf8 " "
                    ++ RawNews.content sample_article)) = false)
    by (vm_compute; reflexivity).
  split; [exact H|].
  exact (@topic_gate_counts_distinct_keywords latin1 sample_article H).
Defined.
